(** * Gyro calibration and filter pipeline of [src/main/sensors/gyro.c]

    A shallow embedding of the calibration state machine
    ([gyroSetCalibrationCycles], [performGyroCalibration]) and of the
    per-tick pipeline ([gyroUpdate]), followed by the properties the
    specification states about them.

    The C globals of the file become the fields of two records: [config]
    holds what a tick only reads, [state] what a tick writes.  The headers
    the file includes but which are not part of it (filters, running
    deviation, board alignment, constants) are the fields of the class
    [Platform].

    Part I holds the definitions, Part II the lemmas and theorems of the
    specification's claims, Part III further properties of the code, among
    them of the set-up functions [gyroUseConfig] and [gyroInit]. *)

From Stdlib Require Import ZArith List Bool Lia.
From Stdlib Require Import Floats.SpecFloat.
Import ListNotations.
Local Open Scope Z_scope.

(* ================================================================== *)
(** * Part I: definitions *)

(** ** Machine integers *)

Module Int.

(** [uint16_t], [uint32_t]: reduction modulo the word size. *)
Definition u16 (z : Z) : Z := z mod 65536.
Definition u32 (z : Z) : Z := z mod 4294967296.

(** [int16_t], [int32_t]: two's complement wrap-around. *)
Definition s16 (z : Z) : Z := (z + 32768) mod 65536 - 32768.
Definition s32 (z : Z) : Z := (z + 2147483648) mod 4294967296 - 2147483648.

Definition in_u16 (z : Z) : Prop := 0 <= z < 65536.
Definition in_s32 (z : Z) : Prop := -2147483648 <= z < 2147483648.

(** C's [/] on signed operands truncates toward zero. *)
Definition cdiv (a b : Z) : Z := Z.quot a b.

End Int.
Import Int.

(** ** Single-precision floats

    [float] is IEEE 754 binary32, through the standard library's
    specification of floating-point arithmetic at precision 24. *)

Module F32.

Definition float := spec_float.
Definition prec : Z := 24.
Definition emax : Z := 128.

(** The conversion [(float) i] of an integer: round to nearest even. *)
Definition of_int (i : Z) : float := binary_normalize prec emax i 0 false.

(** [a > b] on floats; false when either side is a NaN. *)
Definition gt (a b : float) : bool := SFltb b a.

Definition add : float -> float -> float := SFadd prec emax.
Definition sub : float -> float -> float := SFsub prec emax.
Definition mul : float -> float -> float := SFmul prec emax.
Definition div : float -> float -> float := SFdiv prec emax.
Definition sqrtf : float -> float := SFsqrt prec emax.

(** How a positive value [m * 2^e] is rounded to an integer: the integer
    part and whether the remainder is below, at or above one half. *)
Definition split (m : positive) (e : Z) : Z * comparison :=
  match e with
  | Zneg p =>
      let d := Z.pow_pos 2 p in
      (Z.pos m / d, Z.compare (2 * (Z.pos m mod d)) d)
  | _ => (Z.pos m * 2 ^ e, Lt)
  end.

Definition nearest_even (qc : Z * comparison) : Z :=
  match qc with
  | (q, Lt) => q
  | (q, Eq) => if Z.even q then q else q + 1
  | (q, Gt) => q + 1
  end.

Definition nearest_away (qc : Z * comparison) : Z :=
  match qc with
  | (q, Lt) => q
  | (q, _) => q + 1
  end.

Definition round_with (r : Z * comparison -> Z) (x : float) : Z :=
  match x with
  | S754_finite s m e => if s then - r (split m e) else r (split m e)
  | _ => 0
  end.

(** [lrintf] of the C library, in the default rounding direction of the
    floating-point environment (to nearest, ties to even).  The result is
    a [long], 32 bits on the target; C leaves it unspecified for a NaN, an
    infinity or a value out of range: the model returns 0 for the first
    two and wraps the third. *)
Definition lrintf (x : float) : Z := s32 (round_with nearest_even x).

(** Follows the spec's words: [round_nearest_ties_away_from_zero]. *)
Definition round_nearest_ties_away_from_zero (x : float) : Z :=
  round_with nearest_away x.

End F32.
Import F32.

(** ** Per-axis arrays

    Every array of the file has one slot per axis and is indexed by the
    constants [X], [Y], [Z] of [common/axis.h] or by a loop over [0..2]. *)

Inductive axis : Type := AX | AY | AZ.

Record vec3 (A : Type) : Type := Vec3 { vx : A; vy : A; vz : A }.
Arguments Vec3 {A} _ _ _.
Arguments vx {A} _.
Arguments vy {A} _.
Arguments vz {A} _.

Definition get {A} (v : vec3 A) (a : axis) : A :=
  match a with AX => vx v | AY => vy v | AZ => vz v end.

Definition set {A} (v : vec3 A) (a : axis) (x : A) : vec3 A :=
  match a with
  | AX => Vec3 x (vy v) (vz v)
  | AY => Vec3 (vx v) x (vz v)
  | AZ => Vec3 (vx v) (vy v) x
  end.

Definition vconst {A} (x : A) : vec3 A := Vec3 x x x.

(** ** What the included headers provide

    None of these is defined in [gyro.c]; the development is parametric in
    them.  Filters and the deviation accumulator are state transformers on
    types of their own. *)

Class Platform : Type := {
  (* build/debug.h *)
  DEBUG_GYRO : Z;
  DEBUG_NOTCH : Z;
  (* common/filter.h *)
  FILTER_BIQUAD : Z;
  FILTER_PT1 : Z;
  biquadFilter_t : Type;
  pt1Filter_t : Type;
  firFilterDenoise_t : Type;
  biquadFilterApply : biquadFilter_t -> float -> biquadFilter_t * float;
  pt1FilterApply4 : pt1Filter_t -> float -> Z -> float -> pt1Filter_t * float;
  firFilterDenoiseUpdate :
    firFilterDenoise_t -> float -> firFilterDenoise_t * float;
  (* common/maths.h *)
  stdev_t : Type;
  devClear : stdev_t -> stdev_t;
  devPush : stdev_t -> float -> stdev_t;
  devStandardDeviation : stdev_t -> float;
  (* sensors/boardalignment.h *)
  alignSensors : vec3 Z -> Z -> vec3 Z;
  (* sensors/gyro.h *)
  CALIBRATING_GYRO_CYCLES : Z
}.

(** ** Globals *)

(** Globals that [gyroUpdate] and the calibration functions only read. *)
Record config : Type := {
  targetLooptime : Z;                    (* gyro.targetLooptime, uint32_t *)
  gyroAlign : Z;
  gyroMovementCalibrationThreshold : Z;  (* gyroConfig->..., uint8_t *)
  gyroSoftLpfType : Z;
  gyroSoftNotchHz1 : Z;
  gyroSoftNotchHz2 : Z;
  gyroSoftLpfHz : Z;
  gyroDt : float;
  debugMode : Z
}.

(** Globals (and the two function-local statics [g] and [var]) that are
    written.  [debug] is the part of the debug array that is indexed by
    axis; [beeps] counts the calls [beeper(BEEPER_GYRO_CALIBRATED)]. *)
Record state {P : Platform} : Type := {
  gyroADC : vec3 Z;
  gyroADCf : vec3 float;
  gyroZero : vec3 Z;
  gyroFilterLPF : vec3 biquadFilter_t;
  gyroFilterNotch_1 : vec3 biquadFilter_t;
  gyroFilterNotch_2 : vec3 biquadFilter_t;
  gyroFilterPt1 : vec3 pt1Filter_t;
  gyroDenoiseState : vec3 firFilterDenoise_t;
  calibratingG : Z;
  g : vec3 Z;
  var : vec3 stdev_t;
  debug : vec3 Z;
  beeps : nat
}.

(** Assignment to one global. *)

Section Setters.
Context {P : Platform}.

Definition set_gyroADC v (s : state) : state :=
  {| gyroADC := v; gyroADCf := gyroADCf s; gyroZero := gyroZero s;
     gyroFilterLPF := gyroFilterLPF s;
     gyroFilterNotch_1 := gyroFilterNotch_1 s;
     gyroFilterNotch_2 := gyroFilterNotch_2 s;
     gyroFilterPt1 := gyroFilterPt1 s;
     gyroDenoiseState := gyroDenoiseState s;
     calibratingG := calibratingG s; g := g s; var := var s;
     debug := debug s; beeps := beeps s |}.

Definition set_gyroADCf v (s : state) : state :=
  {| gyroADC := gyroADC s; gyroADCf := v; gyroZero := gyroZero s;
     gyroFilterLPF := gyroFilterLPF s;
     gyroFilterNotch_1 := gyroFilterNotch_1 s;
     gyroFilterNotch_2 := gyroFilterNotch_2 s;
     gyroFilterPt1 := gyroFilterPt1 s;
     gyroDenoiseState := gyroDenoiseState s;
     calibratingG := calibratingG s; g := g s; var := var s;
     debug := debug s; beeps := beeps s |}.

Definition set_gyroZero v (s : state) : state :=
  {| gyroADC := gyroADC s; gyroADCf := gyroADCf s; gyroZero := v;
     gyroFilterLPF := gyroFilterLPF s;
     gyroFilterNotch_1 := gyroFilterNotch_1 s;
     gyroFilterNotch_2 := gyroFilterNotch_2 s;
     gyroFilterPt1 := gyroFilterPt1 s;
     gyroDenoiseState := gyroDenoiseState s;
     calibratingG := calibratingG s; g := g s; var := var s;
     debug := debug s; beeps := beeps s |}.

Definition set_gyroFilterLPF v (s : state) : state :=
  {| gyroADC := gyroADC s; gyroADCf := gyroADCf s; gyroZero := gyroZero s;
     gyroFilterLPF := v; gyroFilterNotch_1 := gyroFilterNotch_1 s;
     gyroFilterNotch_2 := gyroFilterNotch_2 s;
     gyroFilterPt1 := gyroFilterPt1 s;
     gyroDenoiseState := gyroDenoiseState s;
     calibratingG := calibratingG s; g := g s; var := var s;
     debug := debug s; beeps := beeps s |}.

Definition set_gyroFilterNotch_1 v (s : state) : state :=
  {| gyroADC := gyroADC s; gyroADCf := gyroADCf s; gyroZero := gyroZero s;
     gyroFilterLPF := gyroFilterLPF s; gyroFilterNotch_1 := v;
     gyroFilterNotch_2 := gyroFilterNotch_2 s;
     gyroFilterPt1 := gyroFilterPt1 s;
     gyroDenoiseState := gyroDenoiseState s;
     calibratingG := calibratingG s; g := g s; var := var s;
     debug := debug s; beeps := beeps s |}.

Definition set_gyroFilterNotch_2 v (s : state) : state :=
  {| gyroADC := gyroADC s; gyroADCf := gyroADCf s; gyroZero := gyroZero s;
     gyroFilterLPF := gyroFilterLPF s;
     gyroFilterNotch_1 := gyroFilterNotch_1 s; gyroFilterNotch_2 := v;
     gyroFilterPt1 := gyroFilterPt1 s;
     gyroDenoiseState := gyroDenoiseState s;
     calibratingG := calibratingG s; g := g s; var := var s;
     debug := debug s; beeps := beeps s |}.

Definition set_gyroFilterPt1 v (s : state) : state :=
  {| gyroADC := gyroADC s; gyroADCf := gyroADCf s; gyroZero := gyroZero s;
     gyroFilterLPF := gyroFilterLPF s;
     gyroFilterNotch_1 := gyroFilterNotch_1 s;
     gyroFilterNotch_2 := gyroFilterNotch_2 s; gyroFilterPt1 := v;
     gyroDenoiseState := gyroDenoiseState s;
     calibratingG := calibratingG s; g := g s; var := var s;
     debug := debug s; beeps := beeps s |}.

Definition set_gyroDenoiseState v (s : state) : state :=
  {| gyroADC := gyroADC s; gyroADCf := gyroADCf s; gyroZero := gyroZero s;
     gyroFilterLPF := gyroFilterLPF s;
     gyroFilterNotch_1 := gyroFilterNotch_1 s;
     gyroFilterNotch_2 := gyroFilterNotch_2 s;
     gyroFilterPt1 := gyroFilterPt1 s; gyroDenoiseState := v;
     calibratingG := calibratingG s; g := g s; var := var s;
     debug := debug s; beeps := beeps s |}.

Definition set_calibratingG v (s : state) : state :=
  {| gyroADC := gyroADC s; gyroADCf := gyroADCf s; gyroZero := gyroZero s;
     gyroFilterLPF := gyroFilterLPF s;
     gyroFilterNotch_1 := gyroFilterNotch_1 s;
     gyroFilterNotch_2 := gyroFilterNotch_2 s;
     gyroFilterPt1 := gyroFilterPt1 s;
     gyroDenoiseState := gyroDenoiseState s; calibratingG := v; g := g s;
     var := var s; debug := debug s; beeps := beeps s |}.

Definition set_g v (s : state) : state :=
  {| gyroADC := gyroADC s; gyroADCf := gyroADCf s; gyroZero := gyroZero s;
     gyroFilterLPF := gyroFilterLPF s;
     gyroFilterNotch_1 := gyroFilterNotch_1 s;
     gyroFilterNotch_2 := gyroFilterNotch_2 s;
     gyroFilterPt1 := gyroFilterPt1 s;
     gyroDenoiseState := gyroDenoiseState s;
     calibratingG := calibratingG s; g := v; var := var s;
     debug := debug s; beeps := beeps s |}.

Definition set_var v (s : state) : state :=
  {| gyroADC := gyroADC s; gyroADCf := gyroADCf s; gyroZero := gyroZero s;
     gyroFilterLPF := gyroFilterLPF s;
     gyroFilterNotch_1 := gyroFilterNotch_1 s;
     gyroFilterNotch_2 := gyroFilterNotch_2 s;
     gyroFilterPt1 := gyroFilterPt1 s;
     gyroDenoiseState := gyroDenoiseState s;
     calibratingG := calibratingG s; g := g s; var := v; debug := debug s;
     beeps := beeps s |}.

Definition set_debug v (s : state) : state :=
  {| gyroADC := gyroADC s; gyroADCf := gyroADCf s; gyroZero := gyroZero s;
     gyroFilterLPF := gyroFilterLPF s;
     gyroFilterNotch_1 := gyroFilterNotch_1 s;
     gyroFilterNotch_2 := gyroFilterNotch_2 s;
     gyroFilterPt1 := gyroFilterPt1 s;
     gyroDenoiseState := gyroDenoiseState s;
     calibratingG := calibratingG s; g := g s; var := var s; debug := v;
     beeps := beeps s |}.

Definition set_beeps v (s : state) : state :=
  {| gyroADC := gyroADC s; gyroADCf := gyroADCf s; gyroZero := gyroZero s;
     gyroFilterLPF := gyroFilterLPF s;
     gyroFilterNotch_1 := gyroFilterNotch_1 s;
     gyroFilterNotch_2 := gyroFilterNotch_2 s;
     gyroFilterPt1 := gyroFilterPt1 s;
     gyroDenoiseState := gyroDenoiseState s;
     calibratingG := calibratingG s; g := g s; var := var s;
     debug := debug s; beeps := v |}.

End Setters.

(** ** The functions of [gyro.c] *)

(** A loop body either falls through to the next iteration or leaves the
    function with [return]. *)
Inductive flow (A : Type) : Type :=
| Continue (a : A)
| Return (a : A).
Arguments Continue {A} _.
Arguments Return {A} _.

Fixpoint for_axes {A} (body : axis -> A -> flow A) (l : list axis) (s : A)
  : flow A :=
  match l with
  | [] => Continue s
  | a :: rest =>
      match body a s with
      | Continue s' => for_axes body rest s'
      | Return s' => Return s'
      end
  end.

Section Gyro.
Context {P : Platform}.
Variable cfg : config.

Definition isGyroCalibrationComplete (s : state) : bool :=
  calibratingG s =? 0.

Definition isOnFinalGyroCalibrationCycle (s : state) : bool :=
  calibratingG s =? 1.

(** The product [(CALIBRATING_GYRO_CYCLES / gyro.targetLooptime) *
    CALIBRATING_GYRO_CYCLES] is returned as a [uint16_t].  The loop time
    is declared in a header that is not part of the file; it is taken to
    be a [uint32_t], so that the arithmetic is unsigned on 32 bits.
    Division by a zero loop time is undefined in C; here it yields 0. *)
Definition gyroCalculateCalibratingCycles : Z :=
  u16 (u32 (u32 (u32 CALIBRATING_GYRO_CYCLES / u32 (targetLooptime cfg))
            * CALIBRATING_GYRO_CYCLES)).

Definition isOnFirstGyroCalibrationCycle (s : state) : bool :=
  calibratingG s =? gyroCalculateCalibratingCycles.

Definition gyroSetCalibrationCycles (s : state) : state :=
  set_calibratingG gyroCalculateCalibratingCycles s.

(** Lines 128-136 of one loop iteration: reset on the first cycle, then
    add the reading to the sum and push it on the deviation. *)
Definition accumulate (a : axis) (s : state) : state :=
  let s :=
    if isOnFirstGyroCalibrationCycle s
    then set_var (set (var s) a (devClear (get (var s) a)))
           (set_g (set (g s) a 0) s)
    else s in
  let s := set_g (set (g s) a (s32 (get (g s) a + get (gyroADC s) a))) s in
  set_var
    (set (var s) a (devPush (get (var s) a) (of_int (get (gyroADC s) a)))) s.

(** Lines 138-140: the two resets. *)
Definition reset_globals (a : axis) (s : state) : state :=
  set_gyroZero (set (gyroZero s) a 0) (set_gyroADC (set (gyroADC s) a 0) s).

(** The test of line 145. *)
Definition moved (threshold : Z) (a : axis) (s : state) : bool :=
  negb (threshold =? 0)
  && gt (devStandardDeviation (get (var s) a)) (of_int threshold).

(** The right-hand side of line 149: [g[axis]] is an [int32_t], the cycle
    count is promoted to [int], the division is the signed one.  (With a
    cycle count of 0 the division is undefined in C and 0 here; the final
    cycle is then never reached.) *)
Definition rounded_mean (sum : Z) : Z :=
  cdiv (s32 (sum + gyroCalculateCalibratingCycles / 2))
       gyroCalculateCalibratingCycles.

(** Line 149. *)
Definition commit (a : axis) (s : state) : state :=
  set_gyroZero (set (gyroZero s) a (rounded_mean (get (g s) a))) s.

(** Lines 142-150. *)
Definition finish (threshold : Z) (a : axis) (s : state) : flow state :=
  if isOnFinalGyroCalibrationCycle s then
    if moved threshold a s then Return (gyroSetCalibrationCycles s)
    else Continue (commit a s)
  else Continue s.

Definition calibrate_axis (threshold : Z) (a : axis) (s : state) : flow state :=
  finish threshold a (reset_globals a (accumulate a s)).

Definition beeper (s : state) : state := set_beeps (S (beeps s)) s.

Definition performGyroCalibration (gyroMovementCalibrationThreshold : Z)
  (s : state) : state :=
  match for_axes (calibrate_axis gyroMovementCalibrationThreshold)
          [AX; AY; AZ] s with
  | Return s' => s'
  | Continue s' =>
      let s' := if isOnFinalGyroCalibrationCycle s' then beeper s' else s' in
      set_calibratingG (u16 (calibratingG s' - 1)) s'
  end.

(** Lines 169-173: the raw triple is copied and aligned in place. *)
Definition acquire (gyroADCRaw : vec3 Z) (s : state) : state :=
  set_gyroADC (alignSensors gyroADCRaw (gyroAlign cfg)) s.

(** Lines 175-177. *)
Definition calibrate (s : state) : state :=
  if negb (isGyroCalibrationComplete s)
  then performGyroCalibration (gyroMovementCalibrationThreshold cfg) s
  else s.

(** Lines 179-181. *)
Definition subtract_zero (s : state) : state :=
  set_gyroADC
    (Vec3 (s32 (vx (gyroADC s) - vx (gyroZero s)))
          (s32 (vy (gyroADC s) - vy (gyroZero s)))
          (s32 (vz (gyroADC s) - vz (gyroZero s)))) s.

(** Lines 186-187: the first debug tap. *)
Definition tap_gyro (a : axis) (s : state) : state :=
  if debugMode cfg =? DEBUG_GYRO
  then set_debug (set (debug s) a (s16 (get (gyroADC s) a))) s
  else s.

(** Lines 189-194: the low-pass selected by [gyroSoftLpfType]. *)
Definition lowpass (a : axis) (s : state) : state :=
  let x := of_int (get (gyroADC s) a) in
  if gyroSoftLpfType cfg =? FILTER_BIQUAD then
    let (f, y) := biquadFilterApply (get (gyroFilterLPF s) a) x in
    set_gyroADCf (set (gyroADCf s) a y)
      (set_gyroFilterLPF (set (gyroFilterLPF s) a f) s)
  else if gyroSoftLpfType cfg =? FILTER_PT1 then
    let (f, y) :=
      pt1FilterApply4 (get (gyroFilterPt1 s) a) x (gyroSoftLpfHz cfg)
        (gyroDt cfg) in
    set_gyroADCf (set (gyroADCf s) a y)
      (set_gyroFilterPt1 (set (gyroFilterPt1 s) a f) s)
  else
    let (f, y) := firFilterDenoiseUpdate (get (gyroDenoiseState s) a) x in
    set_gyroADCf (set (gyroADCf s) a y)
      (set_gyroDenoiseState (set (gyroDenoiseState s) a f) s).

(** Lines 196-197: the second debug tap. *)
Definition tap_notch (a : axis) (s : state) : state :=
  if debugMode cfg =? DEBUG_NOTCH
  then set_debug (set (debug s) a (s16 (lrintf (get (gyroADCf s) a)))) s
  else s.

(** Lines 199-200. *)
Definition notch_1 (a : axis) (s : state) : state :=
  if negb (gyroSoftNotchHz1 cfg =? 0) then
    let (f, y) :=
      biquadFilterApply (get (gyroFilterNotch_1 s) a) (get (gyroADCf s) a) in
    set_gyroADCf (set (gyroADCf s) a y)
      (set_gyroFilterNotch_1 (set (gyroFilterNotch_1 s) a f) s)
  else s.

(** Lines 202-203. *)
Definition notch_2 (a : axis) (s : state) : state :=
  if negb (gyroSoftNotchHz2 cfg =? 0) then
    let (f, y) :=
      biquadFilterApply (get (gyroFilterNotch_2 s) a) (get (gyroADCf s) a) in
    set_gyroADCf (set (gyroADCf s) a y)
      (set_gyroFilterNotch_2 (set (gyroFilterNotch_2 s) a f) s)
  else s.

(** Line 205. *)
Definition round_output (a : axis) (s : state) : state :=
  set_gyroADC (set (gyroADC s) a (lrintf (get (gyroADCf s) a))) s.

(** Lines 186-205: one iteration of the filtering loop. *)
Definition filter_axis (a : axis) (s : state) : state :=
  round_output a
    (notch_2 a (notch_1 a (tap_notch a (lowpass a (tap_gyro a s))))).

(** Lines 208-209. *)
Definition passthrough_axis (a : axis) (s : state) : state :=
  set_gyroADCf (set (gyroADCf s) a (of_int (get (gyroADC s) a))) s.

(** Lines 183-210. *)
Definition filter_chain (s : state) : state :=
  if negb (gyroSoftLpfHz cfg =? 0)
  then fold_left (fun s a => filter_axis a s) [AX; AY; AZ] s
  else fold_left (fun s a => passthrough_axis a s) [AX; AY; AZ] s.

(** One tick.  [gyro.read] is the sample source: [None] when it reports
    that no sample is available. *)
Definition gyroUpdate (s : state) (read : option (vec3 Z)) : state :=
  match read with
  | None => s
  | Some gyroADCRaw =>
      filter_chain (subtract_zero (calibrate (acquire gyroADCRaw s)))
  end.

(** A sequence of ticks. *)
Definition ticks (s : state) (reads : list (option (vec3 Z))) : state :=
  fold_left gyroUpdate reads s.

(** ** Vocabulary of the statements *)

(** No axis trips the test of line 145 on this cycle.  An iteration
    touches only its own slot of [g] and [var], so the test of each axis
    can be read off the state the loop starts from. *)
Definition settled (threshold : Z) (s : state) : bool :=
  forallb (fun a => negb (moved threshold a (accumulate a s))) [AX; AY; AZ].

(** What the calibration owns. *)
Definition calibration_part (s : state) :=
  (gyroZero s, calibratingG s, g s, var s, beeps s).

(** The state of the five filter banks. *)
Definition filter_state (s : state) :=
  (gyroFilterLPF s, gyroFilterNotch_1 s, gyroFilterNotch_2 s,
   gyroFilterPt1 s, gyroDenoiseState s).

(** What [g[a]] holds after the readings of a whole window, summed the way
    line 135 does from the reset of line 130. *)
Definition window_sum (a : axis) (samples : list (vec3 Z)) : Z :=
  fold_left
    (fun acc raw => s32 (acc + get (alignSensors raw (gyroAlign cfg)) a))
    samples 0.

End Gyro.

(** Follows the spec's words: [round_half_up(sum / totalCycles)], the
    quotient rounded to the nearest integer, halves upward: the floor of
    [sum / total + 1/2]. *)
Definition spec_round_half_up (sum total : Z) : Z :=
  (2 * sum + total) / (2 * total).

(** ** A bench to run the code on

    The theorems of Part II hold for every [Platform].  To evaluate the
    functions on concrete inputs one instance is needed; this one follows
    the spec's description of the running deviation and of the filters. *)

Module Bench.

(** Modelled from the spec: [stdev_t] of [common/maths.h], the running
    mean/variance accumulator. *)
Record stdev : Type := {
  m_oldM : float;
  m_newM : float;
  m_oldS : float;
  m_newS : float;
  m_n : Z
}.

Definition zero : float := S754_zero false.

(** Modelled from the spec: [devClear] of [common/maths.c], which
    [gyro.c] calls but does not define.  The accumulator is an
    incremental mean/variance update, one sample at a time, in constant
    memory; clearing it forgets the samples counted. *)
Definition bench_devClear (d : stdev) : stdev :=
  {| m_oldM := m_oldM d; m_newM := m_newM d; m_oldS := m_oldS d;
     m_newS := m_newS d; m_n := 0 |}.

(** Modelled from the spec: [devPush] of [common/maths.c], the
    incremental update of mean and sum of squared deviations with one
    sample. *)
Definition bench_devPush (d : stdev) (x : float) : stdev :=
  let n := m_n d + 1 in
  if n =? 1 then
    {| m_oldM := x; m_newM := x; m_oldS := zero; m_newS := m_newS d;
       m_n := n |}
  else
    let newM := add (m_oldM d) (div (sub x (m_oldM d)) (of_int n)) in
    let newS := add (m_oldS d) (mul (sub x (m_oldM d)) (sub x newM)) in
    {| m_oldM := newM; m_newM := newM; m_oldS := newS; m_newS := newS;
       m_n := n |}.

(** Modelled from the spec: the sample variance read off the accumulator,
    0 below two samples. *)
Definition bench_devVariance (d : stdev) : float :=
  if 1 <? m_n d then div (m_newS d) (of_int (m_n d - 1)) else zero.

(** Modelled from the spec: [devStandardDeviation] of [common/maths.c],
    the standard deviation computed from the accumulator. *)
Definition bench_devStandardDeviation (d : stdev) : float :=
  sqrtf (bench_devVariance d).

(** Modelled from the spec: the second-order section behind
    [biquadFilterApply] of [common/filter.c], which [gyro.c] calls but does
    not define: a two-pole digital filter stage defined by a difference
    equation.  Its coefficients are derived when the filter is
    initialised, outside [gyroUpdate]; the state carries them next to the
    two samples of history on each side. *)
Record biquad : Type := {
  b0 : float; b1 : float; b2 : float; a1 : float; a2 : float;
  x1 : float; x2 : float; y1 : float; y2 : float
}.

Definition bench_biquad (f : biquad) (x : float) : biquad * float :=
  let y :=
    sub (sub (add (add (mul (b0 f) x) (mul (b1 f) (x1 f)))
                  (mul (b2 f) (x2 f)))
             (mul (a1 f) (y1 f)))
        (mul (a2 f) (y2 f)) in
  ({| b0 := b0 f; b1 := b1 f; b2 := b2 f; a1 := a1 f; a2 := a2 f;
      x1 := x; x2 := x1 f; y1 := y; y2 := y1 f |}, y).

(** A section that passes its input through. *)
Definition unity : biquad :=
  {| b0 := of_int 1; b1 := zero; b2 := zero; a1 := zero; a2 := zero;
     x1 := zero; x2 := zero; y1 := zero; y2 := zero |}.

(** The single-precision value of pi. *)
Definition M_PIf : float := S754_finite false 13176795 (-22).

(** Modelled from the spec: the single-pole low-pass behind
    [pt1FilterApply4]: a first-order smoothing filter whose coefficient
    comes from a time constant derived from the cutoff frequency and the
    sample interval, recomputed at every sample. *)
Definition bench_pt1 (st x : float) (f_cut : Z) (dT : float) : float * float :=
  let RC := div (of_int 1) (mul (mul (of_int 2) M_PIf) (of_int f_cut)) in
  let y := add st (mul (div dT (add RC dT)) (sub x st)) in
  (y, y).

(** Modelled from the spec: the denoiser behind [firFilterDenoiseUpdate]:
    a finite-impulse-response smoothing stage over a fixed window of
    recent samples, here their mean.  The state holds the earlier samples
    of the window, newest first. *)
Definition bench_fir (earlier : list float) (x : float) : list float * float :=
  let window := x :: earlier in
  (removelast window,
   div (fold_left add window zero) (of_int (Z.of_nat (length window)))).

(** Modelled from the spec: [alignSensors] of [sensors/boardalignment.c],
    a pure geometric remap; here no rotation, the board is mounted the way
    the sensor is. *)
Definition bench_align (v : vec3 Z) (rotation : Z) : vec3 Z := v.

(** The base cycle count is the 1000 of the spec's scenario; the values of
    the debug and filter selectors only need to be distinct. *)
Definition platform : Platform := {|
  DEBUG_GYRO := 3;
  DEBUG_NOTCH := 8;
  FILTER_BIQUAD := 1;
  FILTER_PT1 := 0;
  biquadFilter_t := biquad;
  pt1Filter_t := float;
  firFilterDenoise_t := list float;
  biquadFilterApply := bench_biquad;
  pt1FilterApply4 := bench_pt1;
  firFilterDenoiseUpdate := bench_fir;
  stdev_t := stdev;
  devClear := bench_devClear;
  devPush := bench_devPush;
  devStandardDeviation := bench_devStandardDeviation;
  alignSensors := bench_align;
  CALIBRATING_GYRO_CYCLES := 1000
|}.

(** A loop period of 1000, no debug tap. *)
Definition config_of (threshold lpf_hz lpf_type notch_hz_1 notch_hz_2 : Z)
  : config := {|
  targetLooptime := 1000;
  gyroAlign := 0;
  gyroMovementCalibrationThreshold := threshold;
  gyroSoftLpfType := lpf_type;
  gyroSoftNotchHz1 := notch_hz_1;
  gyroSoftNotchHz2 := notch_hz_2;
  gyroSoftLpfHz := lpf_hz;
  gyroDt := div (of_int 1) (of_int 1000);
  debugMode := 0
|}.

(** The filters off. *)
Definition cfg (threshold : Z) : config := config_of threshold 0 0 0 0.

(** The globals before the first tick: outputs, offsets, sums and
    countdown as C initialises them; the second-order sections pass
    through and the denoiser averages over two samples. *)
Definition power_on : @state platform :=
  let d := {| m_oldM := zero; m_newM := zero; m_oldS := zero;
              m_newS := zero; m_n := 0 |} in
  @Build_state platform
    (vconst 0) (vconst zero) (vconst 0)          (* ADC, ADCf, zero *)
    (vconst unity) (vconst unity) (vconst unity) (* LPF, notch 1, notch 2 *)
    (vconst zero) (vconst [zero])                (* single pole, denoiser *)
    0 (vconst 0) (vconst d)                      (* calibratingG, g, var *)
    (vconst 0) 0%nat.                            (* debug, beeps *)

(** The constant reading of the spec's scenario, fed [n] times. *)
Definition reading : vec3 Z := Vec3 100 (-50) 0.

Definition steady (n : nat) : list (option (vec3 Z)) :=
  repeat (Some reading) n.

Definition calibrating : @state platform :=
  gyroSetCalibrationCycles (cfg 0) power_on.

(** The scenario run for [n] ticks. *)
Definition after (n : nat) : @state platform :=
  ticks (cfg 0) calibrating (steady n).

(** A second calibration requested once the first is complete. *)
Definition recalibrating : @state platform :=
  gyroSetCalibrationCycles (cfg 0) (after 1000).

(** A craft that is steady in roll and yaw but rocks in pitch: the pitch
    reading alternates between 0 and 200.  The movement threshold is 10. *)
Definition rock (i : nat) : vec3 Z :=
  Vec3 100 (if Nat.even i then 0 else 200) 7.

Definition rocking (n : nat) : list (option (vec3 Z)) :=
  map (fun i => Some (rock i)) (seq 0 n).

Definition rocked (n : nat) : @state platform :=
  ticks (cfg 10) calibrating (rocking n).

(** The denoiser at 100 Hz, notches off. *)
Definition denoise_cfg : config := config_of 0 100 2 0 0.

(** The low-pass off, both notches configured. *)
Definition notches_cfg : config := config_of 0 0 1 400 200.

(** One reading of 1 on the roll axis through the denoiser. *)
Definition denoised : @state platform :=
  gyroUpdate denoise_cfg power_on (Some (Vec3 1 0 0)).

(** A loop period of 1. *)
Definition fast_cfg : config := {|
  targetLooptime := 1;
  gyroAlign := 0;
  gyroMovementCalibrationThreshold := 0;
  gyroSoftLpfType := 0;
  gyroSoftNotchHz1 := 0;
  gyroSoftNotchHz2 := 0;
  gyroSoftLpfHz := 0;
  gyroDt := zero;
  debugMode := 0
|}.

End Bench.

(** ** Vocabulary of the further properties *)

(** The range of an [int16_t], the type of a raw reading. *)
Definition in_s16 (z : Z) : Prop := -32768 <= z < 32768.

(** The ticks of a run on which the sensor had a sample. *)
Definition present (reads : list (option (vec3 Z))) : list (option (vec3 Z)) :=
  filter (fun r => match r with Some _ => true | None => false end) reads.

Section Vocabulary.
Context {P : Platform}.
Variable cfg : config.

(** Every reading of a run is an [int16_t] on every axis once aligned. *)
Definition aligned_in_s16 (raw : vec3 Z) : Prop :=
  forall a, in_s16 (get (alignSensors raw (gyroAlign cfg)) a).

Definition readings_in_s16 (reads : list (option (vec3 Z))) : Prop :=
  Forall (fun r => match r with
                   | Some raw => aligned_in_s16 raw
                   | None => True
                   end) reads.

(** The sums are either about to be reset (the countdown is on the first
    cycle) or hold as many readings as cycles have elapsed, each an
    [int16_t]. *)
Definition sums_bounded (s : state) : Prop :=
  calibratingG s = gyroCalculateCalibratingCycles cfg
  \/ (0 <= calibratingG s < gyroCalculateCalibratingCycles cfg
      /\ forall a,
           -32768 * (gyroCalculateCalibratingCycles cfg - calibratingG s)
           <= get (g s) a
           <= 32767 * (gyroCalculateCalibratingCycles cfg - calibratingG s)).

(** Everything the filter loop reads or writes for one axis: the
    published integer and float and that axis's slot of the five filter
    banks. *)
Definition axis_lane (a : axis) (s : state) :=
  (get (gyroADC s) a, get (gyroADCf s) a,
   get (gyroFilterLPF s) a, get (gyroFilterNotch_1 s) a,
   get (gyroFilterNotch_2 s) a, get (gyroFilterPt1 s) a,
   get (gyroDenoiseState s) a).

(** The state with the debug taps blanked. *)
Definition erase_debug (s : state) : state := set_debug (vconst 0) s.

End Vocabulary.

(** The configuration with another debug mode selected. *)
Definition with_debugMode (mode : Z) (cfg : config) : config := {|
  targetLooptime := targetLooptime cfg;
  gyroAlign := gyroAlign cfg;
  gyroMovementCalibrationThreshold := gyroMovementCalibrationThreshold cfg;
  gyroSoftLpfType := gyroSoftLpfType cfg;
  gyroSoftNotchHz1 := gyroSoftNotchHz1 cfg;
  gyroSoftNotchHz2 := gyroSoftNotchHz2 cfg;
  gyroSoftLpfHz := gyroSoftLpfHz cfg;
  gyroDt := gyroDt cfg;
  debugMode := mode
|}.

(** ** Set-up: [gyroUseConfig] and [gyroInit] *)

(** [uint8_t]. *)
Definition u8 (z : Z) : Z := z mod 256.

(** The constant [0.000001f]: the binary32 nearest to one millionth. *)
Definition micro : float := S754_finite false 8796093 (-43).

(** What [common/filter.h] provides to set the filters up.  None of these
    is defined in [gyro.c].  The initialisers receive the filter they
    write to; frequencies and loop time are passed as the integers
    [gyro.c] holds, their conversion to the parameter types being the
    callee's. *)
Class FilterSetup {P : Platform} : Type := {
  FILTER_NOTCH : Z;
  filterGetNotchQ : Z -> Z -> float;
  biquadFilterInitLPF : biquadFilter_t -> Z -> Z -> biquadFilter_t;
  biquadFilterInit : biquadFilter_t -> Z -> Z -> float -> Z -> biquadFilter_t;
  firFilterDenoiseInit : firFilterDenoise_t -> Z -> Z -> firFilterDenoise_t
}.

(** The globals that set-up writes: those of [config], which a tick
    reads, and the two quality factors, which only [gyroInit] reads. *)
Record settings : Type := {
  globals : config;
  gyroSoftNotchQ1 : float;
  gyroSoftNotchQ2 : float
}.

Definition set_gyroDt (dt : float) (su : settings) : settings := {|
  globals := {|
    targetLooptime := targetLooptime (globals su);
    gyroAlign := gyroAlign (globals su);
    gyroMovementCalibrationThreshold :=
      gyroMovementCalibrationThreshold (globals su);
    gyroSoftLpfType := gyroSoftLpfType (globals su);
    gyroSoftNotchHz1 := gyroSoftNotchHz1 (globals su);
    gyroSoftNotchHz2 := gyroSoftNotchHz2 (globals su);
    gyroSoftLpfHz := gyroSoftLpfHz (globals su);
    gyroDt := dt;
    debugMode := debugMode (globals su)
  |};
  gyroSoftNotchQ1 := gyroSoftNotchQ1 su;
  gyroSoftNotchQ2 := gyroSoftNotchQ2 su
|}.

Section Setup.
Context {P : Platform} {F : FilterSetup}.

(** Lines 58-73.  [gyroConfigToUse] points to a structure of which the
    file reads one field, the movement threshold; the pointer is modelled
    by the value of that field.  The other parameters are converted to
    their declared types at the call. *)
Definition gyroUseConfig (gyroConfigToUse : Z)
  (gyro_soft_lpf_hz gyro_soft_notch_hz_1 gyro_soft_notch_cutoff_1
   gyro_soft_notch_hz_2 gyro_soft_notch_cutoff_2 gyro_soft_lpf_type : Z)
  (su : settings) : settings := {|
  globals := {|
    targetLooptime := targetLooptime (globals su);
    gyroAlign := gyroAlign (globals su);
    gyroMovementCalibrationThreshold := gyroConfigToUse;
    gyroSoftLpfType := u8 gyro_soft_lpf_type;
    gyroSoftNotchHz1 := u16 gyro_soft_notch_hz_1;
    gyroSoftNotchHz2 := u16 gyro_soft_notch_hz_2;
    gyroSoftLpfHz := u8 gyro_soft_lpf_hz;
    gyroDt := gyroDt (globals su);
    debugMode := debugMode (globals su)
  |};
  gyroSoftNotchQ1 :=
    filterGetNotchQ (u16 gyro_soft_notch_hz_1) (u16 gyro_soft_notch_cutoff_1);
  gyroSoftNotchQ2 :=
    filterGetNotchQ (u16 gyro_soft_notch_hz_2) (u16 gyro_soft_notch_cutoff_2)
|}.

(** Lines 79-84: one iteration of the first loop of [gyroInit]. *)
Definition init_lowpass (a : axis) (st : settings * state)
  : settings * state :=
  let (su, s) := st in
  let c := globals su in
  if gyroSoftLpfType c =? FILTER_BIQUAD then
    (su,
     set_gyroFilterLPF
       (set (gyroFilterLPF s) a
          (biquadFilterInitLPF (get (gyroFilterLPF s) a)
             (gyroSoftLpfHz c) (targetLooptime c))) s)
  else if gyroSoftLpfType c =? FILTER_PT1 then
    (set_gyroDt (mul (of_int (u32 (targetLooptime c))) micro) su, s)
  else
    (su,
     set_gyroDenoiseState
       (set (gyroDenoiseState s) a
          (firFilterDenoiseInit (get (gyroDenoiseState s) a)
             (gyroSoftLpfHz c) (targetLooptime c))) s).

(** Lines 90-91: one iteration of the second loop. *)
Definition init_notches (a : axis) (st : settings * state)
  : settings * state :=
  let (su, s) := st in
  let c := globals su in
  let s :=
    set_gyroFilterNotch_1
      (set (gyroFilterNotch_1 s) a
         (biquadFilterInit (get (gyroFilterNotch_1 s) a)
            (gyroSoftNotchHz1 c) (targetLooptime c) (gyroSoftNotchQ1 su)
            FILTER_NOTCH)) s in
  let s :=
    set_gyroFilterNotch_2
      (set (gyroFilterNotch_2 s) a
         (biquadFilterInit (get (gyroFilterNotch_2 s) a)
            (gyroSoftNotchHz2 c) (targetLooptime c) (gyroSoftNotchQ2 su)
            FILTER_NOTCH)) s in
  (su, s).

(** Lines 75-94. *)
Definition gyroInit (su : settings) (s : state) : settings * state :=
  let st := (su, s) in
  let st :=
    if negb (gyroSoftLpfHz (globals (fst st)) =? 0)
       && negb (targetLooptime (globals (fst st)) =? 0)
    then fold_left (fun st a => init_lowpass a st) [AX; AY; AZ] st
    else st in
  if (negb (gyroSoftNotchHz1 (globals (fst st)) =? 0)
      || negb (gyroSoftNotchHz2 (globals (fst st)) =? 0))
     && negb (targetLooptime (globals (fst st)) =? 0)
  then fold_left (fun st a => init_notches a st) [AX; AY; AZ] st
  else st.

(** The first tick after set-up. *)
Definition first_tick (su : settings) (s : state) (read : option (vec3 Z))
  : state :=
  gyroUpdate (globals (fst (gyroInit su s))) (snd (gyroInit su s)) read.

End Setup.

(** ** A rig to run the set-up on

    The initialisers of the bench's filters. *)

Module Rig.

(** Modelled from the spec: [filterGetNotchQ] of [common/filter.c], the
    notch-filter sharpness derived from center and cutoff frequency; here
    [center * cutoff / (center^2 - cutoff^2)]. *)
Definition rig_notchQ (center cutoff : Z) : float :=
  div (mul (of_int center) (of_int cutoff))
      (sub (mul (of_int center) (of_int center))
           (mul (of_int cutoff) (of_int cutoff))).

(** Modelled from the spec: the coefficients of a second-order section
    are derived when the filter is initialised.  The design formulas are
    not part of the file; the rig installs the coefficients of the
    section that passes its input through, scaled by the quality factor
    for a notch, and clears the history. *)
Definition rig_biquadInit (f : Bench.biquad) (hz rate : Z) (Q : float)
  (type : Z) : Bench.biquad :=
  {| Bench.b0 := Q; Bench.b1 := Bench.zero; Bench.b2 := Bench.zero;
     Bench.a1 := Bench.zero; Bench.a2 := Bench.zero;
     Bench.x1 := Bench.zero; Bench.x2 := Bench.zero;
     Bench.y1 := Bench.zero; Bench.y2 := Bench.zero |}.

Definition rig_biquadInitLPF (f : Bench.biquad) (hz rate : Z) : Bench.biquad :=
  rig_biquadInit f hz rate (of_int 1) 0.

(** Modelled from the spec: the denoiser works over a fixed window of
    recent samples; here the window spans one period of the cutoff
    frequency, at least one sample, and starts out empty of signal. *)
Definition rig_firInit (earlier : list float) (hz rate : Z) : list float :=
  repeat Bench.zero (Z.to_nat (Z.max 1 (1000000 / hz / rate) - 1)).

Definition setup : @FilterSetup Bench.platform :=
  @Build_FilterSetup Bench.platform
    1 rig_notchQ rig_biquadInitLPF rig_biquadInit rig_firInit.

(** The globals as C initialises them, the loop time known. *)
Definition blank : settings := {|
  globals := Bench.fast_cfg;
  gyroSoftNotchQ1 := Bench.zero;
  gyroSoftNotchQ2 := Bench.zero
|}.

(** Second-order low-pass at 100 Hz, notches at 400 Hz and 200 Hz. *)
Definition biquad_notches : settings :=
  gyroUseConfig (F := setup) 32 100 400 300 200 100 1 blank.

(** Single-pole low-pass at 100 Hz, no notch. *)
Definition single_pole : settings :=
  gyroUseConfig (F := setup) 32 100 0 0 0 0 0 blank.

(** A loop period above the base cycle count. *)
Definition slow_cfg : config := {|
  targetLooptime := 2000;
  gyroAlign := 0;
  gyroMovementCalibrationThreshold := 0;
  gyroSoftLpfType := 0;
  gyroSoftNotchHz1 := 0;
  gyroSoftNotchHz2 := 0;
  gyroSoftLpfHz := 0;
  gyroDt := Bench.zero;
  debugMode := 0
|}.

End Rig.

(* ================================================================== *)
(** * Part II: lemmas and theorems *)

(** ** Integers and arrays *)

Lemma u16_range z : in_u16 (u16 z).
Proof. unfold in_u16, u16. apply Z.mod_pos_bound. lia. Qed.

Lemma u16_id z : in_u16 z -> u16 z = z.
Proof. unfold in_u16, u16. intros H. apply Z.mod_small. exact H. Qed.

Lemma s32_range z : in_s32 (s32 z).
Proof.
  unfold in_s32, s32.
  pose proof (Z.mod_pos_bound (z + 2147483648) 4294967296). lia.
Qed.

Lemma s32_id z : in_s32 z -> s32 z = z.
Proof.
  unfold in_s32, s32. intros H.
  rewrite Z.mod_small by lia. lia.
Qed.

(** Wrapping an intermediate sum does not change the wrapped total. *)
Lemma s32_add_l a b : s32 (s32 a + b) = s32 (a + b).
Proof.
  unfold s32.
  replace ((a + 2147483648) mod 4294967296 - 2147483648 + b + 2147483648)
    with ((a + 2147483648) mod 4294967296 + b) by lia.
  rewrite Z.add_mod_idemp_l by lia. f_equal. f_equal. lia.
Qed.

(** Truncation to 16 bits sees through the 32-bit intermediate results. *)
Lemma u16_u32_mul a b : u16 (u32 (u32 a * b)) = (a * b) mod 65536.
Proof.
  unfold u16, u32.
  assert (D : (65536 | 4294967296)) by (exists 65536; reflexivity).
  rewrite (Z.mod_mod_divide _ _ _ D).
  rewrite (Z.mul_mod (a mod 4294967296)) by lia.
  rewrite (Z.mod_mod_divide _ _ _ D).
  rewrite <- Z.mul_mod by lia. reflexivity.
Qed.

Lemma get_set_same {A} (v : vec3 A) a x : get (set v a x) a = x.
Proof. destruct a; reflexivity. Qed.

Lemma get_set_other {A} (v : vec3 A) a b x :
  a <> b -> get (set v a x) b = get v b.
Proof. destruct a, b; intros H; try reflexivity; now elim H. Qed.

Lemma set_set {A} (v : vec3 A) a x y : set (set v a x) a y = set v a y.
Proof. destruct a; reflexivity. Qed.

Lemma vec3_ext {A} (v w : vec3 A) : (forall a, get v a = get w a) -> v = w.
Proof.
  intros H. destruct v as [a b c], w as [a' b' c'].
  pose proof (H AX) as HX. pose proof (H AY) as HY. pose proof (H AZ) as HZ.
  simpl in *. congruence.
Qed.

Lemma get_vconst {A} (x : A) a : get (vconst x) a = x.
Proof. destruct a; reflexivity. Qed.

(** ** The countdown *)

Section Countdown.
Context {P : Platform}.
Variable cfg : config.

Local Abbreviation total := (gyroCalculateCalibratingCycles cfg).

Lemma total_in_u16 : in_u16 total.
Proof. apply u16_range. Qed.

Lemma calibratingG_accumulate a s :
  calibratingG (accumulate cfg a s) = calibratingG s.
Proof.
  unfold accumulate.
  destruct (isOnFirstGyroCalibrationCycle cfg s); reflexivity.
Qed.

Lemma calibratingG_reset_globals a (s : state) :
  calibratingG (reset_globals a s) = calibratingG s.
Proof. reflexivity. Qed.

(** One loop iteration either leaves with the countdown reloaded or goes
    on with the countdown as it was. *)
Lemma calibrate_axis_countdown thr a s :
  match calibrate_axis cfg thr a s with
  | Return s' => calibratingG s' = total
  | Continue s' => calibratingG s' = calibratingG s
  end.
Proof.
  unfold calibrate_axis, finish.
  destruct (isOnFinalGyroCalibrationCycle _).
  - destruct (moved _ _ _); simpl.
    + reflexivity.
    + apply calibratingG_accumulate.
  - simpl. apply calibratingG_accumulate.
Qed.

Lemma for_axes_countdown thr l : forall s,
  match for_axes (calibrate_axis cfg thr) l s with
  | Return s' => calibratingG s' = total
  | Continue s' => calibratingG s' = calibratingG s
  end.
Proof.
  induction l as [|a l IH]; intros s; simpl.
  - reflexivity.
  - pose proof (calibrate_axis_countdown thr a s) as Ha.
    destruct (calibrate_axis cfg thr a s) as [s1|s1].
    + specialize (IH s1).
      destruct (for_axes (calibrate_axis cfg thr) l s1); congruence.
    + exact Ha.
Qed.

Lemma performGyroCalibration_countdown thr s :
  calibratingG (performGyroCalibration cfg thr s) = u16 (calibratingG s - 1)
  \/ calibratingG (performGyroCalibration cfg thr s) = total.
Proof.
  unfold performGyroCalibration.
  pose proof (for_axes_countdown thr [AX; AY; AZ] s) as H.
  destruct (for_axes (calibrate_axis cfg thr) [AX; AY; AZ] s) as [s1|s1].
  - left. destruct (isOnFinalGyroCalibrationCycle s1); simpl; now rewrite H.
  - right. exact H.
Qed.

(** The filter loop writes the outputs, the filter states and the debug
    taps, nothing of the calibration. *)
Lemma filter_axis_calibration_part a s :
  calibration_part (filter_axis cfg a s) = calibration_part s.
Proof.
  assert (T1 : forall s, calibration_part (tap_gyro cfg a s) = calibration_part s).
  { intros s0. unfold tap_gyro. destruct (_ =? _); reflexivity. }
  assert (L : forall s, calibration_part (lowpass cfg a s) = calibration_part s).
  { intros s0. unfold lowpass.
    destruct (_ =? _); [|destruct (_ =? _)];
      match goal with |- context [let (_, _) := ?e in _] => destruct e end;
      reflexivity. }
  assert (T2 : forall s, calibration_part (tap_notch cfg a s) = calibration_part s).
  { intros s0. unfold tap_notch. destruct (_ =? _); reflexivity. }
  assert (N1 : forall s, calibration_part (notch_1 cfg a s) = calibration_part s).
  { intros s0. unfold notch_1.
    destruct (negb _); [destruct (biquadFilterApply _ _)|]; reflexivity. }
  assert (N2 : forall s, calibration_part (notch_2 cfg a s) = calibration_part s).
  { intros s0. unfold notch_2.
    destruct (negb _); [destruct (biquadFilterApply _ _)|]; reflexivity. }
  assert (R : forall s, calibration_part (round_output a s) = calibration_part s)
    by reflexivity.
  unfold filter_axis. now rewrite R, N2, N1, T2, L, T1.
Qed.

Lemma filter_chain_calibration_part s :
  calibration_part (filter_chain cfg s) = calibration_part s.
Proof.
  unfold filter_chain.
  destruct (negb _); cbn [fold_left].
  - now rewrite !filter_axis_calibration_part.
  - reflexivity.
Qed.

Lemma calibratingG_filter_chain s :
  calibratingG (filter_chain cfg s) = calibratingG s.
Proof.
  pose proof (filter_chain_calibration_part s) as H.
  unfold calibration_part in H. congruence.
Qed.

Lemma calibratingG_gyroUpdate_some s raw :
  calibratingG (gyroUpdate cfg s (Some raw))
  = calibratingG (calibrate cfg (acquire cfg raw s)).
Proof. unfold gyroUpdate. now rewrite calibratingG_filter_chain. Qed.

(** [C10] The 16-bit countdown never underflows: over one tick it keeps
    its value (no sample, or calibration already complete), or goes down
    by exactly one from a nonzero value, or is reloaded with the cycle
    count.  The decrement is never applied to 0, so it never wraps. *)
Theorem countdown_never_underflows s read :
  in_u16 (calibratingG s) ->
  let s' := gyroUpdate cfg s read in
  (calibratingG s' = calibratingG s /\ (read = None \/ calibratingG s = 0))
  \/ (0 < calibratingG s /\ calibratingG s' = calibratingG s - 1)
  \/ calibratingG s' = total.
Proof.
  intros Hc s'. subst s'.
  destruct read as [raw|]; [|left; split; [reflexivity | now left]].
  rewrite calibratingG_gyroUpdate_some.
  unfold calibrate, isGyroCalibrationComplete. simpl.
  destruct (calibratingG s =? 0) eqn:E; simpl.
  - apply Z.eqb_eq in E. left. split; [reflexivity | now right].
  - apply Z.eqb_neq in E. right.
    destruct (performGyroCalibration_countdown
                (gyroMovementCalibrationThreshold cfg) (acquire cfg raw s))
      as [H|H]; rewrite H; simpl.
    + left. unfold in_u16 in Hc. split; [lia|].
      apply u16_id. unfold in_u16. lia.
    + now right.
Qed.

(** The countdown stays a [uint16_t]. *)
Lemma gyroUpdate_in_u16 s read :
  in_u16 (calibratingG s) -> in_u16 (calibratingG (gyroUpdate cfg s read)).
Proof.
  intros Hc. destruct read as [raw|]; [|exact Hc].
  rewrite calibratingG_gyroUpdate_some. unfold calibrate.
  destruct (negb _); [|exact Hc].
  destruct (performGyroCalibration_countdown
              (gyroMovementCalibrationThreshold cfg) (acquire cfg raw s))
    as [H|H]; rewrite H.
  - apply u16_range.
  - apply total_in_u16.
Qed.

End Countdown.

(** ** One calibration step *)

Section Calibration.
Context {P : Platform}.
Variable cfg : config.

Local Abbreviation total := (gyroCalculateCalibratingCycles cfg).
Local Abbreviation iteration a s := (reset_globals a (accumulate cfg a s)).

(** [accumulate] writes one slot of [g] and one of [var]. *)
Lemma accumulate_eq a s :
  accumulate cfg a s
  = set_var
      (set (var s) a
         (devPush (if calibratingG s =? total then devClear (get (var s) a)
                   else get (var s) a)
                  (of_int (get (gyroADC s) a))))
      (set_g
         (set (g s) a
            (s32 ((if calibratingG s =? total then 0 else get (g s) a)
                  + get (gyroADC s) a)))
         s).
Proof.
  unfold accumulate, isOnFirstGyroCalibrationCycle.
  destruct (calibratingG s =? total); destruct s; cbn;
    rewrite ?get_set_same, ?set_set; reflexivity.
Qed.

Lemma g_accumulate a s :
  get (g (accumulate cfg a s)) a
  = s32 ((if calibratingG s =? total then 0 else get (g s) a)
         + get (gyroADC s) a).
Proof. rewrite accumulate_eq. cbn. apply get_set_same. Qed.

Lemma var_accumulate a s :
  get (var (accumulate cfg a s)) a
  = devPush (if calibratingG s =? total then devClear (get (var s) a)
             else get (var s) a)
            (of_int (get (gyroADC s) a)).
Proof. rewrite accumulate_eq. cbn. apply get_set_same. Qed.

(** The fields of the state after lines 128-140 of one iteration. *)
Lemma iteration_fields a s :
  gyroADC (iteration a s) = set (gyroADC s) a 0
  /\ gyroZero (iteration a s) = set (gyroZero s) a 0
  /\ calibratingG (iteration a s) = calibratingG s
  /\ g (iteration a s) = set (g s) a (get (g (accumulate cfg a s)) a)
  /\ var (iteration a s) = set (var s) a (get (var (accumulate cfg a s)) a)
  /\ beeps (iteration a s) = beeps s.
Proof.
  rewrite g_accumulate, var_accumulate, accumulate_eq.
  destruct s; cbn. tauto.
Qed.

Lemma calibrate_axis_not_final thr a s :
  calibratingG s <> 1 -> calibrate_axis cfg thr a s = Continue (iteration a s).
Proof.
  intros H. unfold calibrate_axis, finish, isOnFinalGyroCalibrationCycle.
  destruct (iteration_fields a s) as (_ & _ & C & _). rewrite C.
  apply Z.eqb_neq in H. now rewrite H.
Qed.

Lemma calibrate_axis_final thr a s :
  calibratingG s = 1 ->
  calibrate_axis cfg thr a s
  = if moved thr a (iteration a s)
    then Return (gyroSetCalibrationCycles cfg (iteration a s))
    else Continue (commit cfg a (iteration a s)).
Proof.
  intros H. unfold calibrate_axis, finish, isOnFinalGyroCalibrationCycle.
  destruct (iteration_fields a s) as (_ & _ & C & _). rewrite C, H.
  reflexivity.
Qed.

(** The movement test of an axis looks at that axis's slot only. *)
Lemma moved_iteration thr a s s0 :
  calibratingG s = calibratingG s0 ->
  get (var s) a = get (var s0) a ->
  get (gyroADC s) a = get (gyroADC s0) a ->
  moved thr a (iteration a s) = moved thr a (accumulate cfg a s0).
Proof.
  intros Hc Hv Ha. unfold moved. f_equal. f_equal. f_equal.
  destruct (iteration_fields a s) as (_ & _ & _ & _ & V & _).
  rewrite V, get_set_same, !var_accumulate, Hc, Hv, Ha. reflexivity.
Qed.

(** What one slot holds after [accumulate] depends on that slot and on
    the countdown only. *)
Lemma accumulate_slot a s s0 :
  calibratingG s = calibratingG s0 ->
  get (g s) a = get (g s0) a ->
  get (var s) a = get (var s0) a ->
  get (gyroADC s) a = get (gyroADC s0) a ->
  get (g (accumulate cfg a s)) a = get (g (accumulate cfg a s0)) a
  /\ get (var (accumulate cfg a s)) a = get (var (accumulate cfg a s0)) a.
Proof.
  intros Hc Hg Hv Ha.
  rewrite !g_accumulate, !var_accumulate, Hc, Hg, Hv, Ha. now split.
Qed.

(** The three iterations when none of them commits or returns. *)
Local Abbreviation sweep s := (iteration AZ (iteration AY (iteration AX s))).

Lemma sweep_fields s :
  gyroADC (sweep s) = vconst 0 /\ gyroZero (sweep s) = vconst 0
  /\ calibratingG (sweep s) = calibratingG s
  /\ (forall a, get (g (sweep s)) a = get (g (accumulate cfg a s)) a)
  /\ (forall a, get (var (sweep s)) a = get (var (accumulate cfg a s)) a)
  /\ beeps (sweep s) = beeps s.
Proof.
  set (s1 := iteration AX s). set (s2 := iteration AY s1).
  destruct (iteration_fields AX s) as (A1 & Z1 & C1 & G1 & V1 & B1).
  destruct (iteration_fields AY s1) as (A2 & Z2 & C2 & G2 & V2 & B2).
  destruct (iteration_fields AZ s2) as (A3 & Z3 & C3 & G3 & V3 & B3).
  fold s1 in A1, Z1, C1, G1, V1, B1. fold s2 in A2, Z2, C2, G2, V2, B2.
  assert (S2 : get (g (accumulate cfg AY s1)) AY = get (g (accumulate cfg AY s)) AY
               /\ get (var (accumulate cfg AY s1)) AY
                  = get (var (accumulate cfg AY s)) AY).
  { apply accumulate_slot; rewrite ?C1, ?G1, ?V1, ?A1; reflexivity. }
  assert (S3 : get (g (accumulate cfg AZ s2)) AZ = get (g (accumulate cfg AZ s)) AZ
               /\ get (var (accumulate cfg AZ s2)) AZ
                  = get (var (accumulate cfg AZ s)) AZ).
  { apply accumulate_slot;
      rewrite ?C2, ?G2, ?V2, ?A2, ?C1, ?G1, ?V1, ?A1; reflexivity. }
  destruct S2 as (S2g & S2v). destruct S3 as (S3g & S3v).
  split. { rewrite A3, A2, A1. reflexivity. }
  split. { rewrite Z3, Z2, Z1. reflexivity. }
  split. { congruence. }
  split. { intros a. rewrite G3, G2, G1, S3g, S2g. destruct a; reflexivity. }
  split. { intros a. rewrite V3, V2, V1, S3v, S2v. destruct a; reflexivity. }
  congruence.
Qed.

(** A step that is not the final cycle runs the three iterations to the
    end and decrements the countdown. *)
Lemma perform_not_final_eq thr s :
  calibratingG s <> 1 ->
  performGyroCalibration cfg thr s
  = set_calibratingG (u16 (calibratingG s - 1))
      (iteration AZ (iteration AY (iteration AX s))).
Proof.
  intros H1.
  unfold performGyroCalibration. cbn [for_axes].
  destruct (iteration_fields AX s) as (_ & _ & C1 & _).
  destruct (iteration_fields AY (iteration AX s)) as (_ & _ & C2 & _).
  destruct (iteration_fields AZ (iteration AY (iteration AX s)))
    as (_ & _ & C3 & _).
  rewrite (calibrate_axis_not_final thr AX s H1).
  rewrite (calibrate_axis_not_final thr AY) by now rewrite C1.
  rewrite (calibrate_axis_not_final thr AZ) by now rewrite C2, C1.
  unfold isOnFinalGyroCalibrationCycle.
  assert (C : calibratingG (iteration AZ (iteration AY (iteration AX s)))
              = calibratingG s) by congruence.
  rewrite C. apply Z.eqb_neq in H1. rewrite H1.
  cbv beta iota zeta. rewrite C. reflexivity.
Qed.

(** Sums and deviations take the reading, the published value and the
    offset of every axis are zeroed, the countdown goes down by one. *)
Lemma perform_not_final thr s :
  calibratingG s <> 1 ->
  let s' := performGyroCalibration cfg thr s in
  gyroADC s' = vconst 0 /\ gyroZero s' = vconst 0
  /\ calibratingG s' = u16 (calibratingG s - 1)
  /\ (forall a, get (g s') a = get (g (accumulate cfg a s)) a)
  /\ (forall a, get (var s') a = get (var (accumulate cfg a s)) a)
  /\ beeps s' = beeps s.
Proof.
  intros H1 s'. subst s'. rewrite (perform_not_final_eq thr s H1).
  generalize (sweep_fields s).
  generalize (iteration AZ (iteration AY (iteration AX s))).
  intros s3 (A & B & C & D & E & F).
  split; [exact A|]. split; [exact B|]. split; [reflexivity|].
  split; [exact D|]. split; [exact E | exact F].
Qed.

Local Abbreviation committed a s := (commit cfg a (iteration a s)).

(** One iteration of the final cycle that passes the movement test. *)
Lemma committed_fields a s :
  gyroADC (committed a s) = set (gyroADC s) a 0
  /\ gyroZero (committed a s)
     = set (gyroZero s) a (rounded_mean cfg (get (g (accumulate cfg a s)) a))
  /\ calibratingG (committed a s) = calibratingG s
  /\ g (committed a s) = set (g s) a (get (g (accumulate cfg a s)) a)
  /\ var (committed a s) = set (var s) a (get (var (accumulate cfg a s)) a)
  /\ beeps (committed a s) = beeps s.
Proof.
  destruct (iteration_fields a s) as (A & Z & C & G & V & B).
  unfold commit.
  cbn [gyroADC gyroZero calibratingG g var beeps set_gyroZero].
  rewrite A, Z, C, G, V, B, set_set, get_set_same. tauto.
Qed.

Local Abbreviation final_sweep s :=
  (committed AZ (committed AY (committed AX s))).

(** The three iterations of a final cycle on which no axis moved. *)
Lemma final_sweep_fields s :
  gyroADC (final_sweep s) = vconst 0
  /\ (forall a, get (gyroZero (final_sweep s)) a
                = rounded_mean cfg (get (g (accumulate cfg a s)) a))
  /\ calibratingG (final_sweep s) = calibratingG s
  /\ beeps (final_sweep s) = beeps s.
Proof.
  set (s1 := committed AX s). set (s2 := committed AY s1).
  destruct (committed_fields AX s) as (A1 & Z1 & C1 & G1 & V1 & B1).
  destruct (committed_fields AY s1) as (A2 & Z2 & C2 & G2 & V2 & B2).
  destruct (committed_fields AZ s2) as (A3 & Z3 & C3 & G3 & V3 & B3).
  fold s1 in A1, Z1, C1, G1, V1, B1. fold s2 in A2, Z2, C2, G2, V2, B2.
  assert (S2 : get (g (accumulate cfg AY s1)) AY = get (g (accumulate cfg AY s)) AY
               /\ get (var (accumulate cfg AY s1)) AY
                  = get (var (accumulate cfg AY s)) AY).
  { apply accumulate_slot; rewrite ?C1, ?G1, ?V1, ?A1; reflexivity. }
  assert (S3 : get (g (accumulate cfg AZ s2)) AZ = get (g (accumulate cfg AZ s)) AZ
               /\ get (var (accumulate cfg AZ s2)) AZ
                  = get (var (accumulate cfg AZ s)) AZ).
  { apply accumulate_slot;
      rewrite ?C2, ?G2, ?V2, ?A2, ?C1, ?G1, ?V1, ?A1; reflexivity. }
  destruct S2 as (S2g & S2v). destruct S3 as (S3g & S3v).
  split. { rewrite A3, A2, A1. reflexivity. }
  split. { intros a. rewrite Z3, Z2, Z1, S3g, S2g. destruct a; reflexivity. }
  split; congruence.
Qed.

Lemma settled_axes thr s :
  settled cfg thr s = true <->
  forall a, moved thr a (accumulate cfg a s) = false.
Proof.
  unfold settled. cbn [forallb].
  rewrite !andb_true_iff, !negb_true_iff. split.
  - intros (HX & HY & HZ & _) []; assumption.
  - intros H. repeat split; apply H.
Qed.

(** The movement tests of the final cycle, as the loop meets them. *)
Lemma moved_in_loop thr s :
  moved thr AX (iteration AX s) = moved thr AX (accumulate cfg AX s)
  /\ moved thr AY (iteration AY (committed AX s))
     = moved thr AY (accumulate cfg AY s)
  /\ moved thr AZ (iteration AZ (committed AY (committed AX s)))
     = moved thr AZ (accumulate cfg AZ s).
Proof.
  destruct (committed_fields AX s) as (A1 & _ & C1 & _ & V1 & _).
  destruct (committed_fields AY (committed AX s)) as (A2 & _ & C2 & _ & V2 & _).
  split; [|split]; apply moved_iteration;
    rewrite ?C2, ?V2, ?A2, ?C1, ?V1, ?A1; reflexivity.
Qed.

(** How the function ends once the loop has run through. *)
Lemma perform_after_loop thr s s3 :
  for_axes (calibrate_axis cfg thr) [AX; AY; AZ] s = Continue s3 ->
  calibratingG s3 = 1 ->
  performGyroCalibration cfg thr s = set_calibratingG 0 (beeper s3).
Proof.
  intros H H1. unfold performGyroCalibration. rewrite H.
  unfold isOnFinalGyroCalibrationCycle. rewrite H1.
  change (1 =? 1) with true. cbv beta iota zeta.
  change (calibratingG (beeper s3)) with (calibratingG s3).
  rewrite H1. reflexivity.
Qed.

Lemma perform_after_return thr s s3 :
  for_axes (calibrate_axis cfg thr) [AX; AY; AZ] s = Return s3 ->
  performGyroCalibration cfg thr s = s3.
Proof. intros H. unfold performGyroCalibration. now rewrite H. Qed.

(** On a final cycle on which no axis trips the movement test the loop
    runs through and every iteration commits. *)
Lemma loop_final_settled thr s :
  calibratingG s = 1 ->
  settled cfg thr s = true ->
  for_axes (calibrate_axis cfg thr) [AX; AY; AZ] s = Continue (final_sweep s).
Proof.
  intros H1 Hs. rewrite settled_axes in Hs.
  destruct (moved_in_loop thr s) as (MX & MY & MZ).
  destruct (committed_fields AX s) as (_ & _ & C1 & _).
  destruct (committed_fields AY (committed AX s)) as (_ & _ & C2 & _).
  cbn [for_axes].
  rewrite (calibrate_axis_final thr AX s H1), MX, (Hs AX).
  rewrite (calibrate_axis_final thr AY) by now rewrite C1.
  rewrite MY, (Hs AY).
  rewrite (calibrate_axis_final thr AZ) by now rewrite C2, C1.
  rewrite MZ, (Hs AZ). reflexivity.
Qed.

(** The final cycle, when no axis trips the movement test: every axis
    gets its rounded mean, the notification is sent once, the countdown
    reaches 0. *)
Lemma perform_final_settled thr s :
  calibratingG s = 1 ->
  settled cfg thr s = true ->
  let s' := performGyroCalibration cfg thr s in
  gyroADC s' = vconst 0
  /\ (forall a, get (gyroZero s') a
                = rounded_mean cfg (get (g (accumulate cfg a s)) a))
  /\ calibratingG s' = 0
  /\ beeps s' = S (beeps s).
Proof.
  intros H1 Hs s'. subst s'.
  destruct (final_sweep_fields s) as (_ & _ & C & _).
  rewrite (perform_after_loop thr s _ (loop_final_settled thr s H1 Hs))
    by congruence.
  clear C. generalize (final_sweep_fields s). generalize (final_sweep s).
  intros s3 (A & B & C & F).
  split; [exact A|]. split; [exact B|]. split; [reflexivity|].
  cbn [beeps beeper set_beeps set_calibratingG]. now rewrite F.
Qed.

(** The final cycle, when some axis trips the test: the function returns
    from inside the loop with the countdown reloaded, not decremented,
    and without the notification. *)
Lemma loop_final_moved thr s :
  calibratingG s = 1 ->
  settled cfg thr s = false ->
  exists s3,
    for_axes (calibrate_axis cfg thr) [AX; AY; AZ] s
    = Return (gyroSetCalibrationCycles cfg s3)
    /\ beeps s3 = beeps s.
Proof.
  intros H1 Hs.
  destruct (moved_in_loop thr s) as (MX & MY & MZ).
  destruct (iteration_fields AX s) as (_ & _ & _ & _ & _ & I1).
  destruct (committed_fields AX s) as (_ & _ & C1 & _ & _ & B1).
  destruct (iteration_fields AY (committed AX s)) as (_ & _ & _ & _ & _ & I2).
  destruct (committed_fields AY (committed AX s)) as (_ & _ & C2 & _ & _ & B2).
  destruct (iteration_fields AZ (committed AY (committed AX s)))
    as (_ & _ & _ & _ & _ & I3).
  cbn [for_axes].
  rewrite (calibrate_axis_final thr AX s H1), MX.
  destruct (moved thr AX (accumulate cfg AX s)) eqn:EX.
  { eexists. split; [reflexivity | exact I1]. }
  rewrite (calibrate_axis_final thr AY) by now rewrite C1.
  rewrite MY.
  destruct (moved thr AY (accumulate cfg AY s)) eqn:EY.
  { eexists. split; [reflexivity | congruence]. }
  rewrite (calibrate_axis_final thr AZ) by now rewrite C2, C1.
  rewrite MZ.
  destruct (moved thr AZ (accumulate cfg AZ s)) eqn:EZ.
  { eexists. split; [reflexivity | congruence]. }
  exfalso. unfold settled in Hs. cbn [forallb] in Hs.
  rewrite EX, EY, EZ in Hs. discriminate.
Qed.

Lemma perform_final_moved thr s :
  calibratingG s = 1 ->
  settled cfg thr s = false ->
  let s' := performGyroCalibration cfg thr s in
  calibratingG s' = total /\ beeps s' = beeps s.
Proof.
  intros H1 Hs s'. subst s'.
  destruct (loop_final_moved thr s H1 Hs) as (s3 & E & B).
  rewrite (perform_after_return thr s _ E). split; [reflexivity | exact B].
Qed.

End Calibration.

(** ** One tick *)

Section Tick.
Context {P : Platform}.
Variable cfg : config.

Local Abbreviation total := (gyroCalculateCalibratingCycles cfg).
Local Abbreviation aligned raw := (alignSensors raw (gyroAlign cfg)).
Local Abbreviation threshold := (gyroMovementCalibrationThreshold cfg).

Lemma filter_chain_calibration s :
  gyroZero (filter_chain cfg s) = gyroZero s
  /\ g (filter_chain cfg s) = g s
  /\ var (filter_chain cfg s) = var s
  /\ beeps (filter_chain cfg s) = beeps s.
Proof.
  pose proof (filter_chain_calibration_part cfg s) as H.
  unfold calibration_part in H.
  split; [|split; [|split]]; congruence.
Qed.

(** With the low-pass off the loop copies each integer to its float and
    leaves everything else alone. *)
Lemma filter_chain_off s :
  gyroSoftLpfHz cfg = 0 ->
  filter_chain cfg s = set_gyroADCf (Vec3 (of_int (vx (gyroADC s)))
                                          (of_int (vy (gyroADC s)))
                                          (of_int (vz (gyroADC s)))) s.
Proof.
  intros H. unfold filter_chain. rewrite H.
  destruct s; reflexivity.
Qed.

(** The calibration part of a tick that has a sample. *)
Lemma tick_calibration s raw :
  let mid := calibrate cfg (acquire cfg raw s) in
  let s' := gyroUpdate cfg s (Some raw) in
  gyroZero s' = gyroZero mid /\ calibratingG s' = calibratingG mid
  /\ g s' = g mid /\ var s' = var mid /\ beeps s' = beeps mid.
Proof.
  intros mid s'. subst mid s'. unfold gyroUpdate.
  destruct (filter_chain_calibration
              (subtract_zero (calibrate cfg (acquire cfg raw s))))
    as (F1 & F2 & F3 & F4).
  rewrite F1, F2, F3, F4, calibratingG_filter_chain.
  repeat split.
Qed.

Lemma calibrate_active s :
  calibratingG s <> 0 -> calibrate cfg s = performGyroCalibration cfg threshold s.
Proof.
  intros H. unfold calibrate, isGyroCalibrationComplete.
  apply Z.eqb_neq in H. now rewrite H.
Qed.

Lemma calibrate_complete s : calibratingG s = 0 -> calibrate cfg s = s.
Proof.
  intros H. unfold calibrate, isGyroCalibrationComplete. now rewrite H.
Qed.

(** A calibration tick before the final cycle. *)
Lemma tick_not_final s raw :
  calibratingG s <> 0 -> calibratingG s <> 1 ->
  let mid := subtract_zero (calibrate cfg (acquire cfg raw s)) in
  let s' := gyroUpdate cfg s (Some raw) in
  gyroADC mid = vconst 0 /\ gyroZero s' = vconst 0
  /\ calibratingG s' = u16 (calibratingG s - 1)
  /\ (forall a, get (g s') a
                = s32 ((if calibratingG s =? total then 0 else get (g s) a)
                       + get (aligned raw) a))
  /\ beeps s' = beeps s.
Proof.
  intros H0 H1 mid s'. subst mid s'.
  destruct (tick_calibration s raw) as (T1 & T2 & T3 & _ & T5).
  rewrite T1, T2, T3, T5. clear T1 T2 T3 T5.
  rewrite calibrate_active by exact H0.
  destruct (perform_not_final cfg threshold (acquire cfg raw s) H1)
    as (A & B & C & D & _ & E).
  unfold subtract_zero. cbn [gyroADC set_gyroADC]. rewrite A, B.
  split; [reflexivity|]. split; [reflexivity|]. split; [exact C|].
  split; [|exact E].
  intros a. rewrite D, g_accumulate. reflexivity.
Qed.

(** The final cycle of a calibration that is not restarted. *)
Lemma tick_final_settled s raw :
  calibratingG s = 1 ->
  settled cfg threshold (acquire cfg raw s) = true ->
  let s' := gyroUpdate cfg s (Some raw) in
  (forall a, get (gyroZero s') a
             = rounded_mean cfg
                 (s32 ((if 1 =? total then 0 else get (g s) a)
                       + get (aligned raw) a)))
  /\ calibratingG s' = 0
  /\ beeps s' = S (beeps s).
Proof.
  intros H1 Hs s'. subst s'.
  destruct (tick_calibration s raw) as (T1 & T2 & _ & _ & T5).
  rewrite T1, T2, T5. clear T1 T2 T5.
  rewrite calibrate_active by (change (calibratingG s <> 0); lia).
  destruct (perform_final_settled cfg _ (acquire cfg raw s) H1 Hs)
    as (_ & B & C & E).
  split; [|split; [exact C | exact E]].
  intros a. rewrite B, g_accumulate.
  change (calibratingG (acquire cfg raw s)) with (calibratingG s).
  rewrite H1. reflexivity.
Qed.

(** The final cycle of a calibration that is restarted. *)
Lemma tick_final_moved s raw :
  calibratingG s = 1 ->
  settled cfg threshold (acquire cfg raw s) = false ->
  let s' := gyroUpdate cfg s (Some raw) in
  calibratingG s' = total /\ beeps s' = beeps s.
Proof.
  intros H1 Hs s'. subst s'.
  destruct (tick_calibration s raw) as (_ & T2 & _ & _ & T5).
  rewrite T2, T5. clear T2 T5.
  rewrite calibrate_active by (change (calibratingG s <> 0); lia).
  exact (perform_final_moved cfg _ (acquire cfg raw s) H1 Hs).
Qed.

(** With a zero threshold the movement test is off. *)
Lemma settled_threshold_zero s : settled cfg 0 s = true.
Proof. reflexivity. Qed.

End Tick.

(** ** A calibration window *)

Section Window.
Context {P : Platform}.
Variable cfg : config.

Local Abbreviation total := (gyroCalculateCalibratingCycles cfg).
Local Abbreviation threshold := (gyroMovementCalibrationThreshold cfg).

Lemma ticks_snoc s reads r :
  ticks cfg s (reads ++ [r]) = gyroUpdate cfg (ticks cfg s reads) r.
Proof. unfold ticks. now rewrite fold_left_app. Qed.

Lemma window_sum_snoc a samples raw :
  window_sum cfg a (samples ++ [raw])
  = s32 (window_sum cfg a samples + get (alignSensors raw (gyroAlign cfg)) a).
Proof. unfold window_sum. now rewrite fold_left_app. Qed.

(** The sum wraps like an [int32_t], so it is the plain sum of the
    readings, wrapped once. *)
Lemma window_sum_wrap a samples :
  samples <> [] ->
  window_sum cfg a samples
  = s32 (fold_left
           (fun acc raw => acc + get (alignSensors raw (gyroAlign cfg)) a)
           samples 0).
Proof.
  induction samples as [|raw l IH] using rev_ind; intros H; [now elim H|].
  rewrite window_sum_snoc, fold_left_app. cbn [fold_left].
  destruct l as [|raw0 l0]; [reflexivity|].
  rewrite IH by discriminate. apply s32_add_l.
Qed.

(** From the first cycle of a window up to the cycle before the final
    one, the sums hold exactly the readings of this window, whatever they
    held before; offsets stay zeroed. *)
Lemma window_progress samples : forall s,
  calibratingG s = total ->
  samples <> [] ->
  Z.of_nat (length samples) < total ->
  let s' := ticks cfg s (map Some samples) in
  calibratingG s' = total - Z.of_nat (length samples)
  /\ (forall a, get (g s') a = window_sum cfg a samples)
  /\ gyroZero s' = vconst 0
  /\ beeps s' = beeps s.
Proof.
  induction samples as [|raw l IH] using rev_ind; intros s Hc Hne Hlen s'.
  { now elim Hne. }
  subst s'. rewrite map_app. cbn [map]. rewrite ticks_snoc.
  rewrite length_app in *. cbn [length] in *.
  pose proof (total_in_u16 cfg) as Ht. unfold in_u16 in Ht.
  destruct l as [|raw0 l0].
  - cbn [map ticks fold_left length app Nat.add] in *.
    destruct (tick_not_final cfg s raw) as (_ & Z1 & C1 & G1 & B1);
      [lia | lia |].
    split. { rewrite C1, Hc. apply u16_id. unfold in_u16. lia. }
    split. { intros a. rewrite G1, Hc, Z.eqb_refl. reflexivity. }
    split; assumption.
  - destruct (IH s Hc) as (C0 & G0 & _ & B0); [discriminate | lia |].
    set (l := raw0 :: l0) in *.
    assert (Hl : (0 < length l)%nat) by (subst l; cbn; lia).
    set (s0 := ticks cfg s (map Some l)) in *.
    destruct (tick_not_final cfg s0 raw) as (_ & Z1 & C1 & G1 & B1);
      [lia | lia |].
    split. { rewrite C1, C0. rewrite u16_id by (unfold in_u16; lia). lia. }
    split.
    { intros a. rewrite G1, window_sum_snoc, G0.
      replace (calibratingG s0 =? total) with false; [reflexivity|].
      symmetry. apply Z.eqb_neq. lia. }
    split; [assumption | congruence].
Qed.

(** A whole window that is not restarted: after as many ticks as the
    cycle count, calibration is complete and every axis holds the rounded
    mean of the readings of this window. *)
Lemma window_commit samples raw s :
  calibratingG s = total ->
  Z.of_nat (length (samples ++ [raw])) = total ->
  settled cfg threshold (acquire cfg raw (ticks cfg s (map Some samples))) = true ->
  let s' := ticks cfg s (map Some (samples ++ [raw])) in
  calibratingG s' = 0
  /\ (forall a, get (gyroZero s') a
                = rounded_mean cfg (window_sum cfg a (samples ++ [raw])))
  /\ beeps s' = S (beeps s).
Proof.
  intros Hc Hlen Hs s'. subst s'.
  rewrite map_app. cbn [map]. rewrite ticks_snoc.
  rewrite length_app in Hlen. cbn [length] in Hlen.
  destruct samples as [|raw0 l0].
  - cbn [map ticks fold_left length app Nat.add] in *.
    assert (H1 : calibratingG s = 1) by lia.
    destruct (tick_final_settled cfg s raw H1 Hs) as (Z1 & C1 & B1).
    split; [exact C1|]. split; [|exact B1].
    intros a. rewrite Z1. rewrite <- Hlen. reflexivity.
  - set (l := raw0 :: l0) in *.
    assert (Hl : (0 < length l)%nat) by (subst l; cbn; lia).
    destruct (window_progress l s Hc) as (C0 & G0 & _ & B0);
      [discriminate | lia |].
    set (s0 := ticks cfg s (map Some l)) in *.
    assert (H1 : calibratingG s0 = 1) by lia.
    destruct (tick_final_settled cfg s0 raw H1 Hs) as (Z1 & C1 & B1).
    split; [exact C1|]. split; [|congruence].
    intros a. rewrite Z1, window_sum_snoc, G0.
    replace (1 =? total) with false; [reflexivity|].
    symmetry. apply Z.eqb_neq. lia.
Qed.

(** Over [n] ticks the countdown cannot fall more than [n] below the
    smaller of its value and the cycle count. *)
Lemma countdown_lower_bound reads : forall s,
  in_u16 (calibratingG s) ->
  Z.min (calibratingG s) total - Z.of_nat (length reads)
  <= calibratingG (ticks cfg s reads).
Proof.
  induction reads as [|r l IH]; intros s Hc.
  - cbn. lia.
  - change (ticks cfg s (r :: l)) with (ticks cfg (gyroUpdate cfg s r) l).
    specialize (IH (gyroUpdate cfg s r) (gyroUpdate_in_u16 cfg s r Hc)).
    cbn [length]. rewrite Nat2Z.inj_succ.
    assert (Z.min (calibratingG s) total - 1
            <= Z.min (calibratingG (gyroUpdate cfg s r)) total); [|lia].
    destruct r as [raw|]; [|cbn; lia].
    rewrite calibratingG_gyroUpdate_some. unfold calibrate.
    destruct (isGyroCalibrationComplete _) eqn:E; cbn [negb].
    + change (calibratingG (acquire cfg raw s)) with (calibratingG s). lia.
    + destruct (performGyroCalibration_countdown cfg threshold
                  (acquire cfg raw s)) as [H|H]; rewrite H.
      * change (calibratingG (acquire cfg raw s)) with (calibratingG s).
        unfold isGyroCalibrationComplete in E.
        change (calibratingG (acquire cfg raw s)) with (calibratingG s) in E.
        apply Z.eqb_neq in E. unfold in_u16 in Hc.
        rewrite u16_id by (unfold in_u16; lia). lia.
      * lia.
Qed.

End Window.

(** ** The filter stage *)

Section Filters.
Context {P : Platform}.
Variable cfg : config.

Local Abbreviation threshold := (gyroMovementCalibrationThreshold cfg).

(** The calibration loop leaves the filters and the float outputs alone. *)
Lemma calibrate_axis_filters thr a s :
  match calibrate_axis cfg thr a s with
  | Continue s' | Return s' =>
      filter_state s' = filter_state s /\ gyroADCf s' = gyroADCf s
  end.
Proof.
  unfold calibrate_axis, finish. rewrite accumulate_eq.
  destruct (isOnFinalGyroCalibrationCycle _); [destruct (moved _ _ _)|];
    split; reflexivity.
Qed.

Lemma for_axes_filters thr l : forall s,
  match for_axes (calibrate_axis cfg thr) l s with
  | Continue s' | Return s' =>
      filter_state s' = filter_state s /\ gyroADCf s' = gyroADCf s
  end.
Proof.
  induction l as [|a l IH]; intros s; cbn [for_axes].
  - now split.
  - pose proof (calibrate_axis_filters thr a s) as Ha.
    destruct (calibrate_axis cfg thr a s) as [s1|s1]; [|exact Ha].
    specialize (IH s1).
    destruct (for_axes (calibrate_axis cfg thr) l s1);
      destruct IH, Ha; split; congruence.
Qed.

Lemma calibrate_filters s :
  filter_state (calibrate cfg s) = filter_state s
  /\ gyroADCf (calibrate cfg s) = gyroADCf s.
Proof.
  unfold calibrate. destruct (negb _); [|now split].
  unfold performGyroCalibration.
  pose proof (for_axes_filters threshold [AX; AY; AZ] s) as H.
  destruct (for_axes _ _ s) as [s1|s1]; [|exact H].
  destruct (isOnFinalGyroCalibrationCycle s1); exact H.
Qed.

(** An iteration of the filter loop ends by rounding its own float. *)
Lemma filter_axis_rounds a s :
  get (gyroADC (filter_axis cfg a s)) a
  = lrintf (get (gyroADCf (filter_axis cfg a s)) a).
Proof.
  unfold filter_axis. generalize (notch_2 cfg a (notch_1 cfg a
    (tap_notch cfg a (lowpass cfg a (tap_gyro cfg a s))))).
  intros s0. unfold round_output. cbn [gyroADC gyroADCf set_gyroADC].
  apply get_set_same.
Qed.

(** It writes no other slot of the outputs. *)
Lemma filter_axis_other a b s :
  a <> b ->
  get (gyroADC (filter_axis cfg a s)) b = get (gyroADC s) b
  /\ get (gyroADCf (filter_axis cfg a s)) b = get (gyroADCf s) b.
Proof.
  intros H.
  set (out := fun s : state => (get (gyroADC s) b, get (gyroADCf s) b)).
  assert (T1 : forall s, out (tap_gyro cfg a s) = out s).
  { intros s0. unfold tap_gyro. destruct (_ =? _); reflexivity. }
  assert (L : forall s, out (lowpass cfg a s) = out s).
  { intros s0. unfold lowpass, out.
    destruct (_ =? _); [|destruct (_ =? _)];
      match goal with |- context [let (_, _) := ?e in _] => destruct e end;
      cbn [gyroADC gyroADCf set_gyroADCf set_gyroFilterLPF set_gyroFilterPt1
           set_gyroDenoiseState];
      now rewrite get_set_other by exact H. }
  assert (T2 : forall s, out (tap_notch cfg a s) = out s).
  { intros s0. unfold tap_notch. destruct (_ =? _); reflexivity. }
  assert (N1 : forall s, out (notch_1 cfg a s) = out s).
  { intros s0. unfold notch_1, out.
    destruct (negb _); [destruct (biquadFilterApply _ _)|];
      cbn [gyroADC gyroADCf set_gyroADCf set_gyroFilterNotch_1];
      now rewrite ?get_set_other by exact H. }
  assert (N2 : forall s, out (notch_2 cfg a s) = out s).
  { intros s0. unfold notch_2, out.
    destruct (negb _); [destruct (biquadFilterApply _ _)|];
      cbn [gyroADC gyroADCf set_gyroADCf set_gyroFilterNotch_2];
      now rewrite ?get_set_other by exact H. }
  assert (R : forall s, out (round_output a s) = out s).
  { intros s0. unfold round_output, out. cbn [gyroADC gyroADCf set_gyroADC].
    now rewrite get_set_other by exact H. }
  assert (E : out (filter_axis cfg a s) = out s).
  { unfold filter_axis. now rewrite R, N2, N1, T2, L, T1. }
  unfold out in E. now inversion E.
Qed.

Lemma filter_chain_rounds s a :
  gyroSoftLpfHz cfg <> 0 ->
  get (gyroADC (filter_chain cfg s)) a
  = lrintf (get (gyroADCf (filter_chain cfg s)) a).
Proof.
  intros H. unfold filter_chain. apply Z.eqb_neq in H. rewrite H.
  cbn [negb fold_left].
  set (s1 := filter_axis cfg AX s). set (s2 := filter_axis cfg AY s1).
  destruct a.
  - destruct (filter_axis_other AZ AX s2) as [A3 F3]; [discriminate|].
    destruct (filter_axis_other AY AX s1) as [A2 F2]; [discriminate|].
    rewrite A3, F3. subst s2. rewrite A2, F2. apply filter_axis_rounds.
  - destruct (filter_axis_other AZ AY s2) as [A3 F3]; [discriminate|].
    rewrite A3, F3. apply filter_axis_rounds.
  - apply filter_axis_rounds.
Qed.

End Filters.

(** ** Rounding of the committed offset *)

Section Rounding.
Context {P : Platform}.
Variable cfg : config.

Local Abbreviation total := (gyroCalculateCalibratingCycles cfg).

(** While the biased sum is not negative, line 149 rounds the mean to the
    nearest integer, halves upward. *)
Lemma rounded_mean_nonneg sum :
  0 < total -> 0 <= sum + total / 2 < 2147483648 ->
  rounded_mean cfg sum = spec_round_half_up sum total.
Proof.
  intros HT Hs. unfold rounded_mean, spec_round_half_up, cdiv.
  rewrite s32_id by (unfold in_s32; lia).
  rewrite Z.quot_div_nonneg by lia.
  pose proof (Z.div_mod total 2 ltac:(lia)) as E.
  pose proof (Z.mod_pos_bound total 2 ltac:(lia)) as B.
  set (h := total / 2) in *. set (r := total mod 2) in *.
  clearbody h r.
  assert (HT0 : total <> 0) by lia.
  pose proof (Z.div_mod (sum + h) total HT0) as E1.
  pose proof (Z.mod_pos_bound (sum + h) total HT) as B1.
  set (q := (sum + h) / total) in *. set (m := (sum + h) mod total) in *.
  clearbody q m.
  apply (Z.div_unique_pos _ _ q (2 * m + r)); nia.
Qed.

(** A mean that is exactly a negative integer [-k] is committed as
    [-k + 1]: the truncating division rounds the biased sum toward zero. *)
Lemma rounded_mean_negative_exact k :
  2 <= total -> 1 <= k -> in_s32 (- (k * total)) ->
  rounded_mean cfg (- (k * total)) = - k + 1
  /\ spec_round_half_up (- (k * total)) total = - k.
Proof.
  intros HT Hk Hr. unfold in_s32 in Hr.
  pose proof (Z.div_mod total 2 ltac:(lia)) as E.
  pose proof (Z.mod_pos_bound total 2 ltac:(lia)) as B.
  split.
  - unfold rounded_mean, cdiv.
    set (h := total / 2) in *. set (r := total mod 2) in *.
    clearbody h r.
    rewrite s32_id by (unfold in_s32; nia).
    replace (- (k * total) + h) with (- ((k - 1) * total + (total - h))) by lia.
    rewrite Z.quot_opp_l by lia.
    rewrite Z.quot_div_nonneg by nia.
    rewrite Z.div_add_l by lia.
    rewrite Z.div_small by lia. lia.
  - unfold spec_round_half_up.
    symmetry. apply (Z.div_unique_pos _ _ (- k) total); lia.
Qed.

End Rounding.

(* ================================================================== *)
(** * The specification's claims *)

Section Claims.
Context {P : Platform}.
Variable cfg : config.

Local Abbreviation total := (gyroCalculateCalibratingCycles cfg).
Local Abbreviation threshold := (gyroMovementCalibrationThreshold cfg).
Local Abbreviation aligned raw := (alignSensors raw (gyroAlign cfg)).

(** [C2] The offset committed by a window that is not restarted is line
    149's quotient of the window's sum.  For a sum that is an exact
    negative multiple [-k * totalCycles] of the cycle count, whose mean is
    the integer [-k], that quotient is [-k + 1], whereas
    [round_half_up(sum / totalCycles)] is [-k]: adding half the divisor
    before a division that truncates toward zero rounds to nearest only
    for sums that are not negative. *)
Theorem negative_mean_committed_one_too_high samples raw s a k :
  calibratingG s = total ->
  Z.of_nat (length (samples ++ [raw])) = total ->
  settled cfg threshold (acquire cfg raw (ticks cfg s (map Some samples))) = true ->
  2 <= total -> 1 <= k ->
  window_sum cfg a (samples ++ [raw]) = - (k * total) ->
  let s' := ticks cfg s (map Some (samples ++ [raw])) in
  get (gyroZero s') a = - k + 1
  /\ spec_round_half_up (- (k * total)) total = - k.
Proof.
  intros Hc Hlen Hs HT Hk Hsum s'. subst s'.
  destruct (window_commit cfg samples raw s Hc Hlen Hs) as (_ & Z1 & _).
  rewrite Z1, Hsum.
  apply rounded_mean_negative_exact; try assumption.
  rewrite <- Hsum, window_sum_snoc. apply s32_range.
Qed.

(** [C3], as amended.  The zero-offset is written by calibration ticks
    only.  A tick without a sample, or with calibration complete, leaves
    it as it is; a calibration tick before the final cycle sets all three
    axes to zero; a final cycle on which no axis trips the movement test
    gives all three axes, in that one tick, line 149's quotient of their
    sum, this tick's reading included. *)
Theorem gyroZero_written_by_calibration_ticks s read :
  let s' := gyroUpdate cfg s read in
  match read with
  | None => gyroZero s' = gyroZero s
  | Some raw =>
      if calibratingG s =? 0 then gyroZero s' = gyroZero s
      else if calibratingG s =? 1 then
        settled cfg threshold (acquire cfg raw s) = true ->
        forall a, get (gyroZero s') a
                  = rounded_mean cfg
                      (s32 ((if 1 =? total then 0 else get (g s) a)
                            + get (aligned raw) a))
      else gyroZero s' = vconst 0
  end.
Proof.
  intros s'. subst s'. destruct read as [raw|]; [|reflexivity].
  destruct (tick_calibration cfg s raw) as (T1 & _).
  destruct (calibratingG s =? 0) eqn:E0.
  - apply Z.eqb_eq in E0. rewrite T1.
    now rewrite calibrate_complete by exact E0.
  - apply Z.eqb_neq in E0. destruct (calibratingG s =? 1) eqn:E1.
    + apply Z.eqb_eq in E1. intros Hs.
      destruct (tick_final_settled cfg s raw E1 Hs) as (B & _). exact B.
    + apply Z.eqb_neq in E1.
      destruct (tick_not_final cfg s raw E0 E1) as (_ & B & _). exact B.
Qed.


(** [C6] With the low-pass off ([gyroSoftLpfHz = 0]) the published float
    of every axis is the cast of the integer the filter chain received,
    which on a tick after calibration is the aligned reading minus the
    offset; the published integer is that same integer; and no filter
    state changes, the notches' included, whatever the notch frequencies
    are. *)
Theorem lowpass_off_bypasses_all s raw :
  gyroSoftLpfHz cfg = 0 ->
  let mid := subtract_zero (calibrate cfg (acquire cfg raw s)) in
  let s' := gyroUpdate cfg s (Some raw) in
  (forall a, get (gyroADCf s') a = of_int (get (gyroADC mid) a))
  /\ gyroADC s' = gyroADC mid
  /\ (calibratingG s = 0 ->
      forall a, get (gyroADC mid) a
                = s32 (get (aligned raw) a - get (gyroZero s) a))
  /\ filter_state s' = filter_state s.
Proof.
  intros Hf mid s'.
  assert (Fs : filter_state mid = filter_state s).
  { subst mid. destruct (calibrate_filters cfg (acquire cfg raw s)) as (F & _).
    unfold subtract_zero.
    change (filter_state (set_gyroADC ?v ?x)) with (filter_state x).
    rewrite F. reflexivity. }
  assert (Hc : calibratingG s = 0 ->
               forall a, get (gyroADC mid) a
                         = s32 (get (aligned raw) a - get (gyroZero s) a)).
  { intros H0 a. subst mid.
    rewrite calibrate_complete by exact H0.
    destruct a; reflexivity. }
  subst s'. unfold gyroUpdate. fold mid.
  rewrite (filter_chain_off cfg mid Hf). clearbody mid.
  split; [intros []; reflexivity|]. split; [reflexivity|].
  split; [exact Hc | exact Fs].
Qed.

(** [C7], as amended.  After every tick that publishes outputs with the
    low-pass on, the published integer of every axis is [lrintf] of the
    published float: rounded to nearest, ties to even.  With the low-pass
    off nothing is rounded: the float is the cast of the integer. *)
Theorem published_integer_is_lrintf s raw a :
  let s' := gyroUpdate cfg s (Some raw) in
  if gyroSoftLpfHz cfg =? 0
  then get (gyroADCf s') a = of_int (get (gyroADC s') a)
  else get (gyroADC s') a = lrintf (get (gyroADCf s') a).
Proof.
  intros s'. subst s'. unfold gyroUpdate.
  generalize (subtract_zero (calibrate cfg (acquire cfg raw s))). intros mid.
  destruct (gyroSoftLpfHz cfg =? 0) eqn:E.
  - apply Z.eqb_eq in E. rewrite (filter_chain_off cfg mid E).
    destruct a; reflexivity.
  - apply Z.eqb_neq in E. now apply filter_chain_rounds.
Qed.

(** [C8] A tick on which the sensor has no sample leaves every global as
    it was: published integers and floats, zero-offsets, countdown, sums
    and deviations, filter states, debug taps.  So does any run of such
    ticks. *)
Theorem tick_without_sample_is_noop s :
  gyroUpdate cfg s None = s
  /\ forall n, ticks cfg s (repeat None n) = s.
Proof.
  split; [reflexivity|].
  induction n as [|n IH]; [reflexivity|].
  cbn [repeat]. unfold ticks in *. cbn [fold_left]. exact IH.
Qed.

End Claims.

Section Restart.
Context {P : Platform}.
Variable cfg : config.

Local Abbreviation total := (gyroCalculateCalibratingCycles cfg).
Local Abbreviation threshold := (gyroMovementCalibrationThreshold cfg).
Local Abbreviation aligned raw := (alignSensors raw (gyroAlign cfg)).

(** After a restart on the final cycle the countdown holds the full cycle
    count, no notification has been sent, and calibration stays
    incomplete over any number of ticks below the cycle count. *)
Lemma restart_delays_completion s raw reads :
  calibratingG s = 1 ->
  settled cfg threshold (acquire cfg raw s) = false ->
  Z.of_nat (length reads) < total ->
  let s1 := gyroUpdate cfg s (Some raw) in
  calibratingG s1 = total /\ beeps s1 = beeps s
  /\ isGyroCalibrationComplete (ticks cfg s1 reads) = false.
Proof.
  intros H1 Hs Hlen s1.
  destruct (tick_final_moved cfg s raw H1 Hs) as (C & B).
  fold s1 in C, B. clearbody s1.
  split; [exact C|]. split; [exact B|].
  pose proof (total_in_u16 cfg) as Ht.
  assert (Hu : in_u16 (calibratingG s1)) by now rewrite C.
  pose proof (countdown_lower_bound cfg reads s1 Hu) as L.
  rewrite C in L. unfold isGyroCalibrationComplete.
  apply Z.eqb_neq. lia.
Qed.

(** [C9], as amended.  [gyroSetCalibrationCycles] writes the countdown and
    nothing else: the countdown becomes the product
    [(CALIBRATING_GYRO_CYCLES / targetLooptime) * CALIBRATING_GYRO_CYCLES]
    reduced modulo 2^16, and every other global keeps its value: the
    state after the call is the state before it with the countdown
    assigned, so the published integer and float, the offsets, the five
    filter banks, the sums, the deviations, the debug array and the
    notification count are those of before.  The reset happens on the
    first calibration step after the call, before the reading of that step
    is added.  The offsets that the window commits are the rounded means
    of the readings of this window, whatever state the call was made
    in. *)
Theorem begin_calibration_window s samples raw :
  0 <= CALIBRATING_GYRO_CYCLES < 4294967296 ->
  0 < targetLooptime cfg < 4294967296 ->
  let s0 := gyroSetCalibrationCycles cfg s in
  calibratingG s0
  = ((CALIBRATING_GYRO_CYCLES / targetLooptime cfg) * CALIBRATING_GYRO_CYCLES)
    mod 65536
  /\ (s0 = set_calibratingG (calibratingG s0) s
      /\ gyroADC s0 = gyroADC s /\ gyroADCf s0 = gyroADCf s
      /\ gyroZero s0 = gyroZero s
      /\ gyroFilterLPF s0 = gyroFilterLPF s
      /\ gyroFilterNotch_1 s0 = gyroFilterNotch_1 s
      /\ gyroFilterNotch_2 s0 = gyroFilterNotch_2 s
      /\ gyroFilterPt1 s0 = gyroFilterPt1 s
      /\ gyroDenoiseState s0 = gyroDenoiseState s
      /\ g s0 = g s /\ var s0 = var s
      /\ debug s0 = debug s /\ beeps s0 = beeps s)
  /\ (forall a,
        get (g (accumulate cfg a (acquire cfg raw s0))) a
        = s32 (0 + get (aligned raw) a)
        /\ get (var (accumulate cfg a (acquire cfg raw s0))) a
           = devPush (devClear (get (var s) a)) (of_int (get (aligned raw) a)))
  /\ (Z.of_nat (length (samples ++ [raw])) = total ->
      settled cfg threshold
        (acquire cfg raw (ticks cfg s0 (map Some samples))) = true ->
      let s' := ticks cfg s0 (map Some (samples ++ [raw])) in
      calibratingG s' = 0
      /\ forall a, get (gyroZero s') a
                   = rounded_mean cfg (window_sum cfg a (samples ++ [raw]))).
Proof.
  intros HC HL s0.
  split.
  { subst s0. unfold gyroSetCalibrationCycles.
    cbn [calibratingG set_calibratingG].
    unfold gyroCalculateCalibratingCycles.
    rewrite u16_u32_mul. unfold u32.
    rewrite (Z.mod_small CALIBRATING_GYRO_CYCLES) by assumption.
    rewrite (Z.mod_small (targetLooptime cfg)) by lia.
    reflexivity. }
  split.
  { subst s0. unfold gyroSetCalibrationCycles.
    repeat (split; [reflexivity|]). reflexivity. }
  split.
  { intros a. rewrite g_accumulate, var_accumulate.
    change (calibratingG (acquire cfg raw s0)) with total.
    rewrite Z.eqb_refl. now split. }
  intros Hlen Hs s'.
  destruct (window_commit cfg samples raw s0 eq_refl Hlen Hs) as (C & Z1 & _).
  split; assumption.
Qed.

End Restart.

(* ================================================================== *)
(** * The claims on the bench *)

#[local] Existing Instance Bench.platform.

(** [C1] The spec's scenario on the code: a loop period of 1000 and 1000
    base cycles give 1000 cycles; with the constant aligned reading
    (100, -50, 0) and a zero threshold, calibration is incomplete after
    999 ticks and complete after 1000, and the offset committed is
    (100, -49, 0): the pitch offset is -49, not the -50 of the scenario. *)
Theorem scenario_commits_minus_49 :
  gyroCalculateCalibratingCycles (P := Bench.platform) (Bench.cfg 0) = 1000
  /\ isGyroCalibrationComplete (Bench.after 999) = false
  /\ isGyroCalibrationComplete (Bench.after 1000) = true
  /\ gyroZero (Bench.after 1000) = Vec3 100 (-49) 0.
Proof. vm_compute. repeat split. Qed.

(** The scenario's pitch axis: 1000 readings of -50. *)
Lemma negative_mean_committed_one_too_high_witness :
  window_sum (P := Bench.platform) (Bench.cfg 0) AY
    (repeat Bench.reading 999 ++ [Bench.reading]) = - (50 * 1000)
  /\ get (gyroZero (ticks (Bench.cfg 0) Bench.calibrating
                      (map Some (repeat Bench.reading 999 ++ [Bench.reading]))))
         AY = - 50 + 1
  /\ spec_round_half_up (- (50 * 1000)) 1000 = - 50.
Proof.
  split; [vm_compute; reflexivity|].
  apply (negative_mean_committed_one_too_high (P := Bench.platform)
           (Bench.cfg 0) (repeat Bench.reading 999) Bench.reading
           Bench.calibrating AY 50).
  - reflexivity.
  - vm_compute; reflexivity.
  - vm_compute; reflexivity.
  - vm_compute; discriminate.
  - lia.
  - vm_compute; reflexivity.
Defined.

(** [C3] fails as stated: on the first tick of a second calibration the
    countdown is 1000, not on its final cycle, and the offset committed by
    the first calibration is overwritten with zeroes. *)
Lemma offset_cleared_before_final_cycle :
  isOnFinalGyroCalibrationCycle Bench.recalibrating = false
  /\ gyroZero Bench.recalibrating = Vec3 100 (-49) 0
  /\ gyroZero (gyroUpdate (Bench.cfg 0) Bench.recalibrating
                 (Some Bench.reading)) = Vec3 0 0 0.
Proof. vm_compute. repeat split. Qed.

(** The final cycle of the scenario. *)
Lemma gyroZero_written_by_calibration_ticks_witness :
  settled (Bench.cfg 0) 0
    (acquire (Bench.cfg 0) Bench.reading (Bench.after 999)) = true
  /\ forall a,
       get (gyroZero (gyroUpdate (Bench.cfg 0) (Bench.after 999)
                        (Some Bench.reading))) a
       = rounded_mean (Bench.cfg 0)
           (s32 (get (g (Bench.after 999)) a + get Bench.reading a)).
Proof.
  split; [reflexivity|].
  pose proof (gyroZero_written_by_calibration_ticks (P := Bench.platform)
                (Bench.cfg 0) (Bench.after 999) (Some Bench.reading)) as H.
  cbv zeta in H.
  replace (calibratingG (Bench.after 999)) with 1 in H
    by (vm_compute; reflexivity).
  cbn [Z.eqb Pos.eqb] in H.
  apply H. reflexivity.
Defined.



(** [C5] on the code.  The craft rocks in pitch; the threshold is 10.  At
    the final cycle the offsets are zero; the roll axis passes the test
    and the pitch axis trips it.  The countdown is reloaded with 1000 and
    no notification is sent, as claimed; but the offset does not stay
    untouched: roll has been committed before pitch was tested, and the
    tick publishes -100 on roll and the raw 7 on yaw. *)
Theorem restart_keeps_roll_commit :
  calibratingG (Bench.rocked 999) = 1
  /\ gyroZero (Bench.rocked 999) = Vec3 0 0 0
  /\ moved 10 AX
       (accumulate (Bench.cfg 10) AX
          (acquire (Bench.cfg 10) (Bench.rock 999) (Bench.rocked 999))) = false
  /\ moved 10 AY
       (accumulate (Bench.cfg 10) AY
          (acquire (Bench.cfg 10) (Bench.rock 999) (Bench.rocked 999))) = true
  /\ calibratingG (gyroUpdate (Bench.cfg 10) (Bench.rocked 999)
                     (Some (Bench.rock 999))) = 1000
  /\ beeps (gyroUpdate (Bench.cfg 10) (Bench.rocked 999)
              (Some (Bench.rock 999))) = 0%nat
  /\ gyroZero (gyroUpdate (Bench.cfg 10) (Bench.rocked 999)
                 (Some (Bench.rock 999))) = Vec3 100 0 0
  /\ gyroADC (gyroUpdate (Bench.cfg 10) (Bench.rocked 999)
                (Some (Bench.rock 999))) = Vec3 (-100) 0 7.
Proof. vm_compute. repeat split. Qed.

(** A tick after calibration with both notches configured. *)
Lemma lowpass_off_bypasses_all_witness :
  gyroSoftLpfHz Bench.notches_cfg = 0
  /\ gyroSoftNotchHz1 Bench.notches_cfg = 400
  /\ gyroSoftNotchHz2 Bench.notches_cfg = 200
  /\ calibratingG (Bench.after 1000) = 0
  /\ (forall a,
        get (gyroADCf (gyroUpdate Bench.notches_cfg (Bench.after 1000)
                         (Some Bench.reading))) a
        = of_int (s32 (get Bench.reading a
                       - get (gyroZero (Bench.after 1000)) a)))
  /\ filter_state (gyroUpdate Bench.notches_cfg (Bench.after 1000)
                     (Some Bench.reading))
     = filter_state (Bench.after 1000).
Proof.
  assert (H0 : calibratingG (Bench.after 1000) = 0) by (vm_compute; reflexivity).
  destruct (lowpass_off_bypasses_all Bench.notches_cfg (Bench.after 1000)
              Bench.reading eq_refl) as (A & _ & C & D).
  repeat (split; [reflexivity || exact H0|]). split; [|exact D].
  intros a. rewrite A, (C H0 a). reflexivity.
Defined.

(** [C7] fails as stated: the denoiser turns a first reading of 1 into the
    float 0.5; the published integer is 0, where rounding to nearest with
    ties away from zero gives 1. *)
Lemma lrintf_rounds_half_to_even :
  get (gyroADCf Bench.denoised) AX = div (of_int 1) (of_int 2)
  /\ get (gyroADC Bench.denoised) AX = 0
  /\ round_nearest_ties_away_from_zero (get (gyroADCf Bench.denoised) AX) = 1.
Proof. vm_compute. repeat split. Qed.

(** [C9] fails as stated: the call leaves the sums of the completed
    window, (100000, -50000, 0), where they are; and with a loop period
    of 1 the countdown becomes 16960, not (1000 / 1) * 1000. *)
Lemma begin_keeps_sums_and_truncates :
  g (gyroSetCalibrationCycles (Bench.cfg 0) (Bench.after 1000))
  = Vec3 100000 (-50000) 0
  /\ calibratingG (gyroSetCalibrationCycles Bench.fast_cfg Bench.power_on)
     = 16960
  /\ (CALIBRATING_GYRO_CYCLES / targetLooptime Bench.fast_cfg)
     * CALIBRATING_GYRO_CYCLES = 1000000.
Proof. vm_compute. repeat split. Qed.

(** A second calibration of the scenario, begun with the sums of the
    first still in place: the call assigns the countdown and leaves the
    rest of the state as the first calibration left it. *)
Lemma begin_calibration_window_witness :
  g (Bench.after 1000) = Vec3 100000 (-50000) 0
  /\ calibratingG (gyroSetCalibrationCycles (Bench.cfg 0) (Bench.after 1000))
     = ((1000 / 1000) * 1000) mod 65536
  /\ gyroSetCalibrationCycles (Bench.cfg 0) (Bench.after 1000)
     = set_calibratingG 1000 (Bench.after 1000)
  /\ forall a,
       get (gyroZero
              (ticks (Bench.cfg 0)
                 (gyroSetCalibrationCycles (Bench.cfg 0) (Bench.after 1000))
                 (map Some (repeat Bench.reading 999 ++ [Bench.reading])))) a
       = rounded_mean (Bench.cfg 0)
           (window_sum (Bench.cfg 0) a
              (repeat Bench.reading 999 ++ [Bench.reading])).
Proof.
  split; [vm_compute; reflexivity|].
  assert (HC : 0 <= CALIBRATING_GYRO_CYCLES < 4294967296)
    by (vm_compute; split; [discriminate | reflexivity]).
  assert (HL : 0 < targetLooptime (Bench.cfg 0) < 4294967296)
    by (vm_compute; split; reflexivity).
  destruct (begin_calibration_window (Bench.cfg 0) (Bench.after 1000)
              (repeat Bench.reading 999) Bench.reading HC HL)
    as (A & (B & _) & _ & D).
  split; [exact A|].
  split; [etransitivity; [exact B | f_equal; exact A]|].
  apply D; vm_compute; reflexivity.
Defined.

(** The first cycle of the scenario. *)
Lemma countdown_never_underflows_witness :
  in_u16 (calibratingG Bench.calibrating)
  /\ calibratingG (gyroUpdate (Bench.cfg 0) Bench.calibrating
                     (Some Bench.reading))
     = calibratingG Bench.calibrating - 1.
Proof.
  assert (H : in_u16 (calibratingG Bench.calibrating))
    by (vm_compute; split; [discriminate | reflexivity]).
  split; [exact H|].
  destruct (countdown_never_underflows (Bench.cfg 0) Bench.calibrating
              (Some Bench.reading) H) as [[_ [E|E]]|[[_ E]|E]].
  - discriminate E.
  - discriminate E.
  - exact E.
  - vm_compute in E. discriminate E.
Defined.

(* ================================================================== *)
(** * Part III: further properties of the code *)

(** ** Runs of ticks *)

Section Runs.
Context {P : Platform}.
Variable cfg : config.

Local Abbreviation total := (gyroCalculateCalibratingCycles cfg).
Local Abbreviation threshold := (gyroMovementCalibrationThreshold cfg).
Local Abbreviation aligned raw := (alignSensors raw (gyroAlign cfg)).

Lemma ticks_cons s r reads :
  ticks cfg s (r :: reads) = ticks cfg (gyroUpdate cfg s r) reads.
Proof. reflexivity. Qed.

Lemma settled_without_threshold s : threshold = 0 -> settled cfg threshold s = true.
Proof. intros H. rewrite H. reflexivity. Qed.

(** Once calibration is complete a tick leaves the calibration alone. *)
Lemma tick_when_complete s read :
  calibratingG s = 0 ->
  calibration_part (gyroUpdate cfg s read) = calibration_part s.
Proof.
  intros H0. destruct read as [raw|]; [|reflexivity].
  destruct (tick_calibration cfg s raw) as (T1 & T2 & T3 & T4 & T5).
  unfold calibration_part. rewrite T1, T2, T3, T4, T5.
  now rewrite calibrate_complete by exact H0.
Qed.

Lemma run_when_complete reads : forall s,
  calibratingG s = 0 ->
  calibration_part (ticks cfg s reads) = calibration_part s.
Proof.
  induction reads as [|r l IH]; intros s H0; [reflexivity|].
  rewrite ticks_cons.
  pose proof (tick_when_complete s r H0) as E.
  rewrite IH; [exact E|].
  unfold calibration_part in E. congruence.
Qed.

(** [X1] With the movement test off, a calibration takes exactly as many ticks
    with a sample as the cycle count: it is incomplete after every shorter
    run, complete after the last tick, which commits the offsets and sends
    the one notification. *)
Theorem calibration_takes_exactly_total_ticks samples s :
  threshold = 0 ->
  calibratingG s = total ->
  samples <> [] ->
  Z.of_nat (length samples) = total ->
  let s' := ticks cfg s (map Some samples) in
  (forall k, (k < length samples)%nat ->
     isGyroCalibrationComplete (ticks cfg s (map Some (firstn k samples)))
     = false)
  /\ isGyroCalibrationComplete s' = true
  /\ beeps s' = S (beeps s)
  /\ forall a, get (gyroZero s') a = rounded_mean cfg (window_sum cfg a samples).
Proof.
  intros Hthr Hc Hne Hlen s'. subst s'.
  pose proof (total_in_u16 cfg) as Ht. unfold in_u16 in Ht.
  split.
  - intros k Hk. unfold isGyroCalibrationComplete. apply Z.eqb_neq.
    destruct k as [|k].
    + cbn [firstn map]. change (ticks cfg s []) with s.
      destruct samples; [now elim Hne|]. cbn [length] in Hlen. lia.
    + assert (Hl : length (firstn (S k) samples) = S k)
        by (apply firstn_length_le; lia).
      destruct (window_progress cfg (firstn (S k) samples) s Hc)
        as (C & _).
      * destruct samples; [now elim Hne | discriminate].
      * rewrite Hl. lia.
      * rewrite C, Hl. lia.
  - destruct (exists_last Hne) as (l & raw & ->).
    destruct (window_commit cfg l raw s Hc Hlen
                (settled_without_threshold _ Hthr)) as (C & Z1 & B).
    unfold isGyroCalibrationComplete. rewrite C. now repeat split.
Qed.

(** [X2] A tick without a sample changes nothing, so the ticks without a sample
    can be dropped from any run: a sensor that drops out delays a
    calibration and never corrupts it. *)
Theorem dropouts_only_delay s reads :
  ticks cfg s reads = ticks cfg s (present reads).
Proof.
  revert s. induction reads as [|r l IH]; intros s; [reflexivity|].
  destruct r as [raw|].
  - cbn [present filter]. rewrite !ticks_cons. apply IH.
  - cbn [present filter]. rewrite ticks_cons. apply IH.
Qed.

(** [X3] Once the countdown is 0, no run of ticks starts a calibration again:
    offsets, countdown, sums, deviations and the notification count keep
    their values. *)
Theorem calibrated_stays_calibrated s reads :
  calibratingG s = 0 ->
  let s' := ticks cfg s reads in
  gyroZero s' = gyroZero s /\ calibratingG s' = 0
  /\ g s' = g s /\ var s' = var s /\ beeps s' = beeps s.
Proof.
  intros H0 s'. subst s'.
  pose proof (run_when_complete reads s H0) as E.
  unfold calibration_part in E.
  split; [congruence|]. split; [congruence|].
  split; [congruence|]. split; congruence.
Qed.

(** [X4] The notification is sent by exactly the ticks that are a final cycle
    on which no axis trips the movement test, and such a tick completes
    the calibration. *)
Theorem notification_marks_completion s read :
  let s' := gyroUpdate cfg s read in
  beeps s'
  = match read with
    | Some raw =>
        if (calibratingG s =? 1)
           && settled cfg threshold (acquire cfg raw s)
        then S (beeps s) else beeps s
    | None => beeps s
    end
  /\ (beeps s' <> beeps s -> calibratingG s' = 0).
Proof.
  intros s'. subst s'. destruct read as [raw|]; [|now split].
  destruct (calibratingG s =? 1) eqn:E1.
  - apply Z.eqb_eq in E1.
    destruct (settled cfg threshold (acquire cfg raw s)) eqn:Es; cbn [andb].
    + destruct (tick_final_settled cfg s raw E1 Es) as (_ & C & B).
      split; [exact B | intros _; exact C].
    + destruct (tick_final_moved cfg s raw E1 Es) as (_ & B).
      split; [exact B | intros H; now elim H].
  - apply Z.eqb_neq in E1. cbn [andb].
    destruct (Z.eq_dec (calibratingG s) 0) as [E0|E0].
    + pose proof (tick_when_complete s (Some raw) E0) as E.
      unfold calibration_part in E.
      assert (B : beeps (gyroUpdate cfg s (Some raw)) = beeps s) by congruence.
      split; [exact B | intros H; now elim H].
    + destruct (tick_not_final cfg s raw E0 E1) as (_ & _ & _ & _ & B).
      split; [exact B | intros H; now elim H].
Qed.

End Runs.

(** ** The sums stay within an [int32_t] *)

Section Sums.
Context {P : Platform}.
Variable cfg : config.

Local Abbreviation total := (gyroCalculateCalibratingCycles cfg).
Local Abbreviation threshold := (gyroMovementCalibrationThreshold cfg).
Local Abbreviation aligned raw := (alignSensors raw (gyroAlign cfg)).
Local Abbreviation iteration a s := (reset_globals a (accumulate cfg a s)).
Local Abbreviation committed a s := (commit cfg a (iteration a s)).
Local Abbreviation final_sweep s :=
  (committed AZ (committed AY (committed AX s))).

(** The sum a calibration step starts from: 0 on the first cycle. *)
Local Abbreviation carried s a :=
  (if calibratingG s =? total then 0 else get (g s) a).

Lemma final_sweep_g s a :
  get (g (final_sweep s)) a = get (g (accumulate cfg a s)) a.
Proof.
  set (s1 := committed AX s). set (s2 := committed AY s1).
  destruct (committed_fields cfg AX s) as (A1 & _ & C1 & G1 & V1 & _).
  destruct (committed_fields cfg AY s1) as (A2 & _ & C2 & G2 & V2 & _).
  destruct (committed_fields cfg AZ s2) as (_ & _ & _ & G3 & _ & _).
  fold s1 in A1, C1, G1, V1. fold s2 in A2, C2, G2, V2.
  assert (S2 : get (g (accumulate cfg AY s1)) AY
               = get (g (accumulate cfg AY s)) AY).
  { apply accumulate_slot; rewrite ?C1, ?G1, ?V1, ?A1; reflexivity. }
  assert (S3 : get (g (accumulate cfg AZ s2)) AZ
               = get (g (accumulate cfg AZ s)) AZ).
  { apply accumulate_slot;
      rewrite ?C2, ?G2, ?V2, ?A2, ?C1, ?G1, ?V1, ?A1; reflexivity. }
  rewrite G3, G2, G1, S3, S2. destruct a; reflexivity.
Qed.

(** The state after a final cycle that completes the calibration. *)
Lemma perform_final_settled_state thr s :
  calibratingG s = 1 ->
  settled cfg thr s = true ->
  performGyroCalibration cfg thr s = set_calibratingG 0 (beeper (final_sweep s)).
Proof.
  intros H1 Hs.
  assert (C : calibratingG (final_sweep s) = 1).
  { destruct (final_sweep_fields cfg s) as (_ & _ & C & _).
    rewrite C. exact H1. }
  exact (perform_after_loop cfg thr _ _ (loop_final_settled cfg thr s H1 Hs) C).
Qed.

Lemma g_after_notification (s : state) :
  g (set_calibratingG 0 (beeper s)) = g s.
Proof. reflexivity. Qed.

Lemma perform_final_settled_g thr s a :
  calibratingG s = 1 ->
  settled cfg thr s = true ->
  get (g (performGyroCalibration cfg thr s)) a
  = s32 (carried s a + get (gyroADC s) a).
Proof.
  intros H1 Hs. rewrite (perform_final_settled_state thr s H1 Hs).
  rewrite g_after_notification, final_sweep_g. apply g_accumulate.
Qed.

(** The sums after a final cycle that completes the calibration. *)
Lemma tick_final_settled_g s raw a :
  calibratingG s = 1 ->
  settled cfg threshold (acquire cfg raw s) = true ->
  get (g (gyroUpdate cfg s (Some raw))) a
  = s32 (carried s a + get (aligned raw) a).
Proof.
  intros H1 Hs.
  destruct (tick_calibration cfg s raw) as (_ & _ & T3 & _).
  rewrite T3. clear T3.
  rewrite calibrate_active by (change (calibratingG s <> 0); lia).
  exact (perform_final_settled_g threshold (acquire cfg raw s) a H1 Hs).
Qed.

(** A reading added to a bounded sum stays within an [int32_t], with or
    without the half cycle count that line 149 adds. *)
Lemma carried_plus_reading s raw a :
  sums_bounded cfg s -> aligned_in_s16 cfg raw -> calibratingG s <> 0 ->
  let j := total - calibratingG s + 1 in
  1 <= j <= total
  /\ -32768 * j <= carried s a + get (aligned raw) a <= 32767 * j
  /\ in_s32 (carried s a + get (aligned raw) a)
  /\ in_s32 (carried s a + get (aligned raw) a + total / 2).
Proof.
  intros Hb Hr H0 j. subst j.
  pose proof (total_in_u16 cfg) as Ht. unfold in_u16 in Ht.
  specialize (Hr a). unfold in_s16 in Hr.
  assert (Hh : 0 <= total / 2 <= 32767).
  { split; [apply Z.div_pos; lia|].
    apply Z.lt_succ_r. apply Z.div_lt_upper_bound; lia. }
  unfold in_s32.
  destruct Hb as [Hc|(Hc & Hg)].
  - rewrite Hc, Z.eqb_refl. lia.
  - specialize (Hg a).
    replace (calibratingG s =? total) with false
      by (symmetry; apply Z.eqb_neq; lia).
    lia.
Qed.

(** The bound on the sums is kept by every tick whose reading is an
    [int16_t] on every axis. *)
Lemma sums_bounded_tick s read :
  sums_bounded cfg s ->
  match read with Some raw => aligned_in_s16 cfg raw | None => True end ->
  sums_bounded cfg (gyroUpdate cfg s read).
Proof.
  intros Hb Hr. destruct read as [raw|]; [|exact Hb].
  pose proof (total_in_u16 cfg) as Ht. unfold in_u16 in Ht.
  destruct (Z.eq_dec (calibratingG s) 0) as [E0|E0].
  { pose proof (tick_when_complete cfg s (Some raw) E0) as E.
    unfold calibration_part in E.
    assert (Ec : calibratingG (gyroUpdate cfg s (Some raw)) = calibratingG s)
      by congruence.
    assert (Eg : g (gyroUpdate cfg s (Some raw)) = g s) by congruence.
    unfold sums_bounded. rewrite Ec, Eg. exact Hb. }
  assert (Hu : 0 < calibratingG s <= total).
  { destruct Hb as [Hc|(Hc & _)]; lia. }
  destruct (Z.eq_dec (calibratingG s) 1) as [E1|E1].
  - destruct (settled cfg threshold (acquire cfg raw s)) eqn:Es.
    + destruct (tick_final_settled cfg s raw E1 Es) as (_ & C & _).
      right. rewrite C. split; [lia|]. intros a.
      rewrite (tick_final_settled_g s raw a E1 Es).
      destruct (carried_plus_reading s raw a Hb Hr E0) as (_ & B & I & _).
      rewrite s32_id by exact I.
      replace (total - 0) with (total - calibratingG s + 1) by lia. exact B.
    + destruct (tick_final_moved cfg s raw E1 Es) as (C & _).
      left. exact C.
  - destruct (tick_not_final cfg s raw E0 E1) as (_ & _ & C & G & _).
    right. rewrite C, u16_id by (unfold in_u16; lia).
    split; [lia|]. intros a. rewrite G.
    destruct (carried_plus_reading s raw a Hb Hr E0) as (_ & B & I & _).
    rewrite s32_id by exact I.
    replace (total - (calibratingG s - 1)) with (total - calibratingG s + 1)
      by lia.
    exact B.
Qed.

Lemma sums_bounded_run reads : forall s,
  sums_bounded cfg s -> readings_in_s16 cfg reads ->
  sums_bounded cfg (ticks cfg s reads).
Proof.
  induction reads as [|r l IH]; intros s Hb Hr; [exact Hb|].
  rewrite ticks_cons. inversion Hr as [|r' l' Hr1 Hr2]; subst.
  apply IH; [|exact Hr2]. now apply sums_bounded_tick.
Qed.

Lemma sums_bounded_begin s : sums_bounded cfg (gyroSetCalibrationCycles cfg s).
Proof. left. reflexivity. Qed.

(** [X5] From [gyroSetCalibrationCycles] on, as long as every aligned reading
    is an [int16_t], no addition of the calibration overflows: on every
    calibration tick of every run, the sum carried plus the reading, and
    that sum plus half the cycle count, are within an [int32_t], so the
    sum kept is the exact one. *)
Theorem calibration_sums_never_overflow s reads raw a :
  readings_in_s16 cfg reads -> aligned_in_s16 cfg raw ->
  let s1 := ticks cfg (gyroSetCalibrationCycles cfg s) reads in
  calibratingG s1 <> 0 ->
  in_s32 (carried s1 a + get (aligned raw) a)
  /\ in_s32 (carried s1 a + get (aligned raw) a + total / 2)
  /\ get (g (accumulate cfg a (acquire cfg raw s1))) a
     = carried s1 a + get (aligned raw) a.
Proof.
  intros Hr Hraw s1 H0.
  assert (Hb : sums_bounded cfg s1).
  { subst s1. apply sums_bounded_run; [apply sums_bounded_begin | exact Hr]. }
  clearbody s1.
  destruct (carried_plus_reading s1 raw a Hb Hraw H0) as (_ & _ & I1 & I2).
  split; [exact I1|]. split; [exact I2|].
  rewrite g_accumulate.
  change (calibratingG (acquire cfg raw s1)) with (calibratingG s1).
  change (g (acquire cfg raw s1)) with (g s1).
  change (gyroADC (acquire cfg raw s1)) with (aligned raw).
  apply s32_id. exact I1.
Qed.

End Sums.

(** ** The committed offsets *)

Section Offsets.
Context {P : Platform}.
Variable cfg : config.

Local Abbreviation total := (gyroCalculateCalibratingCycles cfg).
Local Abbreviation threshold := (gyroMovementCalibrationThreshold cfg).
Local Abbreviation aligned raw := (alignSensors raw (gyroAlign cfg)).

(** Line 149 against the exact quotient: the biased sum is reproduced to
    within one divisor, from below when it is not negative and from above
    when it is not positive. *)
Lemma rounded_mean_error sum :
  0 < total -> in_s32 (sum + total / 2) ->
  let e := sum + total / 2 - total * rounded_mean cfg sum in
  Z.abs e < total /\ (0 <= sum + total / 2 -> 0 <= e)
  /\ (sum + total / 2 <= 0 -> e <= 0).
Proof.
  intros HT Hr e. subst e. unfold rounded_mean, cdiv.
  rewrite s32_id by exact Hr.
  set (b := sum + total / 2). clearbody b.
  pose proof (Z.quot_rem' b total) as E.
  assert (HT0 : total <> 0) by lia.
  pose proof (Z.rem_bound_abs b total HT0) as B.
  replace (b - total * (b ÷ total)) with (Z.rem b total) by lia.
  split; [lia|]. split; intros H.
  - apply Z.rem_nonneg; assumption.
  - apply Z.rem_nonpos; assumption.
Qed.

(** For a sum of [int16_t] readings, one per cycle, the offset is an
    [int16_t] again. *)
Lemma rounded_mean_in_s16 sum :
  0 < total ->
  -32768 * total <= sum <= 32767 * total ->
  in_s16 (rounded_mean cfg sum).
Proof.
  intros HT Hs.
  pose proof (total_in_u16 cfg) as Ht. unfold in_u16 in Ht.
  assert (Hh : 0 <= total / 2 < total).
  { split; [apply Z.div_pos; lia | apply Z.div_lt; lia]. }
  assert (Hr : in_s32 (sum + total / 2)) by (unfold in_s32; lia).
  destruct (rounded_mean_error sum HT Hr) as (A & Bp & Bn).
  cbv zeta in A, Bp, Bn.
  set (r := rounded_mean cfg sum) in *. clearbody r.
  set (h := total / 2) in *. clearbody h.
  unfold in_s16.
  destruct (Z_le_gt_dec 0 (sum + h)) as [Hp|Hn].
  - specialize (Bp Hp). nia.
  - assert (Hn' : sum + h <= 0) by lia. specialize (Bn Hn'). nia.
Qed.

(** [X6] What a completed calibration leaves behind, for readings that are
    [int16_t] once aligned: on every axis the offset is an [int16_t], and
    [g] still holds the sum it was computed from; cycle count times offset
    differs from the biased sum by less than the cycle count, and for a
    sum that is not negative the offset is the integer nearest to the
    mean. *)
Theorem committed_offset_is_a_rounded_int16_mean s reads raw a :
  readings_in_s16 cfg reads -> aligned_in_s16 cfg raw ->
  let s1 := ticks cfg (gyroSetCalibrationCycles cfg s) reads in
  calibratingG s1 = 1 ->
  settled cfg threshold (acquire cfg raw s1) = true ->
  let s2 := gyroUpdate cfg s1 (Some raw) in
  let sum := get (g s2) a in
  let offset := get (gyroZero s2) a in
  isGyroCalibrationComplete s2 = true
  /\ in_s16 offset
  /\ Z.abs (sum + total / 2 - total * offset) < total
  /\ (0 <= sum -> 2 * Z.abs (sum - total * offset) <= total).
Proof.
  intros Hr Hraw s1 H1 Hs s2 sum offset.
  assert (Hb : sums_bounded cfg s1).
  { subst s1. apply sums_bounded_run; [apply sums_bounded_begin | exact Hr]. }
  clearbody s1.
  pose proof (total_in_u16 cfg) as Ht. unfold in_u16 in Ht.
  assert (H0 : calibratingG s1 <> 0) by lia.
  destruct (carried_plus_reading cfg s1 raw a Hb Hraw H0) as (J & B & I1 & I2).
  cbv zeta in J, B.
  replace (total - calibratingG s1 + 1) with total in J, B by lia.
  destruct (tick_final_settled cfg s1 raw H1 Hs) as (Z1 & C & _).
  assert (Eg : sum = (if calibratingG s1 =? total then 0 else get (g s1) a)
                     + get (aligned raw) a).
  { subst sum s2. rewrite (tick_final_settled_g cfg s1 raw a H1 Hs).
    apply s32_id. exact I1. }
  assert (Eo : offset = rounded_mean cfg sum).
  { subst offset s2. rewrite Z1, Eg, H1. f_equal. apply s32_id.
    pose proof I1 as I. rewrite H1 in I. exact I. }
  rewrite <- Eg in B, I1, I2. clear Eg Z1.
  fold s2 in C. clearbody s2 sum offset. subst offset.
  assert (HT : 0 < total) by lia.
  split. { unfold isGyroCalibrationComplete. now rewrite C. }
  split. { now apply rounded_mean_in_s16. }
  destruct (rounded_mean_error sum HT I2) as (A & Bp & _).
  cbv zeta in A, Bp. split; [exact A|].
  intros Hp.
  assert (Hh : 0 <= total / 2) by (apply Z.div_pos; lia).
  specialize (Bp ltac:(lia)).
  pose proof (Z.div_mod total 2 ltac:(lia)) as E.
  pose proof (Z.mod_pos_bound total 2 ltac:(lia)) as M.
  set (r := rounded_mean cfg sum) in *. clearbody r.
  set (h := total / 2) in *. set (m := total mod 2) in *. clearbody h m.
  lia.
Qed.

(** [X7] A loop time above the base cycle count gives a cycle count of 0:
    requesting a calibration then leaves it complete at once, and no run
    of ticks ever zeroes or commits an offset or sends the notification. *)
Theorem slow_loop_never_calibrates s reads :
  0 <= CALIBRATING_GYRO_CYCLES < targetLooptime cfg ->
  targetLooptime cfg < 4294967296 ->
  let s0 := gyroSetCalibrationCycles cfg s in
  let s' := ticks cfg s0 reads in
  total = 0
  /\ isGyroCalibrationComplete s0 = true
  /\ isGyroCalibrationComplete s' = true
  /\ gyroZero s' = gyroZero s /\ beeps s' = beeps s.
Proof.
  intros HC HL s0 s'.
  assert (HT : total = 0).
  { unfold gyroCalculateCalibratingCycles, u32 at 3 4.
    rewrite (Z.mod_small CALIBRATING_GYRO_CYCLES) by lia.
    rewrite (Z.mod_small (targetLooptime cfg)) by lia.
    rewrite Z.div_small by lia. reflexivity. }
  assert (H0 : calibratingG s0 = 0) by exact HT.
  pose proof (run_when_complete cfg reads s0 H0) as E.
  fold s' in E. unfold calibration_part in E.
  assert (E1 : gyroZero s' = gyroZero s0) by congruence.
  assert (E2 : calibratingG s' = calibratingG s0) by congruence.
  assert (E5 : beeps s' = beeps s0) by congruence.
  unfold isGyroCalibrationComplete. rewrite E1, E2, E5, H0.
  now repeat split.
Qed.

End Offsets.

(** ** A craft at rest *)

Section AtRest.
Context {P : Platform}.
Variable cfg : config.

Local Abbreviation total := (gyroCalculateCalibratingCycles cfg).
Local Abbreviation threshold := (gyroMovementCalibrationThreshold cfg).
Local Abbreviation aligned raw := (alignSensors raw (gyroAlign cfg)).

(** The sum of [n] equal readings. *)
Lemma window_sum_repeat raw a n :
  aligned_in_s16 cfg raw -> Z.of_nat n <= 65535 ->
  window_sum cfg a (repeat raw n) = Z.of_nat n * get (aligned raw) a.
Proof.
  intros Hr. specialize (Hr a). unfold in_s16 in Hr.
  induction n as [|n IH]; intros Hn; [reflexivity|].
  cbn [repeat]. rewrite repeat_cons, window_sum_snoc.
  rewrite IH by lia.
  rewrite s32_id by (unfold in_s32; nia). lia.
Qed.

(** The offset of a constant window: the reading itself when it is not
    negative, one above it when it is. *)
Lemma rounded_mean_of_constant v :
  2 <= total -> in_s16 v ->
  rounded_mean cfg (total * v) = if v <? 0 then v + 1 else v.
Proof.
  intros HT Hv. unfold in_s16 in Hv.
  pose proof (total_in_u16 cfg) as Ht. unfold in_u16 in Ht.
  destruct (v <? 0) eqn:E.
  - apply Z.ltb_lt in E.
    replace (total * v) with (- (- v * total)) by lia.
    destruct (rounded_mean_negative_exact cfg (- v) HT) as (R & _);
      [lia | unfold in_s32; nia |].
    rewrite R. lia.
  - apply Z.ltb_ge in E. unfold rounded_mean, cdiv.
    assert (Hh : 0 <= total / 2 < total).
    { split; [apply Z.div_pos; lia | apply Z.div_lt; lia]. }
    rewrite s32_id by (unfold in_s32; nia).
    rewrite Z.quot_div_nonneg by nia.
    symmetry. apply (Z.div_unique_pos _ _ v (total / 2)); lia.
Qed.

(** [X8] Calibrate, then measure.  After a calibration at rest (the same
    reading on every cycle, movement test off) a further tick with that
    reading, low-pass off, publishes 0 on the axes whose reading is not
    negative and -1 on the axes whose reading is negative: there the
    offset committed is one above the reading. *)
Theorem craft_at_rest_reads_zero_or_minus_one s raw a :
  threshold = 0 -> gyroSoftLpfHz cfg = 0 ->
  calibratingG s = total -> 2 <= total ->
  aligned_in_s16 cfg raw ->
  let s1 := ticks cfg s (repeat (Some raw) (Z.to_nat total)) in
  let s2 := gyroUpdate cfg s1 (Some raw) in
  let v := get (aligned raw) a in
  isGyroCalibrationComplete s1 = true
  /\ get (gyroZero s1) a = (if v <? 0 then v + 1 else v)
  /\ get (gyroADC s2) a = (if v <? 0 then -1 else 0)
  /\ get (gyroADCf s2) a = of_int (if v <? 0 then -1 else 0).
Proof.
  intros Hthr Hf Hc HT Hraw s1 s2 v.
  pose proof (total_in_u16 cfg) as Ht. unfold in_u16 in Ht.
  pose proof (Hraw a) as Hv. fold v in Hv.
  assert (En : Z.to_nat total = S (Z.to_nat (total - 1))).
  { rewrite <- Z2Nat.inj_succ by lia. f_equal. lia. }
  set (n := Z.to_nat (total - 1)) in *.
  assert (E1 : repeat (Some raw) (Z.to_nat total)
               = map Some (repeat raw n ++ [raw])).
  { rewrite En, <- repeat_cons. cbn [repeat map]. now rewrite map_repeat. }
  assert (Hlen : Z.of_nat (length (repeat raw n ++ [raw])) = total).
  { rewrite length_app, repeat_length. cbn [length]. subst n. lia. }
  destruct (window_commit cfg (repeat raw n) raw s Hc Hlen
              (settled_without_threshold cfg _ Hthr)) as (C & Z1 & _).
  rewrite <- E1 in C, Z1. fold s1 in C, Z1.
  assert (Eo : get (gyroZero s1) a = if v <? 0 then v + 1 else v).
  { rewrite Z1, <- repeat_cons.
    change (raw :: repeat raw n) with (repeat raw (S n)).
    rewrite window_sum_repeat by (try exact Hraw; subst n; lia).
    replace (Z.of_nat (S n)) with total by (subst n; lia).
    now apply rounded_mean_of_constant. }
  clearbody s1.
  split. { unfold isGyroCalibrationComplete. now rewrite C. }
  split. { exact Eo. }
  assert (Ea : get (gyroADC (subtract_zero (calibrate cfg (acquire cfg raw s1)))) a
               = if v <? 0 then -1 else 0).
  { rewrite calibrate_complete by exact C.
    transitivity (s32 (v - get (gyroZero s1) a)).
    { destruct a; reflexivity. }
    rewrite Eo. unfold in_s16 in Hv.
    destruct (v <? 0); rewrite s32_id by (unfold in_s32; lia); lia. }
  subst s2. unfold gyroUpdate.
  rewrite (filter_chain_off cfg _ Hf).
  revert Ea. generalize (subtract_zero (calibrate cfg (acquire cfg raw s1))).
  intros mid Ea. cbn [gyroADC gyroADCf set_gyroADCf].
  split; [exact Ea|]. rewrite <- Ea. destruct a; reflexivity.
Qed.

End AtRest.

(** ** The filter loop, axis by axis *)

Section Lanes.
Context {P : Platform}.
Variable cfg : config.

Ltac fields :=
  cbn [gyroADC gyroADCf gyroFilterLPF gyroFilterNotch_1 gyroFilterNotch_2
       gyroFilterPt1 gyroDenoiseState
       set_gyroADC set_gyroADCf set_debug set_gyroFilterLPF
       set_gyroFilterNotch_1 set_gyroFilterNotch_2 set_gyroFilterPt1
       set_gyroDenoiseState].

Ltac cases :=
  repeat match goal with
         | |- context [if ?b then _ else _] => destruct b
         | |- context [let (_, _) := ?e in _] => destruct e
         end.

Ltac other_lane H :=
  unfold axis_lane; cases; fields; rewrite ?(get_set_other _ _ _ _ H);
  reflexivity.

Ltac lane_eqs :=
  repeat match goal with
         | E : get _ ?a = get _ ?a |- _ => rewrite E
         end.

Ltac same_lane H :=
  unfold axis_lane in H; injection H; intros;
  unfold axis_lane; lane_eqs; cases; fields;
  rewrite ?get_set_same; lane_eqs; reflexivity.

(** A stage working on one axis leaves the lanes of the others alone. *)
Lemma stages_other_lane a b s :
  b <> a ->
  axis_lane a (tap_gyro cfg b s) = axis_lane a s
  /\ axis_lane a (lowpass cfg b s) = axis_lane a s
  /\ axis_lane a (tap_notch cfg b s) = axis_lane a s
  /\ axis_lane a (notch_1 cfg b s) = axis_lane a s
  /\ axis_lane a (notch_2 cfg b s) = axis_lane a s
  /\ axis_lane a (round_output b s) = axis_lane a s
  /\ axis_lane a (passthrough_axis b s) = axis_lane a s.
Proof.
  intros H.
  split; [unfold tap_gyro; other_lane H|].
  split; [unfold lowpass; other_lane H|].
  split; [unfold tap_notch; other_lane H|].
  split; [unfold notch_1; other_lane H|].
  split; [unfold notch_2; other_lane H|].
  split; [unfold round_output; other_lane H|].
  unfold passthrough_axis; other_lane H.
Qed.

(** What a stage leaves in the lane of its own axis depends on that lane
    only. *)
Lemma tap_gyro_lane a s1 s2 :
  axis_lane a s1 = axis_lane a s2 ->
  axis_lane a (tap_gyro cfg a s1) = axis_lane a (tap_gyro cfg a s2).
Proof. intros H. unfold tap_gyro. same_lane H. Qed.

Lemma lowpass_lane a s1 s2 :
  axis_lane a s1 = axis_lane a s2 ->
  axis_lane a (lowpass cfg a s1) = axis_lane a (lowpass cfg a s2).
Proof. intros H. unfold lowpass. same_lane H. Qed.

Lemma tap_notch_lane a s1 s2 :
  axis_lane a s1 = axis_lane a s2 ->
  axis_lane a (tap_notch cfg a s1) = axis_lane a (tap_notch cfg a s2).
Proof. intros H. unfold tap_notch. same_lane H. Qed.

Lemma notch_1_lane a s1 s2 :
  axis_lane a s1 = axis_lane a s2 ->
  axis_lane a (notch_1 cfg a s1) = axis_lane a (notch_1 cfg a s2).
Proof. intros H. unfold notch_1. same_lane H. Qed.

Lemma notch_2_lane a s1 s2 :
  axis_lane a s1 = axis_lane a s2 ->
  axis_lane a (notch_2 cfg a s1) = axis_lane a (notch_2 cfg a s2).
Proof. intros H. unfold notch_2. same_lane H. Qed.

Lemma round_output_lane a (s1 s2 : state) :
  axis_lane a s1 = axis_lane a s2 ->
  axis_lane a (round_output a s1) = axis_lane a (round_output a s2).
Proof. intros H. unfold round_output. same_lane H. Qed.

Lemma passthrough_lane a (s1 s2 : state) :
  axis_lane a s1 = axis_lane a s2 ->
  axis_lane a (passthrough_axis a s1) = axis_lane a (passthrough_axis a s2).
Proof. intros H. unfold passthrough_axis. same_lane H. Qed.

Lemma filter_axis_lane a s1 s2 :
  axis_lane a s1 = axis_lane a s2 ->
  axis_lane a (filter_axis cfg a s1) = axis_lane a (filter_axis cfg a s2).
Proof.
  intros H. unfold filter_axis.
  apply round_output_lane, notch_2_lane, notch_1_lane, tap_notch_lane,
    lowpass_lane, tap_gyro_lane, H.
Qed.

Lemma filter_axis_other_lane a b s :
  b <> a -> axis_lane a (filter_axis cfg b s) = axis_lane a s.
Proof.
  intros H. unfold filter_axis.
  destruct (stages_other_lane a b
              (notch_2 cfg b (notch_1 cfg b (tap_notch cfg b
                 (lowpass cfg b (tap_gyro cfg b s))))) H)
    as (_ & _ & _ & _ & _ & R & _). rewrite R.
  destruct (stages_other_lane a b
              (notch_1 cfg b (tap_notch cfg b (lowpass cfg b (tap_gyro cfg b s))))
              H) as (_ & _ & _ & _ & R2 & _). rewrite R2.
  destruct (stages_other_lane a b
              (tap_notch cfg b (lowpass cfg b (tap_gyro cfg b s))) H)
    as (_ & _ & _ & R1 & _). rewrite R1.
  destruct (stages_other_lane a b (lowpass cfg b (tap_gyro cfg b s)) H)
    as (_ & _ & T2 & _). rewrite T2.
  destruct (stages_other_lane a b (tap_gyro cfg b s) H) as (_ & L & _).
  rewrite L.
  destruct (stages_other_lane a b s H) as (T1 & _). exact T1.
Qed.

(** With the low-pass on, the lane of an axis after the whole loop is what
    that axis's own iteration makes of it. *)
Lemma filter_chain_own_lane a s :
  gyroSoftLpfHz cfg <> 0 ->
  axis_lane a (filter_chain cfg s) = axis_lane a (filter_axis cfg a s).
Proof.
  intros H. unfold filter_chain. apply Z.eqb_neq in H. rewrite H.
  cbn [negb fold_left].
  destruct a.
  - rewrite !filter_axis_other_lane by discriminate. reflexivity.
  - rewrite filter_axis_other_lane by discriminate.
    apply filter_axis_lane. now rewrite filter_axis_other_lane by discriminate.
  - apply filter_axis_lane.
    now rewrite !filter_axis_other_lane by discriminate.
Qed.

Lemma passthrough_own_lane a s :
  gyroSoftLpfHz cfg = 0 ->
  axis_lane a (filter_chain cfg s) = axis_lane a (passthrough_axis a s).
Proof.
  intros H. unfold filter_chain. rewrite H. cbn [Z.eqb negb fold_left].
  destruct a.
  - destruct (stages_other_lane AX AZ
                (passthrough_axis AY (passthrough_axis AX s)))
      as (_ & _ & _ & _ & _ & _ & R); [discriminate|]. rewrite R.
    destruct (stages_other_lane AX AY (passthrough_axis AX s))
      as (_ & _ & _ & _ & _ & _ & R2); [discriminate|]. now rewrite R2.
  - destruct (stages_other_lane AY AZ
                (passthrough_axis AY (passthrough_axis AX s)))
      as (_ & _ & _ & _ & _ & _ & R); [discriminate|]. rewrite R.
    apply passthrough_lane.
    destruct (stages_other_lane AY AX s) as (_ & _ & _ & _ & _ & _ & R2);
      [discriminate|]. exact R2.
  - apply passthrough_lane.
    destruct (stages_other_lane AZ AY (passthrough_axis AX s))
      as (_ & _ & _ & _ & _ & _ & R); [discriminate|]. rewrite R.
    destruct (stages_other_lane AZ AX s) as (_ & _ & _ & _ & _ & _ & R2);
      [discriminate|]. exact R2.
Qed.

(** [X9] The three axes are filtered apart: what the filter loop publishes for
    an axis, and the filter states it leaves for that axis, depend on that
    axis's integer and filter states only. *)
Theorem filter_chain_keeps_axes_apart a s1 s2 :
  axis_lane a s1 = axis_lane a s2 ->
  axis_lane a (filter_chain cfg s1) = axis_lane a (filter_chain cfg s2).
Proof.
  intros H. destruct (Z.eq_dec (gyroSoftLpfHz cfg) 0) as [E|E].
  - rewrite !passthrough_own_lane by exact E. now apply passthrough_lane.
  - rewrite !filter_chain_own_lane by exact E. now apply filter_axis_lane.
Qed.

End Lanes.

(** ** The order of the stages *)

Section Cascade.
Context {P : Platform}.
Variable cfg : config.

Ltac fields :=
  cbn [gyroADC gyroADCf gyroFilterLPF gyroFilterNotch_1 gyroFilterNotch_2
       gyroFilterPt1 gyroDenoiseState fst snd
       set_gyroADC set_gyroADCf set_debug set_gyroFilterLPF
       set_gyroFilterNotch_1 set_gyroFilterNotch_2 set_gyroFilterPt1
       set_gyroDenoiseState].

Ltac open_lane H :=
  unfold axis_lane in H; injection H; intros; subst; unfold axis_lane.

(** The debug taps write no lane. *)
Lemma taps_keep_lane a s :
  axis_lane a (tap_gyro cfg a s) = axis_lane a s
  /\ axis_lane a (tap_notch cfg a s) = axis_lane a s.
Proof.
  split; [unfold tap_gyro | unfold tap_notch];
    destruct (_ =? _); reflexivity.
Qed.

(** The second-order low-pass on a lane. *)
Lemma lowpass_biquad_on_lane a s adc f l n1 n2 p d :
  gyroSoftLpfType cfg = FILTER_BIQUAD ->
  axis_lane a s = (adc, f, l, n1, n2, p, d) ->
  axis_lane a (lowpass cfg a s)
  = (adc, snd (biquadFilterApply l (of_int adc)),
     fst (biquadFilterApply l (of_int adc)), n1, n2, p, d).
Proof.
  intros Ht H. open_lane H. unfold lowpass. rewrite Ht, Z.eqb_refl.
  destruct (biquadFilterApply _ _). fields.
  now rewrite !get_set_same.
Qed.

(** A configured notch on a lane. *)
Lemma notch_1_on_lane a s adc f l n1 n2 p d :
  gyroSoftNotchHz1 cfg <> 0 ->
  axis_lane a s = (adc, f, l, n1, n2, p, d) ->
  axis_lane a (notch_1 cfg a s)
  = (adc, snd (biquadFilterApply n1 f), l,
     fst (biquadFilterApply n1 f), n2, p, d).
Proof.
  intros Hn H. open_lane H. unfold notch_1.
  apply Z.eqb_neq in Hn. rewrite Hn. cbn [negb].
  destruct (biquadFilterApply _ _). fields.
  now rewrite !get_set_same.
Qed.

Lemma notch_2_on_lane a s adc f l n1 n2 p d :
  gyroSoftNotchHz2 cfg <> 0 ->
  axis_lane a s = (adc, f, l, n1, n2, p, d) ->
  axis_lane a (notch_2 cfg a s)
  = (adc, snd (biquadFilterApply n2 f), l, n1,
     fst (biquadFilterApply n2 f), p, d).
Proof.
  intros Hn H. open_lane H. unfold notch_2.
  apply Z.eqb_neq in Hn. rewrite Hn. cbn [negb].
  destruct (biquadFilterApply _ _). fields.
  now rewrite !get_set_same.
Qed.

(** A notch whose frequency is 0 is skipped. *)
Lemma notches_off_keep_lane a s :
  (gyroSoftNotchHz1 cfg = 0 -> notch_1 cfg a s = s)
  /\ (gyroSoftNotchHz2 cfg = 0 -> notch_2 cfg a s = s).
Proof.
  split; intros H; [unfold notch_1 | unfold notch_2]; now rewrite H.
Qed.

Lemma round_output_on_lane a (s : state) adc f l n1 n2 p d :
  axis_lane a s = (adc, f, l, n1, n2, p, d) ->
  axis_lane a (round_output a s) = (lrintf f, f, l, n1, n2, p, d).
Proof.
  intros H. open_lane H. unfold round_output. fields.
  now rewrite !get_set_same.
Qed.

(** The single-pole low-pass on a lane. *)
Lemma lowpass_pt1_on_lane a s adc f l n1 n2 p d :
  gyroSoftLpfType cfg <> FILTER_BIQUAD ->
  gyroSoftLpfType cfg = FILTER_PT1 ->
  axis_lane a s = (adc, f, l, n1, n2, p, d) ->
  axis_lane a (lowpass cfg a s)
  = (adc,
     snd (pt1FilterApply4 p (of_int adc) (gyroSoftLpfHz cfg) (gyroDt cfg)),
     l, n1, n2,
     fst (pt1FilterApply4 p (of_int adc) (gyroSoftLpfHz cfg) (gyroDt cfg)),
     d).
Proof.
  intros Hb Ht H. open_lane H. unfold lowpass.
  apply Z.eqb_neq in Hb. rewrite Hb. rewrite Ht, Z.eqb_refl.
  destruct (pt1FilterApply4 _ _ _ _). fields.
  now rewrite !get_set_same.
Qed.

(** The whole loop on a lane, second-order low-pass and both notches on. *)
Lemma cascade_on_lane a s adc f l n1 n2 p d :
  gyroSoftLpfHz cfg <> 0 ->
  gyroSoftLpfType cfg = FILTER_BIQUAD ->
  gyroSoftNotchHz1 cfg <> 0 ->
  gyroSoftNotchHz2 cfg <> 0 ->
  axis_lane a s = (adc, f, l, n1, n2, p, d) ->
  let r0 := biquadFilterApply l (of_int adc) in
  let r1 := biquadFilterApply n1 (snd r0) in
  let r2 := biquadFilterApply n2 (snd r1) in
  axis_lane a (filter_chain cfg s)
  = (lrintf (snd r2), snd r2, fst r0, fst r1, fst r2, p, d).
Proof.
  intros Hf Ht H1 H2 L r0 r1 r2. subst r0 r1 r2.
  rewrite (filter_chain_own_lane cfg a s Hf). unfold filter_axis.
  eapply round_output_on_lane.
  eapply (notch_2_on_lane _ _ _ _ _ _ _ _ _ H2).
  eapply (notch_1_on_lane _ _ _ _ _ _ _ _ _ H1).
  destruct (taps_keep_lane a (lowpass cfg a (tap_gyro cfg a s))) as (_ & T2).
  rewrite T2.
  eapply (lowpass_biquad_on_lane _ _ _ f _ _ _ _ _ Ht).
  destruct (taps_keep_lane a s) as (T1 & _). rewrite T1. exact L.
Qed.

(** The whole loop on a lane, single-pole low-pass and no notch. *)
Lemma single_pole_on_lane a s adc f l n1 n2 p d :
  gyroSoftLpfHz cfg <> 0 ->
  gyroSoftLpfType cfg <> FILTER_BIQUAD ->
  gyroSoftLpfType cfg = FILTER_PT1 ->
  gyroSoftNotchHz1 cfg = 0 ->
  gyroSoftNotchHz2 cfg = 0 ->
  axis_lane a s = (adc, f, l, n1, n2, p, d) ->
  let r := pt1FilterApply4 p (of_int adc) (gyroSoftLpfHz cfg) (gyroDt cfg) in
  axis_lane a (filter_chain cfg s)
  = (lrintf (snd r), snd r, l, n1, n2, fst r, d).
Proof.
  intros Hf Hb Ht H1 H2 L r. subst r.
  rewrite (filter_chain_own_lane cfg a s Hf). unfold filter_axis.
  eapply round_output_on_lane.
  destruct (notches_off_keep_lane a
              (notch_1 cfg a (tap_notch cfg a
                 (lowpass cfg a (tap_gyro cfg a s))))) as (_ & N2).
  rewrite (N2 H2).
  destruct (notches_off_keep_lane a
              (tap_notch cfg a (lowpass cfg a (tap_gyro cfg a s))))
    as (N1 & _).
  rewrite (N1 H1).
  destruct (taps_keep_lane a (lowpass cfg a (tap_gyro cfg a s))) as (_ & T2).
  rewrite T2.
  eapply (lowpass_pt1_on_lane _ _ _ f _ _ _ _ _ Hb Ht).
  destruct (taps_keep_lane a s) as (T1 & _). rewrite T1. exact L.
Qed.

(** [X10] With the second-order low-pass and both notches on, every axis goes
    through the three sections in the order low-pass, notch 1, notch 2,
    each fed with the output of the one before and each advancing its own
    state; the float published is the output of notch 2 and the integer
    published is its [lrintf]. *)
Theorem lowpass_then_notch_1_then_notch_2 a s :
  gyroSoftLpfHz cfg <> 0 ->
  gyroSoftLpfType cfg = FILTER_BIQUAD ->
  gyroSoftNotchHz1 cfg <> 0 ->
  gyroSoftNotchHz2 cfg <> 0 ->
  let r0 := biquadFilterApply (get (gyroFilterLPF s) a)
              (of_int (get (gyroADC s) a)) in
  let r1 := biquadFilterApply (get (gyroFilterNotch_1 s) a) (snd r0) in
  let r2 := biquadFilterApply (get (gyroFilterNotch_2 s) a) (snd r1) in
  axis_lane a (filter_chain cfg s)
  = (lrintf (snd r2), snd r2, fst r0, fst r1, fst r2,
     get (gyroFilterPt1 s) a, get (gyroDenoiseState s) a).
Proof.
  intros Hf Ht H1 H2 r0 r1 r2. subst r0 r1 r2.
  rewrite (filter_chain_own_lane cfg a s Hf). unfold filter_axis.
  eapply round_output_on_lane.
  eapply (notch_2_on_lane _ _ _ _ _ _ _ _ _ H2).
  eapply (notch_1_on_lane _ _ _ _ _ _ _ _ _ H1).
  destruct (taps_keep_lane a (lowpass cfg a (tap_gyro cfg a s))) as (_ & T2).
  rewrite T2.
  eapply (lowpass_biquad_on_lane _ _ _ (get (gyroADCf s) a) _ _ _ _ _ Ht).
  destruct (taps_keep_lane a s) as (T1 & _). rewrite T1. reflexivity.
Qed.

(** [X11] With the low-pass on and both notch frequencies 0, the published float
    is the output of the low-pass alone and the notch states are not
    touched. *)
Theorem notches_at_zero_hertz_are_skipped a s :
  gyroSoftLpfHz cfg <> 0 ->
  gyroSoftLpfType cfg = FILTER_BIQUAD ->
  gyroSoftNotchHz1 cfg = 0 ->
  gyroSoftNotchHz2 cfg = 0 ->
  let r0 := biquadFilterApply (get (gyroFilterLPF s) a)
              (of_int (get (gyroADC s) a)) in
  axis_lane a (filter_chain cfg s)
  = (lrintf (snd r0), snd r0, fst r0,
     get (gyroFilterNotch_1 s) a, get (gyroFilterNotch_2 s) a,
     get (gyroFilterPt1 s) a, get (gyroDenoiseState s) a).
Proof.
  intros Hf Ht H1 H2 r0. subst r0.
  rewrite (filter_chain_own_lane cfg a s Hf). unfold filter_axis.
  eapply round_output_on_lane.
  destruct (notches_off_keep_lane a
              (notch_1 cfg a (tap_notch cfg a (lowpass cfg a (tap_gyro cfg a s)))))
    as (_ & N2). rewrite (N2 H2).
  destruct (notches_off_keep_lane a
              (tap_notch cfg a (lowpass cfg a (tap_gyro cfg a s))))
    as (N1 & _). rewrite (N1 H1).
  destruct (taps_keep_lane a (lowpass cfg a (tap_gyro cfg a s))) as (_ & T2).
  rewrite T2.
  eapply (lowpass_biquad_on_lane _ _ _ (get (gyroADCf s) a) _ _ _ _ _ Ht).
  destruct (taps_keep_lane a s) as (T1 & _). rewrite T1. reflexivity.
Qed.

End Cascade.

(** ** The debug taps *)

Section Taps.
Context {P : Platform}.
Variable cfg : config.

Local Abbreviation threshold := (gyroMovementCalibrationThreshold cfg).

(** Two states with the same erasure differ in the debug array only. *)
Lemma erase_debug_eq (x y : state) :
  erase_debug x = erase_debug y -> x = set_debug (debug x) y.
Proof.
  destruct x, y. unfold erase_debug, set_debug. cbn.
  intros H. injection H. intros. subst. reflexivity.
Qed.

Lemma set_debug_self (s : state) : set_debug (debug s) s = s.
Proof. destruct s. reflexivity. Qed.

(** A function that commutes with the writes to the debug array does not
    write to it. *)
Lemma commuting_keeps_debug (f : state -> state) :
  (forall d s, f (set_debug d s) = set_debug d (f s)) ->
  forall s, debug (f s) = debug s.
Proof.
  intros H s. rewrite <- (set_debug_self s) at 1. rewrite H. reflexivity.
Qed.

(** Nor does its result depend on it. *)
Lemma commuting_respects_erasure (f : state -> state) :
  (forall d s, f (set_debug d s) = set_debug d (f s)) ->
  forall x y, erase_debug x = erase_debug y ->
  erase_debug (f x) = erase_debug (f y).
Proof.
  intros H x y E. rewrite (erase_debug_eq x y E), H. reflexivity.
Qed.

(** The calibration commutes with the writes to the debug array. *)
Lemma accumulate_set_debug a d s :
  accumulate cfg a (set_debug d s) = set_debug d (accumulate cfg a s).
Proof.
  unfold accumulate.
  change (isOnFirstGyroCalibrationCycle cfg (set_debug d s))
    with (isOnFirstGyroCalibrationCycle cfg s).
  destruct (isOnFirstGyroCalibrationCycle cfg s); reflexivity.
Qed.

Lemma calibrate_axis_set_debug a d s :
  calibrate_axis cfg threshold a (set_debug d s)
  = match calibrate_axis cfg threshold a s with
    | Continue x => Continue (set_debug d x)
    | Return x => Return (set_debug d x)
    end.
Proof.
  unfold calibrate_axis. rewrite accumulate_set_debug.
  generalize (accumulate cfg a s). intros t.
  change (reset_globals a (set_debug d t))
    with (set_debug d (reset_globals a t)).
  generalize (reset_globals a t). intros u.
  unfold finish.
  change (isOnFinalGyroCalibrationCycle (set_debug d u))
    with (isOnFinalGyroCalibrationCycle u).
  change (moved threshold a (set_debug d u)) with (moved threshold a u).
  destruct (isOnFinalGyroCalibrationCycle u); [|reflexivity].
  destruct (moved threshold a u); reflexivity.
Qed.

Lemma for_axes_commutes (body : axis -> state -> flow state)
  (h : state -> state) :
  (forall a s, body a (h s)
               = match body a s with
                 | Continue x => Continue (h x)
                 | Return x => Return (h x)
                 end) ->
  forall l s, for_axes body l (h s)
              = match for_axes body l s with
                | Continue x => Continue (h x)
                | Return x => Return (h x)
                end.
Proof.
  intros H l. induction l as [|a l IH]; intros s; [reflexivity|].
  cbn [for_axes]. rewrite H.
  destruct (body a s) as [x|x]; [apply IH | reflexivity].
Qed.

Lemma performGyroCalibration_set_debug d s :
  performGyroCalibration cfg threshold (set_debug d s)
  = set_debug d (performGyroCalibration cfg threshold s).
Proof.
  unfold performGyroCalibration.
  rewrite (for_axes_commutes (calibrate_axis cfg threshold) (set_debug d))
    by (intros a t; apply calibrate_axis_set_debug).
  destruct (for_axes (calibrate_axis cfg threshold) [AX; AY; AZ] s) as [x|x];
    [|reflexivity].
  change (isOnFinalGyroCalibrationCycle (set_debug d x))
    with (isOnFinalGyroCalibrationCycle x).
  destruct (isOnFinalGyroCalibrationCycle x); reflexivity.
Qed.

Lemma calibrate_set_debug d s :
  calibrate cfg (set_debug d s) = set_debug d (calibrate cfg s).
Proof.
  unfold calibrate.
  change (isGyroCalibrationComplete (set_debug d s))
    with (isGyroCalibrationComplete s).
  destruct (isGyroCalibrationComplete s); cbn [negb];
    [reflexivity | apply performGyroCalibration_set_debug].
Qed.

(** The calibration does not read the debug mode. *)
Lemma total_debugMode m :
  gyroCalculateCalibratingCycles (with_debugMode m cfg)
  = gyroCalculateCalibratingCycles cfg.
Proof. reflexivity. Qed.

Lemma accumulate_debugMode m a s :
  accumulate (with_debugMode m cfg) a s = accumulate cfg a s.
Proof.
  unfold accumulate, isOnFirstGyroCalibrationCycle.
  rewrite total_debugMode. reflexivity.
Qed.

Lemma calibrate_axis_debugMode m a s :
  calibrate_axis (with_debugMode m cfg) threshold a s
  = calibrate_axis cfg threshold a s.
Proof.
  unfold calibrate_axis. rewrite accumulate_debugMode.
  generalize (reset_globals a (accumulate cfg a s)). intros t.
  unfold finish, commit, rounded_mean, gyroSetCalibrationCycles.
  rewrite total_debugMode. reflexivity.
Qed.

Lemma for_axes_ext (b1 b2 : axis -> state -> flow state) :
  (forall a s, b1 a s = b2 a s) ->
  forall l s, for_axes b1 l s = for_axes b2 l s.
Proof.
  intros H l. induction l as [|a l IH]; intros s; [reflexivity|].
  cbn [for_axes]. rewrite H.
  destruct (b2 a s) as [x|x]; [apply IH | reflexivity].
Qed.

Lemma calibrate_debugMode m s :
  calibrate (with_debugMode m cfg) s = calibrate cfg s.
Proof.
  unfold calibrate, performGyroCalibration.
  change (gyroMovementCalibrationThreshold (with_debugMode m cfg))
    with threshold.
  rewrite (for_axes_ext (calibrate_axis (with_debugMode m cfg) threshold)
             (calibrate_axis cfg threshold))
    by (intros; apply calibrate_axis_debugMode).
  reflexivity.
Qed.

(** So do the filters. *)
Lemma lowpass_set_debug a d s :
  lowpass cfg a (set_debug d s) = set_debug d (lowpass cfg a s).
Proof.
  unfold lowpass. cbn [gyroADC gyroFilterLPF gyroFilterPt1 gyroDenoiseState
                       set_debug].
  destruct (gyroSoftLpfType cfg =? FILTER_BIQUAD).
  - destruct (biquadFilterApply _ _). reflexivity.
  - destruct (gyroSoftLpfType cfg =? FILTER_PT1).
    + destruct (pt1FilterApply4 _ _ _ _). reflexivity.
    + destruct (firFilterDenoiseUpdate _ _). reflexivity.
Qed.

Lemma notch_1_set_debug a d s :
  notch_1 cfg a (set_debug d s) = set_debug d (notch_1 cfg a s).
Proof.
  unfold notch_1. cbn [gyroADCf gyroFilterNotch_1 set_debug].
  destruct (negb (gyroSoftNotchHz1 cfg =? 0)); [|reflexivity].
  destruct (biquadFilterApply _ _). reflexivity.
Qed.

Lemma notch_2_set_debug a d s :
  notch_2 cfg a (set_debug d s) = set_debug d (notch_2 cfg a s).
Proof.
  unfold notch_2. cbn [gyroADCf gyroFilterNotch_2 set_debug].
  destruct (negb (gyroSoftNotchHz2 cfg =? 0)); [|reflexivity].
  destruct (biquadFilterApply _ _). reflexivity.
Qed.

(** A tap writes to the debug array and to nothing else, whatever the
    mode selected. *)
Lemma tap_gyro_erased m a x y :
  erase_debug x = erase_debug y ->
  erase_debug (tap_gyro (with_debugMode m cfg) a x)
  = erase_debug (tap_gyro cfg a y).
Proof.
  intros E. unfold tap_gyro.
  destruct (debugMode (with_debugMode m cfg) =? DEBUG_GYRO);
    destruct (debugMode cfg =? DEBUG_GYRO); exact E.
Qed.

Lemma tap_notch_erased m a x y :
  erase_debug x = erase_debug y ->
  erase_debug (tap_notch (with_debugMode m cfg) a x)
  = erase_debug (tap_notch cfg a y).
Proof.
  intros E. unfold tap_notch.
  destruct (debugMode (with_debugMode m cfg) =? DEBUG_NOTCH);
    destruct (debugMode cfg =? DEBUG_NOTCH); exact E.
Qed.

Lemma filter_axis_erased m a x y :
  erase_debug x = erase_debug y ->
  erase_debug (filter_axis (with_debugMode m cfg) a x)
  = erase_debug (filter_axis cfg a y).
Proof.
  intros E. unfold filter_axis.
  apply (commuting_respects_erasure (round_output a)); [reflexivity|].
  change (notch_2 (with_debugMode m cfg)) with (notch_2 cfg).
  apply (commuting_respects_erasure (notch_2 cfg a));
    [intros; apply notch_2_set_debug|].
  change (notch_1 (with_debugMode m cfg)) with (notch_1 cfg).
  apply (commuting_respects_erasure (notch_1 cfg a));
    [intros; apply notch_1_set_debug|].
  apply tap_notch_erased.
  change (lowpass (with_debugMode m cfg)) with (lowpass cfg).
  apply (commuting_respects_erasure (lowpass cfg a));
    [intros; apply lowpass_set_debug|].
  apply tap_gyro_erased. exact E.
Qed.

Lemma filter_chain_erased m x y :
  erase_debug x = erase_debug y ->
  erase_debug (filter_chain (with_debugMode m cfg) x)
  = erase_debug (filter_chain cfg y).
Proof.
  intros E. unfold filter_chain.
  change (gyroSoftLpfHz (with_debugMode m cfg)) with (gyroSoftLpfHz cfg).
  destruct (negb (gyroSoftLpfHz cfg =? 0)); cbn [fold_left].
  - apply filter_axis_erased, filter_axis_erased, filter_axis_erased, E.
  - apply (commuting_respects_erasure (passthrough_axis AZ)); [reflexivity|].
    apply (commuting_respects_erasure (passthrough_axis AY)); [reflexivity|].
    apply (commuting_respects_erasure (passthrough_axis AX)); [reflexivity|].
    exact E.
Qed.

Lemma gyroUpdate_erased m read x y :
  erase_debug x = erase_debug y ->
  erase_debug (gyroUpdate (with_debugMode m cfg) x read)
  = erase_debug (gyroUpdate cfg y read).
Proof.
  intros E. destruct read as [raw|]; [|exact E].
  unfold gyroUpdate. apply filter_chain_erased.
  apply (commuting_respects_erasure subtract_zero); [reflexivity|].
  rewrite calibrate_debugMode.
  apply (commuting_respects_erasure (calibrate cfg));
    [intros; apply calibrate_set_debug|].
  change (acquire (with_debugMode m cfg)) with (acquire cfg).
  apply (commuting_respects_erasure (acquire cfg raw)); [reflexivity|].
  exact E.
Qed.

Lemma ticks_erased m reads : forall x y,
  erase_debug x = erase_debug y ->
  erase_debug (ticks (with_debugMode m cfg) x reads)
  = erase_debug (ticks cfg y reads).
Proof.
  induction reads as [|r reads IH]; intros x y E; [exact E|].
  unfold ticks. cbn [fold_left]. apply IH, gyroUpdate_erased, E.
Qed.

(** [X12] The debug taps never feed back.  Whatever debug mode is selected and
    whatever the debug array holds, every run of ticks leaves the same
    outputs, offsets, filter states, sums, countdown and notification
    count: two runs differ in the debug array at most. *)
Theorem debug_taps_never_feed_back m d s reads :
  erase_debug (ticks (with_debugMode m cfg) (set_debug d s) reads)
  = erase_debug (ticks cfg s reads).
Proof. apply ticks_erased. reflexivity. Qed.

(** A stage that commutes with the writes to the debug array leaves the
    array as it finds it. *)
Lemma filters_keep_debug a s :
  debug (lowpass cfg a s) = debug s
  /\ debug (notch_1 cfg a s) = debug s
  /\ debug (notch_2 cfg a s) = debug s
  /\ debug (round_output a s) = debug s
  /\ debug (passthrough_axis a s) = debug s.
Proof.
  split; [|split; [|split; [|split]]].
  - apply (commuting_keeps_debug (lowpass cfg a)).
    intros. apply lowpass_set_debug.
  - apply (commuting_keeps_debug (notch_1 cfg a)).
    intros. apply notch_1_set_debug.
  - apply (commuting_keeps_debug (notch_2 cfg a)).
    intros. apply notch_2_set_debug.
  - reflexivity.
  - reflexivity.
Qed.

Lemma calibration_keeps_debug raw s :
  debug (subtract_zero (calibrate cfg (acquire cfg raw s))) = debug s.
Proof.
  change (debug (calibrate cfg (acquire cfg raw s)) = debug s).
  rewrite (commuting_keeps_debug (calibrate cfg))
    by (intros; apply calibrate_set_debug).
  reflexivity.
Qed.

(** The slot a tap writes is its own axis's. *)
Lemma taps_debug_other a b s :
  b <> a ->
  get (debug (tap_gyro cfg b s)) a = get (debug s) a
  /\ get (debug (tap_notch cfg b s)) a = get (debug s) a.
Proof.
  intros H. unfold tap_gyro, tap_notch.
  split; destruct (_ =? _); try reflexivity;
    cbn [debug set_debug]; apply get_set_other; exact H.
Qed.

(** With its mode not selected a tap does nothing. *)
Lemma taps_idle s a :
  (debugMode cfg <> DEBUG_GYRO -> tap_gyro cfg a s = s)
  /\ (debugMode cfg <> DEBUG_NOTCH -> tap_notch cfg a s = s).
Proof.
  unfold tap_gyro, tap_notch.
  split; intros H; apply Z.eqb_neq in H; rewrite H; reflexivity.
Qed.

(** The debug array across one iteration of the filter loop. *)
Lemma filter_axis_debug b s :
  debug (filter_axis cfg b s)
  = debug (tap_notch cfg b (lowpass cfg b (tap_gyro cfg b s))).
Proof.
  unfold filter_axis.
  destruct (filters_keep_debug b
              (notch_2 cfg b (notch_1 cfg b (tap_notch cfg b
                 (lowpass cfg b (tap_gyro cfg b s))))))
    as (_ & _ & _ & R & _).
  rewrite R.
  destruct (filters_keep_debug b
              (notch_1 cfg b (tap_notch cfg b
                 (lowpass cfg b (tap_gyro cfg b s)))))
    as (_ & _ & N2 & _).
  rewrite N2.
  destruct (filters_keep_debug b
              (tap_notch cfg b (lowpass cfg b (tap_gyro cfg b s))))
    as (_ & N1 & _).
  exact N1.
Qed.

Lemma filter_axis_debug_other a b s :
  b <> a -> get (debug (filter_axis cfg b s)) a = get (debug s) a.
Proof.
  intros H. rewrite filter_axis_debug.
  destruct (taps_debug_other a b (lowpass cfg b (tap_gyro cfg b s)) H)
    as (_ & T2).
  rewrite T2.
  destruct (filters_keep_debug b (tap_gyro cfg b s)) as (L & _).
  rewrite L.
  destruct (taps_debug_other a b s H) as (T1 & _). exact T1.
Qed.

Lemma filter_axis_debug_idle b s :
  debugMode cfg <> DEBUG_GYRO -> debugMode cfg <> DEBUG_NOTCH ->
  debug (filter_axis cfg b s) = debug s.
Proof.
  intros H1 H2. rewrite filter_axis_debug.
  destruct (taps_idle (lowpass cfg b (tap_gyro cfg b s)) b) as (_ & T2).
  rewrite (T2 H2).
  destruct (filters_keep_debug b (tap_gyro cfg b s)) as (L & _).
  rewrite L.
  destruct (taps_idle s b) as (T1 & _). rewrite (T1 H1). reflexivity.
Qed.

(** The first tap, selected alone, holds the integer the iteration starts
    from; the second the rounded output of the low-pass. *)
Lemma filter_axis_debug_own a s :
  DEBUG_GYRO <> DEBUG_NOTCH ->
  (debugMode cfg = DEBUG_GYRO ->
   get (debug (filter_axis cfg a s)) a = s16 (get (gyroADC s) a))
  /\ (debugMode cfg = DEBUG_NOTCH ->
      get (debug (filter_axis cfg a s)) a
      = s16 (lrintf (get (gyroADCf (lowpass cfg a (tap_gyro cfg a s))) a))).
Proof.
  intros D. rewrite filter_axis_debug. split; intros M.
  - destruct (taps_idle (lowpass cfg a (tap_gyro cfg a s)) a) as (_ & T2).
    rewrite T2 by congruence.
    destruct (filters_keep_debug a (tap_gyro cfg a s)) as (L & _).
    rewrite L. unfold tap_gyro.
    apply Z.eqb_eq in M. rewrite M. cbn [debug set_debug].
    apply get_set_same.
  - unfold tap_notch at 1.
    apply Z.eqb_eq in M. rewrite M. cbn [debug set_debug].
    apply get_set_same.
Qed.

Lemma tick_debug_idle s read :
  gyroSoftLpfHz cfg = 0
  \/ (debugMode cfg <> DEBUG_GYRO /\ debugMode cfg <> DEBUG_NOTCH) ->
  debug (gyroUpdate cfg s read) = debug s.
Proof.
  intros H. destruct read as [raw|]; [|reflexivity].
  unfold gyroUpdate.
  rewrite <- (calibration_keeps_debug raw s).
  generalize (subtract_zero (calibrate cfg (acquire cfg raw s))). intros t.
  unfold filter_chain.
  destruct (gyroSoftLpfHz cfg =? 0) eqn:Z0; cbn [negb fold_left].
  - reflexivity.
  - destruct H as [H|(H1 & H2)].
    + apply Z.eqb_neq in Z0. contradiction.
    + rewrite !filter_axis_debug_idle by assumption. reflexivity.
Qed.

(** [X13] The taps sit inside the filter loop.  With the low-pass off, or with a
    debug mode selected that is neither of the two the file knows, no run
    of ticks writes to the debug array. *)
Theorem debug_array_idle_without_a_tap s reads :
  gyroSoftLpfHz cfg = 0
  \/ (debugMode cfg <> DEBUG_GYRO /\ debugMode cfg <> DEBUG_NOTCH) ->
  debug (ticks cfg s reads) = debug s.
Proof.
  intros H. revert s.
  induction reads as [|r reads IH]; intros s; [reflexivity|].
  unfold ticks. cbn [fold_left].
  change (debug (ticks cfg (gyroUpdate cfg s r) reads) = debug s).
  rewrite IH. apply tick_debug_idle. exact H.
Qed.

Lemma lane_outputs a (s1 s2 : state) :
  axis_lane a s1 = axis_lane a s2 ->
  get (gyroADC s1) a = get (gyroADC s2) a
  /\ get (gyroADCf s1) a = get (gyroADCf s2) a.
Proof. unfold axis_lane. intros H. injection H. intros. split; assumption. Qed.

(** [X14] What the taps show after a tick with the low-pass on: the first the
    integer that enters the filter loop (the aligned reading minus the
    offset), the second the output of the low-pass before the notches,
    rounded; both cut to an [int16_t]. *)
Theorem taps_show_loop_input_and_lowpass_output s raw a :
  DEBUG_GYRO <> DEBUG_NOTCH ->
  gyroSoftLpfHz cfg <> 0 ->
  let s0 := subtract_zero (calibrate cfg (acquire cfg raw s)) in
  let s' := gyroUpdate cfg s (Some raw) in
  (debugMode cfg = DEBUG_GYRO ->
   get (debug s') a = s16 (get (gyroADC s0) a))
  /\ (debugMode cfg = DEBUG_NOTCH ->
      get (debug s') a
      = s16 (lrintf (get (gyroADCf (lowpass cfg a s0)) a))).
Proof.
  intros D Hf s0 s'. subst s'. unfold gyroUpdate. fold s0.
  generalize s0. clear s0. intros s0.
  assert (K : forall t, axis_lane a t = axis_lane a s0 ->
              (debugMode cfg = DEBUG_GYRO ->
               get (debug (filter_axis cfg a t)) a
               = s16 (get (gyroADC s0) a))
              /\ (debugMode cfg = DEBUG_NOTCH ->
                  get (debug (filter_axis cfg a t)) a
                  = s16 (lrintf (get (gyroADCf (lowpass cfg a s0)) a)))).
  { intros t L. destruct (filter_axis_debug_own a t D) as (G & N).
    split; intros M.
    - rewrite (G M). destruct (lane_outputs a t s0 L) as (E & _).
      rewrite E. reflexivity.
    - rewrite (N M).
      destruct (lane_outputs a _ _
                  (lowpass_lane cfg a _ _
                     (eq_trans (proj1 (taps_keep_lane cfg a t)) L)))
        as (_ & E).
      rewrite E. reflexivity. }
  unfold filter_chain. apply Z.eqb_neq in Hf. rewrite Hf.
  cbn [negb fold_left].
  destruct a.
  - rewrite !filter_axis_debug_other by discriminate.
    apply K. reflexivity.
  - rewrite filter_axis_debug_other by discriminate.
    apply K. apply filter_axis_other_lane. discriminate.
  - apply K. rewrite !filter_axis_other_lane by discriminate. reflexivity.
Qed.

End Taps.

(** ** Set-up *)

Section Initialisation.
Context {P : Platform} {F : FilterSetup}.
Variable su : settings.
Variable s : state.

Local Abbreviation looptime := (targetLooptime (globals su)).
Local Abbreviation hz := (gyroSoftLpfHz (globals su)).
Local Abbreviation interval :=
  (mul (of_int (u32 (targetLooptime (globals su)))) micro).

(** [0.000001f] is the binary32 nearest to one millionth: its significand
    has 24 bits and lies within one half of [2^43 / 10^6]. *)
Lemma micro_is_nearest :
  exists m,
    micro = S754_finite false m (-43)
    /\ 2 ^ 23 <= Z.pos m < 2 ^ 24
    /\ (2 * Z.pos m - 1) * 10 ^ 6 <= 2 * 2 ^ 43 <= (2 * Z.pos m + 1) * 10 ^ 6.
Proof.
  exists 8796093%positive. split; [reflexivity|].
  split; split; vm_compute; try reflexivity; intro; discriminate.
Qed.

(** The first loop of [gyroInit], by low-pass type. *)
Lemma lowpass_loop :
  fold_left (fun st a => init_lowpass a st) [AX; AY; AZ] (su, s)
  = if gyroSoftLpfType (globals su) =? FILTER_BIQUAD then
      (su,
       set_gyroFilterLPF
         (Vec3 (biquadFilterInitLPF (vx (gyroFilterLPF s)) hz looptime)
               (biquadFilterInitLPF (vy (gyroFilterLPF s)) hz looptime)
               (biquadFilterInitLPF (vz (gyroFilterLPF s)) hz looptime)) s)
    else if gyroSoftLpfType (globals su) =? FILTER_PT1 then
      (set_gyroDt interval su, s)
    else
      (su,
       set_gyroDenoiseState
         (Vec3 (firFilterDenoiseInit (vx (gyroDenoiseState s)) hz looptime)
               (firFilterDenoiseInit (vy (gyroDenoiseState s)) hz looptime)
               (firFilterDenoiseInit (vz (gyroDenoiseState s)) hz looptime))
         s).
Proof.
  cbn [fold_left]. unfold init_lowpass.
  destruct (gyroSoftLpfType (globals su) =? FILTER_BIQUAD) eqn:B.
  - rewrite B. rewrite B. reflexivity.
  - destruct (gyroSoftLpfType (globals su) =? FILTER_PT1) eqn:T.
    + cbn [globals set_gyroDt gyroSoftLpfType targetLooptime].
      rewrite B, T.
      cbn [globals set_gyroDt gyroSoftLpfType targetLooptime].
      rewrite B, T. reflexivity.
    + rewrite B, T. rewrite B, T. reflexivity.
Qed.

(** The second loop. *)
Lemma notch_loop (su0 : settings) (s0 : state) :
  fold_left (fun st a => init_notches a st) [AX; AY; AZ] (su0, s0)
  = (su0,
     set_gyroFilterNotch_2
       (Vec3 (biquadFilterInit (vx (gyroFilterNotch_2 s0))
                (gyroSoftNotchHz2 (globals su0))
                (targetLooptime (globals su0)) (gyroSoftNotchQ2 su0)
                FILTER_NOTCH)
             (biquadFilterInit (vy (gyroFilterNotch_2 s0))
                (gyroSoftNotchHz2 (globals su0))
                (targetLooptime (globals su0)) (gyroSoftNotchQ2 su0)
                FILTER_NOTCH)
             (biquadFilterInit (vz (gyroFilterNotch_2 s0))
                (gyroSoftNotchHz2 (globals su0))
                (targetLooptime (globals su0)) (gyroSoftNotchQ2 su0)
                FILTER_NOTCH))
       (set_gyroFilterNotch_1
          (Vec3 (biquadFilterInit (vx (gyroFilterNotch_1 s0))
                   (gyroSoftNotchHz1 (globals su0))
                   (targetLooptime (globals su0)) (gyroSoftNotchQ1 su0)
                   FILTER_NOTCH)
                (biquadFilterInit (vy (gyroFilterNotch_1 s0))
                   (gyroSoftNotchHz1 (globals su0))
                   (targetLooptime (globals su0)) (gyroSoftNotchQ1 su0)
                   FILTER_NOTCH)
                (biquadFilterInit (vz (gyroFilterNotch_1 s0))
                   (gyroSoftNotchHz1 (globals su0))
                   (targetLooptime (globals su0)) (gyroSoftNotchQ1 su0)
                   FILTER_NOTCH))
          s0)).
Proof. reflexivity. Qed.

Ltac settings_fields :=
  cbn [fst snd globals set_gyroDt gyroSoftNotchHz1 gyroSoftNotchHz2
       gyroSoftNotchQ1 gyroSoftNotchQ2 targetLooptime gyroDt].

Ltac state_fields :=
  cbn [gyroADC gyroADCf gyroZero gyroFilterLPF gyroFilterNotch_1
       gyroFilterNotch_2 gyroFilterPt1 gyroDenoiseState calibratingG g var
       debug beeps calibration_part
       set_gyroFilterLPF set_gyroFilterNotch_1 set_gyroFilterNotch_2
       set_gyroDenoiseState].

(** Before the loop time is known [gyroInit] does nothing. *)
Lemma gyroInit_without_looptime :
  looptime = 0 -> gyroInit su s = (su, s).
Proof.
  intros H. unfold gyroInit. cbn [fst]. rewrite H.
  cbn [Z.eqb negb]. rewrite !Bool.andb_false_r. cbn [fst].
  rewrite H. cbn [Z.eqb negb]. rewrite Bool.andb_false_r. reflexivity.
Qed.

(** [X15] [gyroInit] writes filter banks and the sample interval, nothing else:
    the calibration, the outputs, the debug array and the state of the
    single-pole filter keep their values; of the settings only [gyroDt]
    can change, and does so exactly when the low-pass is on, the loop time
    is known and the single-pole type is selected; and before the loop
    time is known the call changes nothing at all. *)
Theorem gyroInit_writes_filters_and_gyroDt_only :
  let su' := fst (gyroInit su s) in
  let s' := snd (gyroInit su s) in
  (calibration_part s' = calibration_part s
   /\ gyroADC s' = gyroADC s /\ gyroADCf s' = gyroADCf s
   /\ debug s' = debug s /\ gyroFilterPt1 s' = gyroFilterPt1 s
   /\ su' = (if negb (hz =? 0) && negb (looptime =? 0)
                && negb (gyroSoftLpfType (globals su) =? FILTER_BIQUAD)
                && (gyroSoftLpfType (globals su) =? FILTER_PT1)
             then set_gyroDt interval su else su))
  /\ (looptime = 0 -> gyroInit su s = (su, s)).
Proof.
  intros su' s'. subst su' s'. split; [|exact gyroInit_without_looptime].
  unfold gyroInit. cbn [fst].
  destruct (negb (hz =? 0) && negb (looptime =? 0)).
  - rewrite lowpass_loop.
    destruct (gyroSoftLpfType (globals su) =? FILTER_BIQUAD);
      [|destruct (gyroSoftLpfType (globals su) =? FILTER_PT1)];
      settings_fields;
      (destruct (_ && _); [rewrite notch_loop|]);
      cbn [fst snd andb negb]; state_fields;
      (split; [|split; [|split; [|split; [|split]]]]); reflexivity.
  - cbn [fst]. (destruct (_ && _); [rewrite notch_loop|]);
      cbn [fst snd andb negb]; state_fields;
      (split; [|split; [|split; [|split; [|split]]]]); reflexivity.
Qed.

(** [X16] Once the loop time is known, [gyroInit] initialises, on every axis,
    what the filter loop of a tick will use: with the low-pass on, the
    bank of the selected type (for the single-pole type the sample
    interval, the loop time in microseconds times [0.000001f]); with
    either notch frequency nonzero, both notch banks, each with its own
    frequency and quality factor, also the one whose frequency is 0. *)
Theorem gyroInit_prepares_every_axis a :
  looptime <> 0 ->
  let s' := snd (gyroInit su s) in
  (hz <> 0 ->
   if gyroSoftLpfType (globals su) =? FILTER_BIQUAD then
     get (gyroFilterLPF s') a
     = biquadFilterInitLPF (get (gyroFilterLPF s) a) hz looptime
   else if gyroSoftLpfType (globals su) =? FILTER_PT1 then
     gyroDt (globals (fst (gyroInit su s))) = interval
   else
     get (gyroDenoiseState s') a
     = firFilterDenoiseInit (get (gyroDenoiseState s) a) hz looptime)
  /\ (gyroSoftNotchHz1 (globals su) <> 0
      \/ gyroSoftNotchHz2 (globals su) <> 0 ->
      get (gyroFilterNotch_1 s') a
      = biquadFilterInit (get (gyroFilterNotch_1 s) a)
          (gyroSoftNotchHz1 (globals su)) looptime (gyroSoftNotchQ1 su)
          FILTER_NOTCH
      /\ get (gyroFilterNotch_2 s') a
         = biquadFilterInit (get (gyroFilterNotch_2 s) a)
             (gyroSoftNotchHz2 (globals su)) looptime (gyroSoftNotchQ2 su)
             FILTER_NOTCH).
Proof.
  intros HL s'. subst s'.
  assert (EL : negb (looptime =? 0) = true)
    by (apply Z.eqb_neq in HL; rewrite HL; reflexivity).
  unfold gyroInit. cbn [fst]. rewrite EL, !Bool.andb_true_r.
  split.
  - intros Hf. apply Z.eqb_neq in Hf. rewrite Hf. cbn [negb].
    rewrite lowpass_loop.
    destruct (gyroSoftLpfType (globals su) =? FILTER_BIQUAD);
      [|destruct (gyroSoftLpfType (globals su) =? FILTER_PT1)];
      settings_fields; rewrite EL, Bool.andb_true_r;
      (destruct (_ || _); [rewrite notch_loop|]);
      cbn [fst snd]; settings_fields; state_fields;
      try reflexivity; destruct a; reflexivity.
  - intros Hn.
    assert (EN : negb (gyroSoftNotchHz1 (globals su) =? 0)
                 || negb (gyroSoftNotchHz2 (globals su) =? 0) = true).
    { destruct Hn as [Hn|Hn]; apply Z.eqb_neq in Hn; rewrite Hn;
        cbn [negb orb]; [reflexivity | apply Bool.orb_true_r]. }
    destruct (negb (hz =? 0)).
    + rewrite lowpass_loop.
      destruct (gyroSoftLpfType (globals su) =? FILTER_BIQUAD);
        [|destruct (gyroSoftLpfType (globals su) =? FILTER_PT1)];
        settings_fields; rewrite EL, EN; cbn [andb];
        rewrite notch_loop; cbn [fst snd]; settings_fields; state_fields;
        destruct a; split; reflexivity.
    + cbn [fst]. rewrite EL, EN. cbn [andb].
      rewrite notch_loop. cbn [fst snd]. state_fields.
      destruct a; split; reflexivity.
Qed.

(** What enters the filter loop on a tick: the calibration has left the
    float and the filter banks alone. *)
Lemma loop_input_lane (cfg : config) raw (t : state) a :
  axis_lane a (subtract_zero (calibrate cfg (acquire cfg raw t)))
  = (get (gyroADC (subtract_zero (calibrate cfg (acquire cfg raw t)))) a,
     get (gyroADCf t) a, get (gyroFilterLPF t) a,
     get (gyroFilterNotch_1 t) a, get (gyroFilterNotch_2 t) a,
     get (gyroFilterPt1 t) a, get (gyroDenoiseState t) a).
Proof.
  destruct (calibrate_filters cfg (acquire cfg raw t)) as (B & Fl).
  unfold filter_state in B. injection B. intros B5 B4 B3 B2 B1.
  unfold axis_lane.
  change (gyroADCf (subtract_zero (calibrate cfg (acquire cfg raw t))))
    with (gyroADCf (calibrate cfg (acquire cfg raw t))).
  change (gyroFilterLPF (subtract_zero (calibrate cfg (acquire cfg raw t))))
    with (gyroFilterLPF (calibrate cfg (acquire cfg raw t))).
  change (gyroFilterNotch_1
            (subtract_zero (calibrate cfg (acquire cfg raw t))))
    with (gyroFilterNotch_1 (calibrate cfg (acquire cfg raw t))).
  change (gyroFilterNotch_2
            (subtract_zero (calibrate cfg (acquire cfg raw t))))
    with (gyroFilterNotch_2 (calibrate cfg (acquire cfg raw t))).
  change (gyroFilterPt1 (subtract_zero (calibrate cfg (acquire cfg raw t))))
    with (gyroFilterPt1 (calibrate cfg (acquire cfg raw t))).
  change (gyroDenoiseState
            (subtract_zero (calibrate cfg (acquire cfg raw t))))
    with (gyroDenoiseState (calibrate cfg (acquire cfg raw t))).
  rewrite Fl, B1, B2, B3, B4, B5. reflexivity.
Qed.

Lemma lane_components a (t : state) adc f l n1 n2 p d :
  axis_lane a t = (adc, f, l, n1, n2, p, d) ->
  get (gyroADC t) a = adc /\ get (gyroADCf t) a = f
  /\ get (gyroFilterLPF t) a = l /\ get (gyroFilterNotch_1 t) a = n1
  /\ get (gyroFilterNotch_2 t) a = n2 /\ get (gyroFilterPt1 t) a = p
  /\ get (gyroDenoiseState t) a = d.
Proof.
  unfold axis_lane. intros H. injection H. intros.
  split; [assumption|]. split; [assumption|]. split; [assumption|].
  split; [assumption|]. split; [assumption|]. split; assumption.
Qed.

(** [gyroInit] with the second-order low-pass and a notch on. *)
Lemma gyroInit_biquad_notches :
  looptime <> 0 -> hz <> 0 ->
  gyroSoftLpfType (globals su) = FILTER_BIQUAD ->
  gyroSoftNotchHz1 (globals su) <> 0 ->
  fst (gyroInit su s) = su
  /\ forall a,
       axis_lane a (snd (gyroInit su s))
       = (get (gyroADC s) a, get (gyroADCf s) a,
          biquadFilterInitLPF (get (gyroFilterLPF s) a) hz looptime,
          biquadFilterInit (get (gyroFilterNotch_1 s) a)
            (gyroSoftNotchHz1 (globals su)) looptime (gyroSoftNotchQ1 su)
            FILTER_NOTCH,
          biquadFilterInit (get (gyroFilterNotch_2 s) a)
            (gyroSoftNotchHz2 (globals su)) looptime (gyroSoftNotchQ2 su)
            FILTER_NOTCH,
          get (gyroFilterPt1 s) a, get (gyroDenoiseState s) a).
Proof.
  intros HL Hf Ht H1.
  apply Z.eqb_neq in HL, Hf, H1.
  unfold gyroInit. cbn [fst]. rewrite HL, Hf. cbn [negb andb].
  rewrite lowpass_loop. rewrite Ht, Z.eqb_refl. cbn [fst].
  rewrite HL, H1. cbn [negb andb orb].
  rewrite notch_loop. cbn [fst snd].
  split; [reflexivity|]. intros a. destruct a; reflexivity.
Qed.

(** [gyroInit] with the single-pole low-pass and no notch. *)
Lemma gyroInit_single_pole :
  looptime <> 0 -> hz <> 0 ->
  gyroSoftLpfType (globals su) <> FILTER_BIQUAD ->
  gyroSoftLpfType (globals su) = FILTER_PT1 ->
  gyroSoftNotchHz1 (globals su) = 0 ->
  gyroSoftNotchHz2 (globals su) = 0 ->
  gyroInit su s = (set_gyroDt interval su, s).
Proof.
  intros HL Hf Hb Ht H1 H2.
  apply Z.eqb_neq in HL, Hf, Hb.
  unfold gyroInit. cbn [fst]. rewrite HL, Hf. cbn [negb andb].
  rewrite lowpass_loop. rewrite Hb. rewrite Ht, Z.eqb_refl.
  settings_fields. rewrite H1, H2. reflexivity.
Qed.

(** [X17] The sample interval reaches the single-pole filter.  With that type
    selected, the low-pass on, no notch and the loop time known, the first
    tick after [gyroInit] runs the filter of every axis with the loop time
    in microseconds times [0.000001f] as the sample interval, on the state
    the filter had before [gyroInit]: the call does not initialise it. *)
Theorem single_pole_runs_on_the_loop_time raw a :
  looptime <> 0 -> hz <> 0 ->
  gyroSoftLpfType (globals su) <> FILTER_BIQUAD ->
  gyroSoftLpfType (globals su) = FILTER_PT1 ->
  gyroSoftNotchHz1 (globals su) = 0 ->
  gyroSoftNotchHz2 (globals su) = 0 ->
  let c := globals (fst (gyroInit su s)) in
  let s1 := first_tick su s (Some raw) in
  let x := get (gyroADC (subtract_zero (calibrate c (acquire c raw s)))) a in
  let r := pt1FilterApply4 (get (gyroFilterPt1 s) a) (of_int x) hz interval in
  get (gyroADCf s1) a = snd r
  /\ get (gyroADC s1) a = lrintf (snd r)
  /\ get (gyroFilterPt1 s1) a = fst r.
Proof.
  intros HL Hf Hb Ht H1 H2 c s1 x r. subst c s1 x r.
  unfold first_tick.
  rewrite (gyroInit_single_pole HL Hf Hb Ht H1 H2). cbn [fst snd].
  unfold gyroUpdate.
  pose proof (single_pole_on_lane (globals (set_gyroDt interval su)) a
                _ _ _ _ _ _ _ _ Hf Hb Ht H1 H2
                (loop_input_lane (globals (set_gyroDt interval su)) raw s a))
    as L.
  destruct (lane_components _ _ _ _ _ _ _ _ _ L)
    as (E1 & E2 & _ & _ & _ & E6 & _).
  split; [exact E2 | split; [exact E1 | exact E6]].
Qed.

End Initialisation.

(** ** From the settings to the first tick *)

Section EndToEnd.
Context {P : Platform} {F : FilterSetup}.
Variable su0 : settings.
Variable s : state.

Local Abbreviation looptime := (targetLooptime (globals su0)).

(** [X18] [gyroUseConfig], [gyroInit], then a tick.  With the second-order
    low-pass and both notches configured and the loop time known, the
    first tick filters every axis through three sections that [gyroInit]
    has initialised with the values [gyroUseConfig] stored: the 8-bit
    cutoff, the 16-bit notch frequencies, and for each notch the quality
    factor of its own frequency and cutoff. *)
Theorem configured_filters_run_on_the_first_tick
  thr lpf hz1 cut1 hz2 cut2 type raw a :
  looptime <> 0 ->
  u8 lpf <> 0 -> u8 type = FILTER_BIQUAD -> u16 hz1 <> 0 -> u16 hz2 <> 0 ->
  let su := gyroUseConfig thr lpf hz1 cut1 hz2 cut2 type su0 in
  let s' := snd (gyroInit su s) in
  let s1 := first_tick su s (Some raw) in
  let x :=
    get (gyroADC (subtract_zero
                    (calibrate (globals su) (acquire (globals su) raw s'))))
        a in
  let r0 :=
    biquadFilterApply
      (biquadFilterInitLPF (get (gyroFilterLPF s) a) (u8 lpf) looptime)
      (of_int x) in
  let r1 :=
    biquadFilterApply
      (biquadFilterInit (get (gyroFilterNotch_1 s) a) (u16 hz1) looptime
         (filterGetNotchQ (u16 hz1) (u16 cut1)) FILTER_NOTCH)
      (snd r0) in
  let r2 :=
    biquadFilterApply
      (biquadFilterInit (get (gyroFilterNotch_2 s) a) (u16 hz2) looptime
         (filterGetNotchQ (u16 hz2) (u16 cut2)) FILTER_NOTCH)
      (snd r1) in
  gyroMovementCalibrationThreshold (globals su) = thr
  /\ get (gyroADCf s1) a = snd r2
  /\ get (gyroADC s1) a = lrintf (snd r2)
  /\ get (gyroFilterLPF s1) a = fst r0
  /\ get (gyroFilterNotch_1 s1) a = fst r1
  /\ get (gyroFilterNotch_2 s1) a = fst r2.
Proof.
  intros HL Hf Ht H1 H2 su s' s1 x r0 r1 r2.
  split; [reflexivity|].
  subst s1 x r0 r1 r2 s'. unfold first_tick.
  destruct (gyroInit_biquad_notches su s HL Hf Ht H1) as (E & B).
  rewrite E. unfold gyroUpdate.
  pose proof (loop_input_lane (globals su) raw (snd (gyroInit su s)) a)
    as L0.
  pose proof (B a) as Ba. unfold axis_lane in Ba. injection Ba.
  intros B7 B6 B5 B4 B3 B2 _.
  rewrite B2, B3, B4, B5, B6, B7 in L0.
  pose proof (cascade_on_lane (globals su) a _ _ _ _ _ _ _ _ Hf Ht H1 H2 L0)
    as L.
  destruct (lane_components _ _ _ _ _ _ _ _ _ L)
    as (E1 & E2 & E3 & E4 & E5 & _).
  split; [exact E2|]. split; [exact E1|]. split; [exact E3|].
  split; [exact E4 | exact E5].
Qed.

End EndToEnd.

(* ================================================================== *)
(** * The further properties on the bench *)

(** The readings of the scenario are [int16_t]s. *)
Lemma bench_reading_in_s16 : aligned_in_s16 (Bench.cfg 0) Bench.reading.
Proof. intros a. destruct a; unfold in_s16; cbn; lia. Qed.

Lemma bench_steady_in_s16 n : readings_in_s16 (Bench.cfg 0) (Bench.steady n).
Proof.
  unfold readings_in_s16, Bench.steady. apply Forall_forall.
  intros r Hr. apply repeat_spec in Hr. subst r. exact bench_reading_in_s16.
Qed.

(** The scenario: incomplete after 999 ticks, complete after 1000, one
    notification. *)
Lemma calibration_takes_exactly_total_ticks_witness :
  isGyroCalibrationComplete
    (ticks (Bench.cfg 0) Bench.calibrating
       (map Some (firstn 999 (repeat Bench.reading 1000)))) = false
  /\ isGyroCalibrationComplete
       (ticks (Bench.cfg 0) Bench.calibrating
          (map Some (repeat Bench.reading 1000))) = true
  /\ beeps (ticks (Bench.cfg 0) Bench.calibrating
              (map Some (repeat Bench.reading 1000))) = 1%nat.
Proof.
  destruct (calibration_takes_exactly_total_ticks (Bench.cfg 0)
              (repeat Bench.reading 1000) Bench.calibrating)
    as (A & B & C & _).
  - reflexivity.
  - vm_compute; reflexivity.
  - vm_compute; discriminate.
  - vm_compute; reflexivity.
  - split; [|split; [exact B | exact C]].
    apply A. rewrite repeat_length. lia.
Defined.

(** Five more ticks after the scenario's calibration. *)
Lemma calibrated_stays_calibrated_witness :
  gyroZero (ticks (Bench.cfg 0) (Bench.after 1000) (Bench.steady 5))
  = gyroZero (Bench.after 1000)
  /\ calibratingG (ticks (Bench.cfg 0) (Bench.after 1000) (Bench.steady 5))
     = 0.
Proof.
  destruct (calibrated_stays_calibrated (Bench.cfg 0) (Bench.after 1000)
              (Bench.steady 5)) as (A & B & _).
  - vm_compute; reflexivity.
  - split; [exact A | exact B].
Defined.

(** The pitch sum on the eleventh cycle of the scenario. *)
Lemma calibration_sums_never_overflow_witness :
  get (g (accumulate (Bench.cfg 0) AY
            (acquire (Bench.cfg 0) Bench.reading
               (ticks (Bench.cfg 0) Bench.calibrating (Bench.steady 10)))))
      AY
  = - 550.
Proof.
  destruct (calibration_sums_never_overflow (Bench.cfg 0) Bench.power_on
              (Bench.steady 10) Bench.reading AY) as (_ & _ & E).
  - apply bench_steady_in_s16.
  - exact bench_reading_in_s16.
  - vm_compute; discriminate.
  - unfold Bench.calibrating. rewrite E. vm_compute; reflexivity.
Defined.

(** The pitch offset committed by the final cycle of the scenario. *)
Lemma committed_offset_is_a_rounded_int16_mean_witness :
  in_s16
    (get (gyroZero (gyroUpdate (Bench.cfg 0) (Bench.after 999)
                      (Some Bench.reading))) AY).
Proof.
  destruct (committed_offset_is_a_rounded_int16_mean (Bench.cfg 0)
              Bench.power_on (Bench.steady 999) Bench.reading AY)
    as (_ & A & _).
  - apply bench_steady_in_s16.
  - exact bench_reading_in_s16.
  - vm_compute; reflexivity.
  - vm_compute; reflexivity.
  - exact A.
Defined.

(** A loop period of 2000 against a base cycle count of 1000: a
    calibration requested after the scenario's leaves its offsets alone. *)
Lemma slow_loop_never_calibrates_witness :
  gyroCalculateCalibratingCycles Rig.slow_cfg = 0
  /\ gyroZero (ticks Rig.slow_cfg
                 (gyroSetCalibrationCycles Rig.slow_cfg (Bench.after 1000))
                 (Bench.steady 3))
     = gyroZero (Bench.after 1000).
Proof.
  destruct (slow_loop_never_calibrates Rig.slow_cfg (Bench.after 1000)
              (Bench.steady 3)) as (A & _ & _ & B & _).
  - vm_compute. split; [discriminate | reflexivity].
  - vm_compute; reflexivity.
  - split; [exact A | exact B].
Defined.

(** The scenario's pitch axis reads -1 at rest after calibration. *)
Lemma craft_at_rest_reads_zero_or_minus_one_witness :
  get (gyroADC
         (gyroUpdate (Bench.cfg 0)
            (ticks (Bench.cfg 0) Bench.calibrating
               (repeat (Some Bench.reading)
                  (Z.to_nat (gyroCalculateCalibratingCycles (Bench.cfg 0)))))
            (Some Bench.reading))) AY
  = - 1.
Proof.
  destruct (craft_at_rest_reads_zero_or_minus_one (Bench.cfg 0)
              Bench.calibrating Bench.reading AY) as (_ & _ & A & _).
  - reflexivity.
  - reflexivity.
  - vm_compute; reflexivity.
  - vm_compute; discriminate.
  - exact bench_reading_in_s16.
  - exact A.
Defined.

(** The roll axis through the denoiser, whatever pitch and yaw hold. *)
Lemma filter_chain_keeps_axes_apart_witness :
  axis_lane AX (filter_chain Bench.denoise_cfg
                  (set_gyroADC (Vec3 7 0 0) Bench.power_on))
  = axis_lane AX (filter_chain Bench.denoise_cfg
                    (set_gyroADC (Vec3 7 5 9) Bench.power_on)).
Proof.
  apply (filter_chain_keeps_axes_apart Bench.denoise_cfg AX
           (set_gyroADC (Vec3 7 0 0) Bench.power_on)
           (set_gyroADC (Vec3 7 5 9) Bench.power_on)).
  reflexivity.
Defined.

(** A reading of 3 through three pass-through sections: it is published
    as 3 and is the last input notch 2 has seen. *)
Lemma lowpass_then_notch_1_then_notch_2_witness :
  get (gyroADC (filter_chain (Bench.config_of 0 100 1 400 200)
                  (set_gyroADC (Vec3 3 0 0) Bench.power_on))) AX = 3
  /\ Bench.x1 (get (gyroFilterNotch_2
                      (filter_chain (Bench.config_of 0 100 1 400 200)
                         (set_gyroADC (Vec3 3 0 0) Bench.power_on))) AX)
     = of_int 3.
Proof.
  destruct (lane_components _ _ _ _ _ _ _ _ _
              (lowpass_then_notch_1_then_notch_2
                 (Bench.config_of 0 100 1 400 200) AX
                 (set_gyroADC (Vec3 3 0 0) Bench.power_on)
                 ltac:(vm_compute; discriminate) eq_refl
                 ltac:(vm_compute; discriminate)
                 ltac:(vm_compute; discriminate)))
    as (A & _ & _ & _ & B & _).
  split; [rewrite A | rewrite B]; vm_compute; reflexivity.
Defined.

(** The same reading with both notches at 0 Hz: notch 1 keeps its state. *)
Lemma notches_at_zero_hertz_are_skipped_witness :
  get (gyroFilterNotch_1 (filter_chain (Bench.config_of 0 100 1 0 0)
                            (set_gyroADC (Vec3 3 0 0) Bench.power_on))) AX
  = Bench.unity
  /\ Bench.x1 (get (gyroFilterLPF
                      (filter_chain (Bench.config_of 0 100 1 0 0)
                         (set_gyroADC (Vec3 3 0 0) Bench.power_on))) AX)
     = of_int 3.
Proof.
  destruct (lane_components _ _ _ _ _ _ _ _ _
              (notches_at_zero_hertz_are_skipped
                 (Bench.config_of 0 100 1 0 0) AX
                 (set_gyroADC (Vec3 3 0 0) Bench.power_on)
                 ltac:(vm_compute; discriminate) eq_refl eq_refl eq_refl))
    as (_ & _ & B & A & _).
  split; [rewrite A | rewrite B]; vm_compute; reflexivity.
Defined.

(** The scenario runs with the low-pass off. *)
Lemma debug_array_idle_without_a_tap_witness :
  debug (ticks (Bench.cfg 0) Bench.calibrating (Bench.steady 5))
  = debug Bench.calibrating.
Proof.
  apply (debug_array_idle_without_a_tap (Bench.cfg 0) Bench.calibrating
           (Bench.steady 5)).
  left. reflexivity.
Defined.

(** The first tap on the pitch axis of the scenario's reading. *)
Lemma taps_show_loop_input_and_lowpass_output_witness :
  get (debug (gyroUpdate
                (with_debugMode 3 (Bench.config_of 0 100 1 400 200))
                Bench.power_on (Some Bench.reading))) AY
  = - 50.
Proof.
  destruct (taps_show_loop_input_and_lowpass_output
              (with_debugMode 3 (Bench.config_of 0 100 1 400 200))
              Bench.power_on Bench.reading AY) as (A & _).
  - vm_compute; discriminate.
  - vm_compute; discriminate.
  - rewrite (A eq_refl). vm_compute; reflexivity.
Defined.

(** Notch 1 of the roll axis after set-up at 400 Hz with cutoff 300 Hz. *)
Lemma gyroInit_prepares_every_axis_witness :
  get (gyroFilterNotch_1
         (snd (gyroInit (F := Rig.setup) Rig.biquad_notches Bench.power_on)))
      AX
  = Rig.rig_biquadInit Bench.unity 400 1 (Rig.rig_notchQ 400 300) 1.
Proof.
  destruct (gyroInit_prepares_every_axis (F := Rig.setup)
              Rig.biquad_notches Bench.power_on AX) as (_ & A).
  - vm_compute; discriminate.
  - destruct A as (A & _).
    + left. vm_compute; discriminate.
    + rewrite A. reflexivity.
Defined.

(** The single-pole filter of the roll axis on the first tick, loop time
    1 microsecond. *)
Lemma single_pole_runs_on_the_loop_time_witness :
  get (gyroFilterPt1
         (first_tick (F := Rig.setup) Rig.single_pole Bench.power_on
            (Some Bench.reading))) AX
  = fst (Bench.bench_pt1 Bench.zero (of_int 100) 100 (mul (of_int 1) micro)).
Proof.
  destruct (single_pole_runs_on_the_loop_time (F := Rig.setup)
              Rig.single_pole Bench.power_on Bench.reading AX)
    as (_ & _ & A).
  - vm_compute; discriminate.
  - vm_compute; discriminate.
  - vm_compute; discriminate.
  - reflexivity.
  - reflexivity.
  - reflexivity.
  - rewrite A. reflexivity.
Defined.

(** A reading of 100 through the sections of the rig: gains 1, 12/7 and
    2/3. *)
Lemma configured_filters_run_on_the_first_tick_witness :
  get (gyroADC (first_tick (F := Rig.setup) Rig.biquad_notches
                  Bench.power_on (Some Bench.reading))) AX
  = 114.
Proof.
  destruct (configured_filters_run_on_the_first_tick (F := Rig.setup)
              Rig.blank Bench.power_on 32 100 400 300 200 100 1
              Bench.reading AX) as (_ & _ & A & _).
  - vm_compute; discriminate.
  - vm_compute; discriminate.
  - reflexivity.
  - vm_compute; discriminate.
  - vm_compute; discriminate.
  - unfold Rig.biquad_notches. rewrite A. vm_compute; reflexivity.
Defined.
